(** * daily-monitoring-app: access control and entity lifecycle

    A shallow embedding of the backend of the daily monitoring application
    (Mongoose models [User], [Team], [Project], [Task] and the Express route
    handlers of [routes/auth.js], [routes/users.js], [routes/teams.js],
    [routes/projects.js] and [routes/tasks.js]), followed by the properties
    the specification states about them and by further properties of the
    same code.

    Conventions of the embedding.
    - An [ObjectId] is a natural number; [a.toString() === b.toString()] on
      two ids is equality of the numbers.
    - A [Date] is an integer (milliseconds since the epoch); [new Date()] is
      the field [now] of the request environment.
    - A JS [Number] holding hours is a rational ([Qc]); rounding of doubles is
      not modelled.  Numbers of days are integers: the quotient of a number
      of milliseconds below [2^53] by the length of a day is rounded by less
      than the distance of the exact quotient to the next integer, so
      [Math.ceil] of the double is the ceiling of the exact quotient.
    - A collection is a finite map from [_id] to document: the [_id] of a
      document is its key, the record holds the other paths.  A document
      read by [findById] is a copy: changes reach the collection at [save].
    - A handler is modelled from its first statement: the request it receives
      has passed the middleware chain of its route ([authenticateToken] has
      set [req.user]; the Joi schema has produced a typed body). *)

From stdpp Require Import gmap strings list fin_maps numbers pretty.
From Stdlib Require Import Ascii ZArith QArith Qcanon.

Set Warnings "-register-all".

Close Scope Qc_scope.
Close Scope Q_scope.

Abbreviation ObjectId := nat (only parsing).
Abbreviation Date := Z (only parsing).

(** ** Plain JS values, as produced by [toObject] *)

Module Js.

Inductive Value :=
| Null
| Bool (b : bool)
| Num (q : Qc)
| Str (s : string)
| Id (i : ObjectId)
| DateV (d : Date)
| Arr (l : list Value)
| Obj (fields : list (string * Value)).

(** [delete o.k] *)
Definition delete_prop (k : string) (o : Value) : Value :=
  match o with
  | Obj fields => Obj (filter (λ kv, kv.1 ≠ k) fields)
  | v => v
  end.

(** [k in o] *)
Definition has_key (k : string) (o : Value) : bool :=
  match o with
  | Obj fields => bool_decide (k ∈ fields.*1)
  | _ => false
  end.

(** A field whose value is [undefined] is absent from the object. *)
Definition opt_field (k : string) (v : option Value) : list (string * Value) :=
  match v with Some x => [(k, x)] | None => [] end.

(** [1000 * 3600 * 24] *)
Definition ms_per_day : Z := 1000 * 3600 * 24.

(** [Math.ceil(a / b)] for integers [a] and [b > 0]. *)
Definition ceil_div (a b : Z) : Z := (- ((- a) / b))%Z.

End Js.

(** ** models/User.js *)

Module User.

Inductive Role := admin | team_leader | member.

#[global] Instance user_role_eq_dec : EqDecision Role.
Proof. solve_decision. Defined.

Definition role_name (r : Role) : string :=
  match r with
  | admin => "admin"
  | team_leader => "team_leader"
  | member => "member"
  end.

Record Profile := {
  avatar : option string;
  phone : option string;
  department : option string;
  position : option string;
  joinDate : Date
}.

Record t := {
  name : string;
  email : string;
  password : string;
  role : Role;
  isActive : bool;
  teams : list ObjectId;
  profile : Profile;
  lastLogin : option Date;
  createdBy : option ObjectId;
  createdAt : Date;
  updatedAt : Date
}.

Definition profile_object (p : Profile) : Js.Value :=
  Js.Obj (Js.opt_field "avatar" (Js.Str <$> avatar p)
          ++ Js.opt_field "phone" (Js.Str <$> phone p)
          ++ Js.opt_field "department" (Js.Str <$> department p)
          ++ Js.opt_field "position" (Js.Str <$> position p)
          ++ [("joinDate", Js.DateV (joinDate p))]).

(** [this.toObject()]: every path of the schema that is set. *)
Definition toObject (_id : ObjectId) (u : t) : Js.Value :=
  Js.Obj ([("_id", Js.Id _id);
           ("name", Js.Str (name u));
           ("email", Js.Str (email u));
           ("password", Js.Str (password u));
           ("role", Js.Str (role_name (role u)));
           ("isActive", Js.Bool (isActive u));
           ("teams", Js.Arr (Js.Id <$> teams u));
           ("profile", profile_object (profile u))]
          ++ Js.opt_field "lastLogin" (Js.DateV <$> lastLogin u)
          ++ Js.opt_field "createdBy" (Js.Id <$> createdBy u)
          ++ [("createdAt", Js.DateV (createdAt u));
              ("updatedAt", Js.DateV (updatedAt u))]).

(** [userSchema.methods.toJSON] *)
Definition toJSON (_id : ObjectId) (u : t) : Js.Value :=
  let user := toObject _id u in
  Js.delete_prop "password" user.

(** [userSchema.virtual('fullProfile')] *)
Definition fullProfile (_id : ObjectId) (u : t) : Js.Value :=
  Js.Obj [("id", Js.Id _id);
          ("name", Js.Str (name u));
          ("email", Js.Str (email u));
          ("role", Js.Str (role_name (role u)));
          ("isActive", Js.Bool (isActive u));
          ("profile", profile_object (profile u));
          ("teams", Js.Arr (Js.Id <$> teams u));
          ("createdAt", Js.DateV (createdAt u));
          ("updatedAt", Js.DateV (updatedAt u))].

Definition canManageUsers (u : t) : bool := bool_decide (role u = admin).
Definition canManageTeams (u : t) : bool := bool_decide (role u = admin).
Definition canManageProjects (u : t) : bool :=
  bool_decide (role u ∈ [admin; team_leader]).

Definition set_password (h : string) (u : t) : t :=
  {| name := name u; email := email u; password := h;
     role := role u; isActive := isActive u; teams := teams u;
     profile := profile u; lastLogin := lastLogin u;
     createdBy := createdBy u; createdAt := createdAt u;
     updatedAt := updatedAt u |}.

Definition set_role (r : Role) (u : t) : t :=
  {| name := name u; email := email u; password := password u;
     role := r; isActive := isActive u; teams := teams u;
     profile := profile u; lastLogin := lastLogin u;
     createdBy := createdBy u; createdAt := createdAt u;
     updatedAt := updatedAt u |}.

Definition set_lastLogin (d : Date) (u : t) : t :=
  {| name := name u; email := email u; password := password u;
     role := role u; isActive := isActive u; teams := teams u;
     profile := profile u; lastLogin := Some d;
     createdBy := createdBy u; createdAt := createdAt u;
     updatedAt := updatedAt u |}.

Definition set_teams (ts : list ObjectId) (u : t) : t :=
  {| name := name u; email := email u; password := password u;
     role := role u; isActive := isActive u; teams := ts;
     profile := profile u; lastLogin := lastLogin u;
     createdBy := createdBy u; createdAt := createdAt u;
     updatedAt := updatedAt u |}.

Definition set_updatedAt (d : Date) (u : t) : t :=
  {| name := name u; email := email u; password := password u;
     role := role u; isActive := isActive u; teams := teams u;
     profile := profile u; lastLogin := lastLogin u;
     createdBy := createdBy u; createdAt := createdAt u;
     updatedAt := d |}.

Definition set_name (n : string) (u : t) : t :=
  {| name := n; email := email u; password := password u;
     role := role u; isActive := isActive u; teams := teams u;
     profile := profile u; lastLogin := lastLogin u;
     createdBy := createdBy u; createdAt := createdAt u;
     updatedAt := updatedAt u |}.

Definition set_email (e : string) (u : t) : t :=
  {| name := name u; email := e; password := password u;
     role := role u; isActive := isActive u; teams := teams u;
     profile := profile u; lastLogin := lastLogin u;
     createdBy := createdBy u; createdAt := createdAt u;
     updatedAt := updatedAt u |}.

Definition set_isActive (b : bool) (u : t) : t :=
  {| name := name u; email := email u; password := password u;
     role := role u; isActive := b; teams := teams u;
     profile := profile u; lastLogin := lastLogin u;
     createdBy := createdBy u; createdAt := createdAt u;
     updatedAt := updatedAt u |}.

Definition set_profile (p : Profile) (u : t) : t :=
  {| name := name u; email := email u; password := password u;
     role := role u; isActive := isActive u; teams := teams u;
     profile := p; lastLogin := lastLogin u;
     createdBy := createdBy u; createdAt := createdAt u;
     updatedAt := updatedAt u |}.

(** Two documents are compared path by path when [save] looks for modified
    paths. *)
#[global] Instance user_profile_eq_dec : EqDecision Profile.
Proof. solve_decision. Defined.
#[global] Instance user_eq_dec : EqDecision t.
Proof. solve_decision. Defined.

End User.

(** ** models/Team.js *)

Module Team.

Inductive MemberRole := team_leader | member.

#[global] Instance team_member_role_eq_dec : EqDecision MemberRole.
Proof. solve_decision. Defined.

Record Member := {
  user : ObjectId;
  joinedAt : Date;
  role : MemberRole
}.

Record Settings := {
  allowMemberInvite : bool;
  publicVisibility : bool
}.

Record t := {
  name : string;
  description : string;
  teamLeader : ObjectId;
  members : list Member;
  isActive : bool;
  settings : Settings;
  createdBy : ObjectId
}.

Definition set_members (ms : list Member) (tm : t) : t :=
  {| name := name tm; description := description tm;
     teamLeader := teamLeader tm; members := ms; isActive := isActive tm;
     settings := settings tm; createdBy := createdBy tm |}.

Definition set_teamLeader (l : ObjectId) (tm : t) : t :=
  {| name := name tm; description := description tm;
     teamLeader := l; members := members tm; isActive := isActive tm;
     settings := settings tm; createdBy := createdBy tm |}.

Definition set_name (n : string) (tm : t) : t :=
  {| name := n; description := description tm;
     teamLeader := teamLeader tm; members := members tm;
     isActive := isActive tm; settings := settings tm;
     createdBy := createdBy tm |}.

Definition set_description (d : string) (tm : t) : t :=
  {| name := name tm; description := d;
     teamLeader := teamLeader tm; members := members tm;
     isActive := isActive tm; settings := settings tm;
     createdBy := createdBy tm |}.

Definition set_isActive (b : bool) (tm : t) : t :=
  {| name := name tm; description := description tm;
     teamLeader := teamLeader tm; members := members tm;
     isActive := b; settings := settings tm; createdBy := createdBy tm |}.

Definition set_settings (st : Settings) (tm : t) : t :=
  {| name := name tm; description := description tm;
     teamLeader := teamLeader tm; members := members tm;
     isActive := isActive tm; settings := st; createdBy := createdBy tm |}.

Definition set_role (r : MemberRole) (m : Member) : Member :=
  {| user := user m; joinedAt := joinedAt m; role := r |}.

(** [teamSchema.virtual('activeMembersCount')] *)
Definition activeMembersCount (tm : t) : nat := length (members tm).

(** [teamSchema.methods.isTeamLeader] *)
Definition isTeamLeader (tm : t) (userId : ObjectId) : bool :=
  bool_decide (teamLeader tm = userId).

(** [teamSchema.methods.isMember]: [this.members.some(...)] *)
Definition isMember (tm : t) (userId : ObjectId) : bool :=
  existsb (λ m, bool_decide (user m = userId)) (members tm).

(** [teamSchema.methods.addMember]; the parameter [role] defaults to
    ['member'] when the caller passes [undefined]. *)
Definition addMember (userId : ObjectId) (role : option MemberRole)
    (now : Date) (tm : t) : t :=
  let role := default member role in
  let existingMember :=
    List.find (λ m, bool_decide (user m = userId)) (members tm) in
  match existingMember with
  | Some _ => tm
  | None =>
      set_members
        (members tm ++ [{| user := userId; role := role; joinedAt := now |}])
        tm
  end.

(** [teamSchema.methods.removeMember] *)
Definition removeMember (userId : ObjectId) (tm : t) : t :=
  set_members (filter (λ m, user m ≠ userId) (members tm)) tm.

(** [teamSchema.pre('save')]: the leader is pushed into [members] when no
    entry of [members] is theirs.  [this.teamLeader] is a required path, so
    the outer test is true. *)
Definition pre_save (now : Date) (tm : t) : t :=
  let leaderInMembers :=
    List.find (λ m, bool_decide (user m = teamLeader tm)) (members tm) in
  match leaderInMembers with
  | Some _ => tm
  | None =>
      set_members
        (members tm ++
           [{| user := teamLeader tm; role := team_leader; joinedAt := now |}])
        tm
  end.

End Team.

(** ** models/Project.js *)

Module Project.

Inductive MemberRole := project_manager | developer | tester | designer | other.
Inductive Status := planning | active | on_hold | completed | cancelled.
Inductive Priority := low | medium | high | critical.

#[global] Instance project_status_eq_dec : EqDecision Status.
Proof. solve_decision. Defined.
#[global] Instance project_priority_eq_dec : EqDecision Priority.
Proof. solve_decision. Defined.

Record Member := {
  user : ObjectId;
  assignedAt : Date;
  role : MemberRole
}.

Record Budget := {
  allocated : Qc;
  spent : Qc
}.

(** The path [attachments] is written by no handler and is left out. *)
Record t := {
  name : string;
  description : string;
  team : ObjectId;
  projectManager : ObjectId;
  assignedMembers : list Member;
  status : Status;
  priority : Priority;
  startDate : Date;
  endDate : Date;
  actualEndDate : option Date;
  budget : Budget;
  tags : list string;
  createdBy : ObjectId
}.

Definition set_assignedMembers (ms : list Member) (p : t) : t :=
  {| name := name p; description := description p; team := team p;
     projectManager := projectManager p; assignedMembers := ms;
     status := status p; priority := priority p; startDate := startDate p;
     endDate := endDate p; actualEndDate := actualEndDate p;
     budget := budget p; tags := tags p; createdBy := createdBy p |}.

(** [projectSchema.methods.isProjectManager] *)
Definition isProjectManager (p : t) (userId : ObjectId) : bool :=
  bool_decide (projectManager p = userId).

(** [projectSchema.methods.isAssignedMember] *)
Definition isAssignedMember (p : t) (userId : ObjectId) : bool :=
  existsb (λ m, bool_decide (user m = userId)) (assignedMembers p).

(** [projectSchema.methods.addMember]; [role] defaults to ['developer']. *)
Definition addMember (userId : ObjectId) (role : option MemberRole)
    (now : Date) (p : t) : t :=
  let role := default developer role in
  let existingMember :=
    List.find (λ m, bool_decide (user m = userId)) (assignedMembers p) in
  match existingMember with
  | Some _ => p
  | None =>
      set_assignedMembers
        (assignedMembers p ++
           [{| user := userId; role := role; assignedAt := now |}])
        p
  end.

(** [projectSchema.methods.removeMember] *)
Definition removeMember (userId : ObjectId) (p : t) : t :=
  set_assignedMembers (filter (λ m, user m ≠ userId) (assignedMembers p)) p.

(** [projectSchema.pre('save')]: [Some message] is the error handed to
    [next].  Both dates are required paths and a [Date] object is truthy, so
    the test is the comparison. *)
Definition pre_save (p : t) : option string :=
  if bool_decide (endDate p ≤ startDate p)%Z
  then Some "End date must be after start date"
  else None.

(** [projectSchema.virtual('duration')]; both dates are required paths, so
    the test [this.startDate && this.endDate] is true. *)
Definition duration (p : t) : Z :=
  let timeDiff := (endDate p - startDate p)%Z in
  Js.ceil_div timeDiff Js.ms_per_day.

End Project.

(** ** models/Task.js *)

Module Task.

Inductive Status := todo | in_progress | review | completed | cancelled.
Inductive Priority := low | medium | high | critical.
Inductive Type_ :=
  feature | bug | improvement | research | testing | documentation | other.
Inductive DependencyType := blocks | depends_on.

#[global] Instance task_status_eq_dec : EqDecision Status.
Proof. solve_decision. Defined.
#[global] Instance task_priority_eq_dec : EqDecision Priority.
Proof. solve_decision. Defined.
#[global] Instance task_type_eq_dec : EqDecision Type_.
Proof. solve_decision. Defined.

Definition status_name (s : Status) : string :=
  match s with
  | todo => "todo"
  | in_progress => "in_progress"
  | review => "review"
  | completed => "completed"
  | cancelled => "cancelled"
  end.

Record Dependency := {
  task : ObjectId;
  type : DependencyType
}.

Record Comment := {
  c_user : ObjectId;
  c_comment : string;
  c_createdAt : Date
}.

Record ProgressUpdate := {
  p_user : ObjectId;
  p_status : Status;
  p_comment : option string;
  p_hoursWorked : Qc;
  p_updatedAt : Date
}.

(** The path [attachments] is written by no handler and is left out. *)
Record t := {
  title : string;
  description : string;
  project : ObjectId;
  assignedTo : ObjectId;
  assignedBy : ObjectId;
  status : Status;
  priority : Priority;
  type_ : Type_;
  estimatedHours : Qc;
  actualHours : Qc;
  startDate : Date;
  dueDate : Date;
  completedDate : option Date;
  tags : list string;
  dependencies : list Dependency;
  comments : list Comment;
  progressUpdates : list ProgressUpdate
}.

(** [taskSchema.virtual('progressPercentage')] *)
Definition statusProgress : gmap string nat :=
  list_to_map
    [("todo", 0); ("in_progress", 25); ("review", 75); ("completed", 100);
     ("cancelled", 0)].

Definition progressPercentage (tk : t) : nat :=
  default 0 (statusProgress !! status_name (status tk)).

(** [taskSchema.methods.addComment] *)
Definition addComment (userId : ObjectId) (comment : string) (now : Date)
    (tk : t) : t :=
  {| title := title tk; description := description tk; project := project tk;
     assignedTo := assignedTo tk; assignedBy := assignedBy tk;
     status := status tk; priority := priority tk; type_ := type_ tk;
     estimatedHours := estimatedHours tk; actualHours := actualHours tk;
     startDate := startDate tk; dueDate := dueDate tk;
     completedDate := completedDate tk; tags := tags tk;
     dependencies := dependencies tk;
     comments :=
       comments tk ++
         [{| c_user := userId; c_comment := comment; c_createdAt := now |}];
     progressUpdates := progressUpdates tk |}.

(** [taskSchema.methods.updateProgress]; [hoursWorked] defaults to [0]. *)
Definition updateProgress (userId : ObjectId) (status : Status)
    (comment : option string) (hoursWorked : option Qc) (now : Date)
    (tk : t) : t :=
  let hoursWorked := default 0%Qc hoursWorked in
  {| title := title tk; description := description tk; project := project tk;
     assignedTo := assignedTo tk; assignedBy := assignedBy tk;
     status := status;
     priority := priority tk; type_ := type_ tk;
     estimatedHours := estimatedHours tk;
     actualHours := (actualHours tk + hoursWorked)%Qc;
     startDate := startDate tk; dueDate := dueDate tk;
     completedDate :=
       if bool_decide (status = completed) then Some now
       else completedDate tk;
     tags := tags tk;
     dependencies := dependencies tk;
     comments := comments tk;
     progressUpdates :=
       progressUpdates tk ++
         [{| p_user := userId; p_status := status; p_comment := comment;
             p_hoursWorked := hoursWorked; p_updatedAt := now |}] |}.

(** [taskSchema.methods.canModify] *)
Definition canModify (tk : t) (userId : ObjectId) (userRole : User.Role)
    : bool :=
  if bool_decide (userRole = User.admin) then true
  else if bool_decide (assignedTo tk = userId) then true
  else if bool_decide (assignedBy tk = userId) then true
  else false.

(** [taskSchema.pre('save')] *)
Definition pre_save (tk : t) : option string :=
  if bool_decide (dueDate tk ≤ startDate tk)%Z
  then Some "Due date must be after start date"
  else None.

(** [taskSchema.virtual('duration')]; both dates are required paths, so the
    test [this.startDate && this.dueDate] is true. *)
Definition duration (tk : t) : Z :=
  let timeDiff := (dueDate tk - startDate tk)%Z in
  Js.ceil_div timeDiff Js.ms_per_day.

(** [taskSchema.virtual('timeRemaining')] *)
Definition timeRemaining (now : Date) (tk : t) : Z :=
  if bool_decide (status tk = completed ∨ status tk = cancelled) then 0%Z
  else
    let timeDiff := (dueDate tk - now)%Z in
    Js.ceil_div timeDiff Js.ms_per_day.

(** [taskSchema.virtual('isOverdue')] *)
Definition isOverdue (now : Date) (tk : t) : bool :=
  if bool_decide (status tk = completed ∨ status tk = cancelled) then false
  else bool_decide (dueDate tk < now)%Z.

End Task.

(** ** JS string helpers used by the handlers *)

Module JsString.

Fixpoint trimStart (s : string) : string :=
  match s with
  | EmptyString => EmptyString
  | String a s' => if Ascii.is_space a then trimStart s' else s
  end.

(** [s.trim()] *)
Definition trim (s : string) : string :=
  String.rev (trimStart (String.rev (trimStart s))).

Definition lower_ascii (a : ascii) : ascii :=
  let n := nat_of_ascii a in
  if bool_decide (65 ≤ n ≤ 90) then ascii_of_nat (n + 32) else a.

(** [s.toLowerCase()], on the ASCII letters. *)
Fixpoint toLowerCase (s : string) : string :=
  match s with
  | EmptyString => EmptyString
  | String a s' => String (lower_ascii a) (toLowerCase s')
  end.

(** A string is truthy when it is not empty. *)
Definition truthy (s : string) : bool := bool_decide (s ≠ "").

End JsString.

(** ** The document store *)

Record Store := {
  users : gmap nat User.t;
  teams : gmap nat Team.t;
  projects : gmap nat Project.t;
  tasks : gmap nat Task.t
}.

Definition set_users (f : gmap nat User.t → gmap nat User.t) (s : Store) :=
  {| users := f (users s); teams := teams s; projects := projects s;
     tasks := tasks s |}.
Definition set_teams (f : gmap nat Team.t → gmap nat Team.t) (s : Store) :=
  {| users := users s; teams := f (teams s); projects := projects s;
     tasks := tasks s |}.
Definition set_projects (f : gmap nat Project.t → gmap nat Project.t)
    (s : Store) :=
  {| users := users s; teams := teams s; projects := f (projects s);
     tasks := tasks s |}.
Definition set_tasks (f : gmap nat Task.t → gmap nat Task.t) (s : Store) :=
  {| users := users s; teams := teams s; projects := projects s;
     tasks := f (tasks s) |}.

Definition empty_store : Store :=
  {| users := ∅; teams := ∅; projects := ∅; tasks := ∅ |}.

(** Mongoose queries over one collection.  A query is a decidable predicate
    on the pair of a document's [_id] and its other paths. *)

Module Mongo.
Section Collection.
Context {A : Type}.
Implicit Types (c : gmap nat A) (q : ObjectId * A → Prop).

Definition findById (id : ObjectId) c : option A := c !! id.

Definition find q `{!∀ d, Decision (q d)} c : list (ObjectId * A) :=
  filter q (map_to_list c).

Definition findOne q `{!∀ d, Decision (q d)} c : option (ObjectId * A) :=
  head (find q c).

Definition countDocuments c : nat := size c.

Definition findByIdAndDelete (id : ObjectId) c : gmap nat A := delete id c.

Definition findByIdAndUpdate (id : ObjectId) (f : A → A) c : gmap nat A :=
  alter f id c.

Definition updateMany q `{!∀ d, Decision (q d)} (f : A → A) c
    : gmap nat A :=
  map_imap (λ i d, Some (if decide (q (i, d)) then f d else d)) c.

(** [{ $addToSet: { path: x } }] and [{ $pull: { path: x } }] on an array
    of ids. *)
Definition addToSet (x : ObjectId) (l : list ObjectId) : list ObjectId :=
  if bool_decide (x ∈ l) then l else l ++ [x].

Definition pull (x : ObjectId) (l : list ObjectId) : list ObjectId :=
  filter (λ y, y ≠ x) l.
End Collection.

(** A key of a query object constrains a document when the key is set. *)
Definition when_set {B} (key : option B) (P : B → Prop) : Prop :=
  match key with
  | Some b => P b
  | None => True
  end.

#[global] Instance when_set_dec {B} (key : option B) (P : B → Prop)
  `{!∀ b, Decision (P b)} : Decision (when_set key P).
Proof. destruct key; simpl; apply _. Defined.

(** [if (x) query = f(x, query)] while a query object is built. *)
Definition if_set {B Q} (x : option B) (f : B → Q → Q) (q : Q) : Q :=
  match x with
  | Some b => f b q
  | None => q
  end.

(** The value of a key that holds an id: the id itself or [{ $in: ids }]. *)
Inductive IdCond :=
| IdEq (id : ObjectId)
| IdIn (ids : list ObjectId).

Definition id_matches (c : IdCond) (x : ObjectId) : Prop :=
  match c with
  | IdEq id => x = id
  | IdIn ids => x ∈ ids
  end.

#[global] Instance id_matches_dec c x : Decision (id_matches c x).
Proof. destruct c; simpl; apply _. Defined.
End Mongo.

(** ** The page of a list endpoint

    GET /api/teams, /api/projects, /api/tasks and /api/tasks/my-tasks end
    alike: the documents the query matches are sorted, the page is cut out
    with [.skip((page - 1) * limit).limit(parseInt(limit))], and the
    response carries a [pagination] object computed from [page], [limit] and
    [countDocuments(query)].  [page] and [limit] are the integers of the
    validated query string. *)

Module Page.

Record Pagination := {
  currentPage : nat;
  totalPages : option nat;
  totalDocs : nat;
  hasNext : bool;
  hasPrev : bool
}.

(** [.skip(n).limit(limit)]: the driver refuses a negative [n], and a limit
    of [0] is no limit. *)
Definition slice {A} (page limit : nat) (sorted : list A)
    : option (list A) :=
  let n := ((Z.of_nat page - 1) * Z.of_nat limit)%Z in
  if bool_decide (n < 0)%Z then None
  else
    let rest := drop (Z.to_nat n) sorted in
    Some (if bool_decide (limit = 0) then rest else take limit rest).

(** [Math.ceil(total / limit)]: not a finite number when [limit] is [0],
    and then [null] in the JSON of the response. *)
Definition pagination (page limit total : nat) : Pagination :=
  {| currentPage := page;
     totalPages :=
       if bool_decide (limit = 0) then None
       else Some (Z.to_nat (Js.ceil_div (Z.of_nat total) (Z.of_nat limit)));
     totalDocs := total;
     hasNext := bool_decide (page * limit < total);
     hasPrev := bool_decide (1 < page) |}.

(** The documents and the [pagination] object of the response; [sort] is the
    order [.sort({ [sort]: order === 'asc' ? 1 : -1 })] puts the matching
    documents in. *)
Definition respond {A} (sort : list A → list A) (page limit : nat)
    (found : list A) : option (list A * Pagination) :=
  docs ← slice page limit (sort found);
  Some (docs, pagination page limit (length found)).

End Page.

(** ** Handlers: a state and early-exit monad over the store *)

Module Http.

Record Error := { status : nat; message : string }.

(** What a statement of a handler body does: go on with a value, leave the
    handler with [return res.status(..).json({ error })], or raise an
    exception that reaches the handler's [catch]. *)
Inductive Outcome (A : Type) :=
| Value (a : A)
| Respond (e : Error)
| Throw (name message : string).
Arguments Value {A} a.
Arguments Respond {A} e.
Arguments Throw {A} name message.

Definition M (A : Type) : Type := Store → Outcome A * Store.

Definition ret {A} (a : A) : M A := λ s, (Value a, s).

Definition bind {A B} (m : M A) (k : A → M B) : M B :=
  λ s, match m s with
       | (Value a, s') => k a s'
       | (Respond e, s') => (Respond e, s')
       | (Throw n msg, s') => (Throw n msg, s')
       end.

Definition respond {A} (status : nat) (message : string) : M A :=
  λ s, (Respond {| status := status; message := message |}, s).

Definition throw {A} (name message : string) : M A :=
  λ s, (Throw name message, s).

Definition gets {A} (f : Store → A) : M A := λ s, (Value (f s), s).

Definition modify (f : Store → Store) : M unit := λ s, (Value tt, f s).

(** [if (c) return res.status(status).json(...)] *)
Definition reject_if (c : bool) (status : nat) (message : string) : M unit :=
  if c then respond status message else ret tt.

(** Dereferencing a value that may be [null]/[undefined] raises a
    [TypeError]. *)
Definition deref {A} (o : option A) : M A :=
  match o with
  | Some a => ret a
  | None => throw "TypeError" "Cannot read properties of null"
  end.

(** The response of a handler. *)
Inductive Response (A : Type) :=
| Success (data : A)
| Failure (e : Error).
Arguments Success {A} data.
Arguments Failure {A} e.

Definition internal_error : Error :=
  {| status := 500; message := "Internal server error" |}.

(** The two shapes of [catch (error)] in the route files. *)
Definition catch_plain (name : string) : Error := internal_error.

Definition catch_validation (name : string) : Error :=
  if bool_decide (name = "ValidationError")
  then {| status := 400; message := "Validation failed" |}
  else internal_error.

(** [async (req, res) => { try { body } catch (error) { ... } }] *)
Definition handler {A} (catch : string → Error) (body : M A)
    : Store → Response A * Store :=
  λ s, match body s with
       | (Value a, s') => (Success a, s')
       | (Respond e, s') => (Failure e, s')
       | (Throw n _, s') => (Failure (catch n), s')
       end.

End Http.

#[global] Instance http_ret : MRet Http.M := @Http.ret.
#[global] Instance http_bind : MBind Http.M := λ A B k m, Http.bind m k.

(** What a handler reads besides the store and its parameters: [req.user]
    (its [_id] and [role]), the clock, and the [ObjectId] the driver gives to
    a document the handler creates. *)
Record Request := {
  actor : ObjectId;
  actor_role : User.Role;
  now : Date;
  new_id : ObjectId
}.

(** [doc.save()].  Mongoose's built-in validators (required, maxlength, min,
    match) are taken to pass on bodies the route's Joi schema accepted; the
    [pre('save')] hooks of the schemas are run.  Inserting under an [_id] in
    use is the driver's duplicate key error. *)

Module Save.

Definition duplicate_key {A} : Http.M A :=
  Http.throw "MongoServerError" "E11000 duplicate key error".

Definition check_new {A} (isNew : bool) (id : ObjectId)
    (coll : Store → gmap nat A) : Http.M unit :=
  if isNew then
    found ← Http.gets (λ s, coll s !! id);
    match found with
    | Some _ => duplicate_key
    | None => mret tt
    end
  else mret tt.

(** [timestamps: true] on the user schema. *)
Definition user (isNew : bool) (now : Date) (id : ObjectId) (u : User.t)
    : Http.M unit :=
  check_new isNew id users;;
  Http.modify (set_users (insert id (User.set_updatedAt now u))).

Definition team (isNew : bool) (now : Date) (id : ObjectId) (tm : Team.t)
    : Http.M unit :=
  check_new isNew id teams;;
  Http.modify (set_teams (insert id (Team.pre_save now tm))).

Definition project (isNew : bool) (id : ObjectId) (p : Project.t)
    : Http.M unit :=
  match Project.pre_save p with
  | Some message => Http.throw "Error" message
  | None =>
      check_new isNew id projects;;
      Http.modify (set_projects (insert id p))
  end.

Definition task (isNew : bool) (id : ObjectId) (tk : Task.t) : Http.M unit :=
  match Task.pre_save tk with
  | Some message => Http.throw "Error" message
  | None =>
      check_new isNew id tasks;;
      Http.modify (set_tasks (insert id tk))
  end.

(** [user.save()] on a document [old] the handler read and then assigned
    to, giving [u]: a path is modified when its value changed; with no
    modified path nothing is written and [updatedAt] stays.  The result is
    the document as the handler holds it after the call. *)
Definition user_if_modified (old : User.t) (now : Date) (id : ObjectId)
    (u : User.t) : Http.M User.t :=
  if decide (u = old) then mret u
  else
    user false now id u;;
    mret (User.set_updatedAt now u).

End Save.

(** ** routes/teams.js *)

Module TeamsRoutes.

Record SettingsPatch := {
  p_allowMemberInvite : option bool;
  p_publicVisibility : option bool
}.

(** [{ ...base, ...patch }] *)
Definition merge_settings (base : Team.Settings) (patch : SettingsPatch)
    : Team.Settings :=
  {| Team.allowMemberInvite :=
       default (Team.allowMemberInvite base) (p_allowMemberInvite patch);
     Team.publicVisibility :=
       default (Team.publicVisibility base) (p_publicVisibility patch) |}.

Definition default_settings : Team.Settings :=
  {| Team.allowMemberInvite := false; Team.publicVisibility := false |}.

Record CreateBody := {
  c_name : string;
  c_description : option string;
  c_teamLeader : ObjectId;
  c_members : option (list ObjectId);
  c_settings : option SettingsPatch
}.

Record UpdateBody := {
  u_name : option string;
  u_description : option string;
  u_teamLeader : option ObjectId;
  u_isActive : option bool;
  u_settings : option SettingsPatch
}.

Record AddMemberBody := {
  a_userId : ObjectId;
  a_role : option Team.MemberRole
}.

(** [m.role = r] on the entry that [members.find(m => m.user == userId)]
    returns: the first such entry, when there is one. *)
Fixpoint set_role_of_first (userId : ObjectId) (r : Team.MemberRole)
    (ms : list Team.Member) : list Team.Member :=
  match ms with
  | [] => []
  | m :: ms' =>
      if bool_decide (Team.user m = userId) then Team.set_role r m :: ms'
      else m :: set_role_of_first userId r ms'
  end.

(** [{ $addToSet: { teams: teamId } }] and [{ $pull: { teams: teamId } }];
    an update sets [updatedAt]. *)
Definition addTeam (now : Date) (teamId : ObjectId) (u : User.t) : User.t :=
  User.set_updatedAt now (User.set_teams (Mongo.addToSet teamId (User.teams u)) u).

Definition pullTeam (now : Date) (teamId : ObjectId) (u : User.t) : User.t :=
  User.set_updatedAt now (User.set_teams (Mongo.pull teamId (User.teams u)) u).

Section Handlers.
(** [new RegExp(`^${pattern}$`, 'i').test(s)] *)
Context (regex_test_i : string → string → bool).

(** POST /api/teams *)
Definition createTeam_body (req : Request) (body : CreateBody)
    : Http.M (option Team.t) :=
  let name := c_name body in
  let teamLeader := c_teamLeader body in
  let members := c_members body in
  existingTeam ← Http.gets (λ s,
    Mongo.findOne (λ d, regex_test_i name (Team.name d.2)) (teams s));
  Http.reject_if (bool_decide (is_Some existingTeam))
    400 "Team with this name already exists";;
  leader ← Http.gets (λ s, Mongo.findById teamLeader (users s));
  match leader with
  | None => Http.respond 404 "Team leader not found"
  | Some leader =>
      Http.reject_if
        (negb (bool_decide (User.role leader ∈ [User.admin; User.team_leader])))
        400 "User must be admin or team leader to lead a team";;
      (match members with
       | Some ((_ :: _) as ms) =>
           memberUsers ← Http.gets (λ s,
             Mongo.find (λ d, d.1 ∈ ms ∧ User.isActive d.2 = true) (users s));
           Http.reject_if
             (negb (bool_decide (length memberUsers = length ms)))
             400 "One or more members not found or inactive"
       | _ => mret tt
       end);;
      members ← Http.deref members;
      let team :=
        {| Team.name := JsString.trim name;
           Team.description := default "" (c_description body);
           Team.teamLeader := teamLeader;
           Team.members :=
             (λ memberId,
                {| Team.user := memberId;
                   Team.joinedAt := now req;
                   Team.role :=
                     if bool_decide (memberId = teamLeader)
                     then Team.team_leader else Team.member |}) <$> members;
           Team.isActive := true;
           Team.settings :=
             match c_settings body with
             | Some st => merge_settings default_settings st
             | None => default_settings
             end;
           Team.createdBy := actor req |} in
      Save.team true (now req) (new_id req) team;;
      let allMemberIds := teamLeader :: members in
      Http.modify (set_users
        (Mongo.updateMany (λ d, d.1 ∈ allMemberIds)
           (addTeam (now req) (new_id req))));;
      Http.gets (λ s, Mongo.findById (new_id req) (teams s))
  end.

Definition createTeam (req : Request) (body : CreateBody) :=
  Http.handler Http.catch_validation (createTeam_body req body).

(** PUT /api/teams/:id *)
Definition updateTeam_body (req : Request) (teamId : ObjectId)
    (body : UpdateBody) : Http.M (option Team.t) :=
  team ← Http.gets (λ s, Mongo.findById teamId (teams s));
  match team with
  | None => Http.respond 404 "Team not found"
  | Some team =>
      (match u_name body with
       | Some name =>
           if JsString.truthy name && bool_decide (name ≠ Team.name team)
           then
             existingTeam ← Http.gets (λ s,
               Mongo.findOne
                 (λ d, regex_test_i name (Team.name d.2) ∧ d.1 ≠ teamId)
                 (teams s));
             Http.reject_if (bool_decide (is_Some existingTeam))
               400 "Team with this name already exists"
           else mret tt
       | None => mret tt
       end);;
      team ←
        (match u_teamLeader body with
         | Some teamLeader =>
             if bool_decide (teamLeader ≠ Team.teamLeader team) then
               leader ← Http.gets (λ s, Mongo.findById teamLeader (users s));
               match leader with
               | None => Http.respond 404 "New team leader not found"
               | Some leader =>
                   Http.reject_if
                     (negb (bool_decide
                        (User.role leader ∈ [User.admin; User.team_leader])))
                     400 "User must be admin or team leader to lead a team";;
                   let ms :=
                     set_role_of_first (Team.teamLeader team) Team.member
                       (Team.members team) in
                   let newLeaderMember :=
                     List.find (λ m, bool_decide (Team.user m = teamLeader))
                       ms in
                   let ms :=
                     match newLeaderMember with
                     | Some _ =>
                         set_role_of_first teamLeader Team.team_leader ms
                     | None =>
                         ms ++ [{| Team.user := teamLeader;
                                   Team.role := Team.team_leader;
                                   Team.joinedAt := now req |}]
                     end in
                   mret (Team.set_teamLeader teamLeader
                           (Team.set_members ms team))
               end
             else mret team
         | None => mret team
         end);
      let team :=
        match u_name body with
        | Some name =>
            if JsString.truthy name
            then Team.set_name (JsString.trim name) team else team
        | None => team
        end in
      let team :=
        match u_description body with
        | Some description => Team.set_description description team
        | None => team
        end in
      let team :=
        match u_isActive body with
        | Some isActive => Team.set_isActive isActive team
        | None => team
        end in
      let team :=
        match u_settings body with
        | Some st =>
            Team.set_settings (merge_settings (Team.settings team) st) team
        | None => team
        end in
      Save.team false (now req) teamId team;;
      Http.gets (λ s, Mongo.findById teamId (teams s))
  end.

Definition updateTeam (req : Request) (teamId : ObjectId)
    (body : UpdateBody) :=
  Http.handler Http.catch_validation (updateTeam_body req teamId body).
End Handlers.

(** POST /api/teams/:id/members *)
Definition addMember_body (req : Request) (teamId : ObjectId)
    (body : AddMemberBody) : Http.M (option Team.t) :=
  let userId := a_userId body in
  let role := a_role body in
  team ← Http.gets (λ s, Mongo.findById teamId (teams s));
  match team with
  | None => Http.respond 404 "Team not found"
  | Some team =>
      user ← Http.gets (λ s, Mongo.findById userId (users s));
      Http.reject_if
        (match user with
         | None => true
         | Some user => negb (User.isActive user)
         end)
        404 "User not found or inactive";;
      Http.reject_if (Team.isMember team userId)
        400 "User is already a team member";;
      let team := Team.addMember userId role (now req) team in
      Save.team false (now req) teamId team;;
      Http.modify (set_users
        (Mongo.findByIdAndUpdate userId (addTeam (now req) teamId)));;
      Http.gets (λ s, Mongo.findById teamId (teams s))
  end.

Definition addMember (req : Request) (teamId : ObjectId)
    (body : AddMemberBody) :=
  Http.handler Http.catch_plain (addMember_body req teamId body).

(** DELETE /api/teams/:id/members/:userId *)
Definition removeMember_body (req : Request) (teamId userId : ObjectId)
    : Http.M (option Team.t) :=
  team ← Http.gets (λ s, Mongo.findById teamId (teams s));
  match team with
  | None => Http.respond 404 "Team not found"
  | Some team =>
      Http.reject_if (bool_decide (Team.teamLeader team = userId))
        400 "Cannot remove team leader. Assign a new leader first.";;
      Http.reject_if (negb (Team.isMember team userId))
        404 "User is not a team member";;
      let team := Team.removeMember userId team in
      Save.team false (now req) teamId team;;
      Http.modify (set_users
        (Mongo.findByIdAndUpdate userId (pullTeam (now req) teamId)));;
      Http.gets (λ s, Mongo.findById teamId (teams s))
  end.

Definition removeMember (req : Request) (teamId userId : ObjectId) :=
  Http.handler Http.catch_plain (removeMember_body req teamId userId).

(** DELETE /api/teams/:id *)
Definition deleteTeam_body (req : Request) (teamId : ObjectId)
    : Http.M unit :=
  team ← Http.gets (λ s, Mongo.findById teamId (teams s));
  match team with
  | None => Http.respond 404 "Team not found"
  | Some _ =>
      activeProjects ← Http.gets (λ s,
        Mongo.find
          (λ d, Project.team d.2 = teamId ∧
                Project.status d.2 ∈
                  [Project.planning; Project.active; Project.on_hold])
          (projects s));
      Http.reject_if (bool_decide (0 < length activeProjects))
        400 "Cannot delete team with active projects";;
      Http.modify (set_users
        (Mongo.updateMany (λ d, teamId ∈ User.teams d.2)
           (pullTeam (now req) teamId)));;
      Http.modify (set_teams (Mongo.findByIdAndDelete teamId))
  end.

Definition deleteTeam (req : Request) (teamId : ObjectId) :=
  Http.handler Http.catch_plain (deleteTeam_body req teamId).

(** GET /api/teams.  The [query] object the handler builds, key by key; the
    documents it matches are what [Team.find(query)] returns before sort,
    skip and limit. *)
Record ListQuery := {
  q_members_user : option ObjectId;   (* query['members.user'] *)
  q_and : list string;                (* query.$and: one entry per search *)
  q_isActive : option bool            (* query.isActive *)
}.

Definition listTeams_query (req : Request) (search : option string)
    (isActive : option bool) : ListQuery :=
  {| q_members_user :=
       if bool_decide (actor_role req ≠ User.admin) then Some (actor req)
       else None;
     q_and :=
       match search with
       | Some search => if JsString.truthy search then [search] else []
       | None => []
       end;
     q_isActive := isActive |}.

Section List.
(** [{ $regex: pattern, $options: 'i' }] on a string path *)
Context (regex_search_i : string → string → bool).

Definition matches (q : ListQuery) (d : ObjectId * Team.t) : Prop :=
  Mongo.when_set (q_members_user q)
    (λ u, u ∈ Team.user <$> Team.members d.2) ∧
  Forall (λ search,
            regex_search_i search (Team.name d.2) ∨
            regex_search_i search (Team.description d.2)) (q_and q) ∧
  Mongo.when_set (q_isActive q) (λ b, Team.isActive d.2 = b).

#[global] Instance teams_matches_dec q d : Decision (matches q d).
Proof. unfold matches. apply _. Defined.

Definition listTeams (req : Request) (search : option string)
    (isActive : option bool) (s : Store) : list (ObjectId * Team.t) :=
  Mongo.find (matches (listTeams_query req search isActive)) (teams s).
End List.

End TeamsRoutes.

(** ** routes/auth.js *)

Module AuthRoutes.

Record RegisterBody := {
  r_name : string;
  r_email : string;
  r_password : string;
  r_role : option User.Role
}.

Section Handlers.
(** [bcrypt.hash(password, saltRounds)] *)
Context (bcrypt_hash : string → string).

(** POST /api/auth/register.  The response carries [user.fullProfile]; the
    session token next to it is left out. *)
Definition register_body (now : Date) (new_id : ObjectId)
    (body : RegisterBody) : Http.M Js.Value :=
  let email := r_email body in
  let role := r_role body in
  existingUser ← Http.gets (λ s,
    Mongo.findOne (λ d, User.email d.2 = JsString.toLowerCase email)
      (users s));
  Http.reject_if (bool_decide (is_Some existingUser))
    400 "User with this email already exists";;
  userCount ← Http.gets (λ s, Mongo.countDocuments (users s));
  let userRole := role in
  let userRole :=
    if bool_decide (userCount = 0) then Some User.admin else userRole in
  let hashedPassword := bcrypt_hash (r_password body) in
  (* new User({...}): paths left undefined take the schema defaults *)
  let user :=
    {| User.name := JsString.trim (r_name body);
       User.email := JsString.toLowerCase email;
       User.password := hashedPassword;
       User.role := default User.member userRole;
       User.isActive := true;
       User.teams := [];
       User.profile :=
         {| User.avatar := None; User.phone := None;
            User.department := None; User.position := None;
            User.joinDate := now |};
       User.lastLogin := None;
       User.createdBy := None;
       User.createdAt := now;
       User.updatedAt := now |} in
  Save.user true now new_id user;;
  let user := User.set_lastLogin now user in
  Save.user false now new_id user;;
  mret (User.fullProfile new_id user).

Definition register (now : Date) (new_id : ObjectId) (body : RegisterBody) :=
  Http.handler Http.catch_validation (register_body now new_id body).
End Handlers.

Record LoginBody := {
  l_email : string;
  l_password : string
}.

Record ChangePasswordBody := {
  cp_currentPassword : string;
  cp_newPassword : string
}.

Section Passwords.
(** [bcrypt.hash(password, saltRounds)] and [bcrypt.compare(password, hash)] *)
Context (bcrypt_hash : string → string).
Context (bcrypt_compare : string → string → bool).

(** POST /api/auth/login.  The response carries [user.fullProfile]; the
    session token next to it is left out. *)
Definition login_body (now : Date) (body : LoginBody) : Http.M Js.Value :=
  let email := l_email body in
  let password := l_password body in
  user ← Http.gets (λ s,
    Mongo.findOne (λ d, User.email d.2 = JsString.toLowerCase email)
      (users s));
  match user with
  | None => Http.respond 401 "Invalid email or password"
  | Some (_id, user) =>
      Http.reject_if (negb (User.isActive user))
        401 "Account is deactivated. Please contact administrator.";;
      let isValidPassword := bcrypt_compare password (User.password user) in
      Http.reject_if (negb isValidPassword)
        401 "Invalid email or password";;
      user ← Save.user_if_modified user now _id (User.set_lastLogin now user);
      mret (User.fullProfile _id user)
  end.

Definition login (now : Date) (body : LoginBody) :=
  Http.handler Http.catch_plain (login_body now body).

(** PUT /api/auth/change-password *)
Definition changePassword_body (req : Request) (body : ChangePasswordBody)
    : Http.M unit :=
  user ← Http.gets (λ s, Mongo.findById (actor req) (users s));
  match user with
  | None => Http.respond 404 "User not found"
  | Some user =>
      let isValidPassword :=
        bcrypt_compare (cp_currentPassword body) (User.password user) in
      Http.reject_if (negb isValidPassword)
        401 "Current password is incorrect";;
      let hashedPassword := bcrypt_hash (cp_newPassword body) in
      Save.user_if_modified user (now req) (actor req)
        (User.set_password hashedPassword user);;
      mret tt
  end.

Definition changePassword (req : Request) (body : ChangePasswordBody) :=
  Http.handler Http.catch_plain (changePassword_body req body).
End Passwords.

End AuthRoutes.

(** ** routes/users.js *)

Module UsersRoutes.

(** [User.findById(userId).select('-password')], as [res.json] writes it. *)
Definition selected (userId : ObjectId) : Http.M (option Js.Value) :=
  Http.gets (λ s, User.toJSON userId <$> Mongo.findById userId (users s)).

(** PUT /api/users/:id/promote *)
Definition promote_body (req : Request) (userId : ObjectId)
    : Http.M (option Js.Value) :=
  user ← Http.gets (λ s, Mongo.findById userId (users s));
  match user with
  | None => Http.respond 404 "User not found"
  | Some user =>
      Http.reject_if (bool_decide (User.role user = User.admin))
        400 "Cannot modify admin role";;
      Http.reject_if (bool_decide (User.role user = User.team_leader))
        400 "User is already a team leader";;
      let user := User.set_role User.team_leader user in
      Save.user false (now req) userId user;;
      selected userId
  end.

Definition promote (req : Request) (userId : ObjectId) :=
  Http.handler Http.catch_plain (promote_body req userId).

(** PUT /api/users/:id/demote *)
Definition demote_body (req : Request) (userId : ObjectId)
    : Http.M (option Js.Value) :=
  user ← Http.gets (λ s, Mongo.findById userId (users s));
  match user with
  | None => Http.respond 404 "User not found"
  | Some user =>
      Http.reject_if (bool_decide (User.role user = User.admin))
        400 "Cannot modify admin role";;
      Http.reject_if (bool_decide (User.role user = User.member))
        400 "User is already a member";;
      teamsLed ← Http.gets (λ s,
        Mongo.find
          (λ d, Team.teamLeader d.2 = userId ∧ Team.isActive d.2 = true)
          (teams s));
      Http.reject_if (bool_decide (0 < length teamsLed))
        400 "Cannot demote user who is leading active teams";;
      let user := User.set_role User.member user in
      Save.user false (now req) userId user;;
      selected userId
  end.

Definition demote (req : Request) (userId : ObjectId) :=
  Http.handler Http.catch_plain (demote_body req userId).

(** GET /api/users/:id.  The document goes out without its password and
    with [teams] and [createdBy] populated. *)
Definition getUser_body (req : Request) (userId : ObjectId)
    : Http.M User.t :=
  Http.reject_if
    (bool_decide (actor_role req ≠ User.admin) &&
     bool_decide (actor req ≠ userId))
    403 "Access denied";;
  user ← Http.gets (λ s, Mongo.findById userId (users s));
  match user with
  | None => Http.respond 404 "User not found"
  | Some user => mret user
  end.

Definition getUser (req : Request) (userId : ObjectId) :=
  Http.handler Http.catch_plain (getUser_body req userId).

(** The keys of the body PUT /api/users/:id looks at; [ProfileBody] is the
    type of the object under the key [profile]. *)
Record UpdateBody (ProfileBody : Type) := {
  u_name : option string;
  u_email : option string;
  u_role : option User.Role;
  u_isActive : option bool;
  u_profile : option ProfileBody
}.
Arguments u_name {ProfileBody} _.
Arguments u_email {ProfileBody} _.
Arguments u_role {ProfileBody} _.
Arguments u_isActive {ProfileBody} _.
Arguments u_profile {ProfileBody} _.

Definition active_task_status : list Task.Status :=
  [Task.todo; Task.in_progress; Task.review].

Section Accounts.
(** [bcrypt.hash(password, saltRounds)] *)
Context (bcrypt_hash : string → string).
(** [user.profile = value] on the nested path [profile] of a document *)
Context {ProfileBody : Type}.
Context (assign_profile : User.Profile → ProfileBody → User.Profile).

(** POST /api/users *)
Definition createUser_body (req : Request) (body : AuthRoutes.RegisterBody)
    : Http.M Js.Value :=
  let email := AuthRoutes.r_email body in
  let role := AuthRoutes.r_role body in
  existingUser ← Http.gets (λ s,
    Mongo.findOne (λ d, User.email d.2 = JsString.toLowerCase email)
      (users s));
  Http.reject_if (bool_decide (is_Some existingUser))
    400 "User with this email already exists";;
  let hashedPassword := bcrypt_hash (AuthRoutes.r_password body) in
  let user :=
    {| User.name := JsString.trim (AuthRoutes.r_name body);
       User.email := JsString.toLowerCase email;
       User.password := hashedPassword;
       User.role := default User.member role;
       User.isActive := true;
       User.teams := [];
       User.profile :=
         {| User.avatar := None; User.phone := None;
            User.department := None; User.position := None;
            User.joinDate := now req |};
       User.lastLogin := None;
       User.createdBy := Some (actor req);
       User.createdAt := now req;
       User.updatedAt := now req |} in
  Save.user true (now req) (new_id req) user;;
  let userResponse := User.toObject (new_id req) user in
  let userResponse := Js.delete_prop "password" userResponse in
  mret userResponse.

Definition createUser (req : Request) (body : AuthRoutes.RegisterBody) :=
  Http.handler Http.catch_validation (createUser_body req body).

(** [allowedFields.includes(key)] for the keys of the body *)
Definition allowed (isAdmin : bool) (body : UpdateBody ProfileBody)
    : UpdateBody ProfileBody :=
  if isAdmin then body
  else
    {| u_name := u_name body; u_email := None; u_role := None;
       u_isActive := None; u_profile := u_profile body |}.

Definition with_email (email : string) (u : UpdateBody ProfileBody)
    : UpdateBody ProfileBody :=
  {| u_name := u_name u; u_email := Some email; u_role := u_role u;
     u_isActive := u_isActive u; u_profile := u_profile u |}.

(** [Object.assign(user, updateData)] *)
Definition assign (user : User.t) (u : UpdateBody ProfileBody) : User.t :=
  let user := Mongo.if_set (u_name u) User.set_name user in
  let user := Mongo.if_set (u_email u) User.set_email user in
  let user := Mongo.if_set (u_role u) User.set_role user in
  let user := Mongo.if_set (u_isActive u) User.set_isActive user in
  let user :=
    Mongo.if_set (u_profile u)
      (λ p user, User.set_profile (assign_profile (User.profile user) p) user)
      user in
  user.

(** PUT /api/users/:id.  The handler lets an empty [email] through its
    test [if (updateData.email)]; [email] is a required path of the schema
    and the empty string fails its validator at [save].  The response
    carries the stored document without its password and with [teams]
    populated. *)
Definition updateUser_body (req : Request) (userId : ObjectId)
    (body : UpdateBody ProfileBody) : Http.M (option User.t) :=
  let isAdmin := bool_decide (actor_role req = User.admin) in
  let isSelf := bool_decide (actor req = userId) in
  Http.reject_if (negb isAdmin && negb isSelf) 403 "Access denied";;
  user ← Http.gets (λ s, Mongo.findById userId (users s));
  match user with
  | None => Http.respond 404 "User not found"
  | Some user =>
      let updateData := allowed isAdmin body in
      updateData ←
        (match u_email updateData with
         | Some email =>
             if JsString.truthy email then
               existingUser ← Http.gets (λ s,
                 Mongo.findOne
                   (λ d, User.email d.2 = JsString.toLowerCase email ∧
                         d.1 ≠ userId)
                   (users s));
               Http.reject_if (bool_decide (is_Some existingUser))
                 400 "Email already in use by another user";;
               mret (with_email (JsString.toLowerCase email) updateData)
             else mret updateData
         | None => mret updateData
         end);
      Http.reject_if
        (isAdmin && isSelf &&
         bool_decide (u_isActive updateData = Some false))
        400 "Cannot deactivate your own account";;
      let user' := assign user updateData in
      (if bool_decide (User.email user' = "")
       then Http.throw "ValidationError" "User validation failed"
       else mret tt);;
      Save.user_if_modified user (now req) userId user';;
      Http.gets (λ s, Mongo.findById userId (users s))
  end.

Definition updateUser (req : Request) (userId : ObjectId)
    (body : UpdateBody ProfileBody) :=
  Http.handler Http.catch_validation (updateUser_body req userId body).
End Accounts.

(** DELETE /api/users/:id *)
Definition deleteUser_body (req : Request) (userId : ObjectId)
    : Http.M unit :=
  Http.reject_if (bool_decide (actor req = userId))
    400 "Cannot delete your own account";;
  user ← Http.gets (λ s, Mongo.findById userId (users s));
  match user with
  | None => Http.respond 404 "User not found"
  | Some _ =>
      teamsLed ← Http.gets (λ s,
        Mongo.find (λ d, Team.teamLeader d.2 = userId) (teams s));
      projectsManaged ← Http.gets (λ s,
        Mongo.find (λ d, Project.projectManager d.2 = userId) (projects s));
      tasksAssigned ← Http.gets (λ s,
        Mongo.find
          (λ d, Task.assignedTo d.2 = userId ∧
                Task.status d.2 ∈ active_task_status)
          (tasks s));
      let dependencies : list string := [] in
      let dependencies :=
        if bool_decide (0 < length teamsLed)
        then dependencies ++ [pretty (length teamsLed) +:+ " teams as leader"]
        else dependencies in
      let dependencies :=
        if bool_decide (0 < length projectsManaged)
        then dependencies ++
               [pretty (length projectsManaged) +:+ " projects as manager"]
        else dependencies in
      let dependencies :=
        if bool_decide (0 < length tasksAssigned)
        then dependencies ++
               [pretty (length tasksAssigned) +:+ " active tasks"]
        else dependencies in
      Http.reject_if (bool_decide (0 < length dependencies))
        400 "Cannot delete user with active dependencies";;
      Http.modify (set_users (Mongo.findByIdAndDelete userId))
  end.

Definition deleteUser (req : Request) (userId : ObjectId) :=
  Http.handler Http.catch_plain (deleteUser_body req userId).

End UsersRoutes.

(** ** routes/projects.js *)

Module ProjectsRoutes.

Record MemberInput := {
  m_user : ObjectId;
  m_role : option Project.MemberRole
}.

Record CreateBody := {
  c_name : string;
  c_description : string;
  c_team : ObjectId;
  c_projectManager : ObjectId;
  c_assignedMembers : option (list MemberInput);
  c_status : option Project.Status;
  c_priority : option Project.Priority;
  c_startDate : Date;
  c_endDate : Date;
  c_budget : option Project.Budget;
  c_tags : option (list string)
}.

(** The body of an update.  The Joi schema of the route is not among the
    sources: the body is taken to carry the paths below, each optional (team
    and members have routes of their own).  [actualEndDate] is the key the
    handler adds to it. *)
Record UpdateData := {
  u_name : option string;
  u_description : option string;
  u_projectManager : option ObjectId;
  u_status : option Project.Status;
  u_priority : option Project.Priority;
  u_startDate : option Date;
  u_endDate : option Date;
  u_budget : option Project.Budget;
  u_tags : option (list string);
  u_actualEndDate : option Date
}.

Definition set_actualEndDate (d : Date) (u : UpdateData) : UpdateData :=
  {| u_name := u_name u; u_description := u_description u;
     u_projectManager := u_projectManager u; u_status := u_status u;
     u_priority := u_priority u; u_startDate := u_startDate u;
     u_endDate := u_endDate u; u_budget := u_budget u; u_tags := u_tags u;
     u_actualEndDate := Some d |}.

Record AddMemberBody := {
  a_userId : ObjectId;
  a_role : option Project.MemberRole
}.

(** A member subdocument cast from the body, with the schema defaults. *)
Definition cast_member (now : Date) (m : MemberInput) : Project.Member :=
  {| Project.user := m_user m;
     Project.assignedAt := now;
     Project.role := default Project.developer (m_role m) |}.

(** [Object.assign(project, updateData)] *)
Definition assign (p : Project.t) (u : UpdateData) : Project.t :=
  {| Project.name := default (Project.name p) (u_name u);
     Project.description := default (Project.description p) (u_description u);
     Project.team := Project.team p;
     Project.projectManager :=
       default (Project.projectManager p) (u_projectManager u);
     Project.assignedMembers := Project.assignedMembers p;
     Project.status := default (Project.status p) (u_status u);
     Project.priority := default (Project.priority p) (u_priority u);
     Project.startDate := default (Project.startDate p) (u_startDate u);
     Project.endDate := default (Project.endDate p) (u_endDate u);
     Project.actualEndDate :=
       match u_actualEndDate u with
       | Some d => Some d
       | None => Project.actualEndDate p
       end;
     Project.budget := default (Project.budget p) (u_budget u);
     Project.tags := default (Project.tags p) (u_tags u);
     Project.createdBy := Project.createdBy p |}.

Definition active_task_status : list Task.Status :=
  [Task.todo; Task.in_progress; Task.review].

Section Handlers.
(** [new RegExp(`^${pattern}$`, 'i').test(s)] *)
Context (regex_test_i : string → string → bool).

(** POST /api/projects *)
Definition createProject_body (req : Request) (body : CreateBody)
    : Http.M (option Project.t) :=
  let name := c_name body in
  let team := c_team body in
  let projectManager := c_projectManager body in
  let assignedMembers := c_assignedMembers body in
  existingProject ← Http.gets (λ s,
    Mongo.findOne
      (λ d, regex_test_i name (Project.name d.2) ∧ Project.team d.2 = team)
      (projects s));
  Http.reject_if (bool_decide (is_Some existingProject))
    400 "Project with this name already exists in the team";;
  teamDoc ← Http.gets (λ s, Mongo.findById team (teams s));
  match teamDoc with
  | None => Http.respond 404 "Team not found"
  | Some teamDoc =>
      Http.reject_if
        (bool_decide (actor_role req ≠ User.admin) &&
         negb (Team.isTeamLeader teamDoc (actor req)))
        403 "Only team leaders can create projects for their team";;
      manager ← Http.gets (λ s, Mongo.findById projectManager (users s));
      Http.reject_if (bool_decide (manager = None :> option User.t))
        404 "Project manager not found";;
      Http.reject_if (negb (Team.isMember teamDoc projectManager))
        400 "Project manager must be a team member";;
      (match assignedMembers with
       | Some ((_ :: _) as ms) =>
           let memberIds := m_user <$> ms in
           Http.reject_if
             (existsb (λ memberId, negb (Team.isMember teamDoc memberId))
                memberIds)
             400 "All assigned members must be team members"
       | _ => mret tt
       end);;
      let project :=
        {| Project.name := JsString.trim name;
           Project.description := c_description body;
           Project.team := team;
           Project.projectManager := projectManager;
           Project.assignedMembers :=
             cast_member (now req) <$> default [] assignedMembers;
           Project.status := default Project.planning (c_status body);
           Project.priority := default Project.medium (c_priority body);
           Project.startDate := c_startDate body;
           Project.endDate := c_endDate body;
           Project.actualEndDate := None;
           Project.budget :=
             default {| Project.allocated := 0%Qc; Project.spent := 0%Qc |}
               (c_budget body);
           Project.tags := default [] (c_tags body);
           Project.createdBy := actor req |} in
      Save.project true (new_id req) project;;
      Http.gets (λ s, Mongo.findById (new_id req) (projects s))
  end.

Definition createProject (req : Request) (body : CreateBody) :=
  Http.handler Http.catch_validation (createProject_body req body).

(** PUT /api/projects/:id *)
Definition updateProject_body (req : Request) (projectId : ObjectId)
    (updateData : UpdateData) : Http.M (option Project.t) :=
  project ← Http.gets (λ s, Mongo.findById projectId (projects s));
  match project with
  | None => Http.respond 404 "Project not found"
  | Some project =>
      (match u_name updateData with
       | Some name =>
           if JsString.truthy name && bool_decide (name ≠ Project.name project)
           then
             existingProject ← Http.gets (λ s,
               Mongo.findOne
                 (λ d, regex_test_i name (Project.name d.2) ∧
                       Project.team d.2 = Project.team project ∧
                       d.1 ≠ projectId)
                 (projects s));
             Http.reject_if (bool_decide (is_Some existingProject))
               400 "Project with this name already exists in the team"
           else mret tt
       | None => mret tt
       end);;
      (match u_projectManager updateData with
       | Some projectManager =>
           if bool_decide (projectManager ≠ Project.projectManager project)
           then
             manager ← Http.gets (λ s,
               Mongo.findById projectManager (users s));
             Http.reject_if (bool_decide (manager = None :> option User.t))
               404 "New project manager not found";;
             team ← Http.gets (λ s,
               Mongo.findById (Project.team project) (teams s));
             team ← Http.deref team;
             Http.reject_if (negb (Team.isMember team projectManager))
               400 "New project manager must be a team member"
           else mret tt
       | None => mret tt
       end);;
      let updateData :=
        if bool_decide (u_status updateData = Some Project.completed) &&
           bool_decide (Project.status project ≠ Project.completed)
        then set_actualEndDate (now req) updateData
        else updateData in
      let project := assign project updateData in
      Save.project false projectId project;;
      Http.gets (λ s, Mongo.findById projectId (projects s))
  end.

Definition updateProject (req : Request) (projectId : ObjectId)
    (updateData : UpdateData) :=
  Http.handler Http.catch_validation
    (updateProject_body req projectId updateData).
End Handlers.

(** POST /api/projects/:id/members; [role] defaults to ['developer'] in the
    destructuring of the body. *)
Definition addMember_body (req : Request) (projectId : ObjectId)
    (body : AddMemberBody) : Http.M (option Project.t) :=
  let userId := a_userId body in
  let role := default Project.developer (a_role body) in
  project ← Http.gets (λ s, Mongo.findById projectId (projects s));
  match project with
  | None => Http.respond 404 "Project not found"
  | Some project =>
      user ← Http.gets (λ s, Mongo.findById userId (users s));
      Http.reject_if
        (match user with
         | None => true
         | Some user => negb (User.isActive user)
         end)
        404 "User not found or inactive";;
      (* project.team is populated *)
      team ← Http.gets (λ s, Mongo.findById (Project.team project) (teams s));
      team ← Http.deref team;
      Http.reject_if (negb (Team.isMember team userId))
        400 "User must be a team member to be assigned to project";;
      Http.reject_if (Project.isAssignedMember project userId)
        400 "User is already assigned to this project";;
      let project := Project.addMember userId (Some role) (now req) project in
      Save.project false projectId project;;
      Http.gets (λ s, Mongo.findById projectId (projects s))
  end.

Definition addMember (req : Request) (projectId : ObjectId)
    (body : AddMemberBody) :=
  Http.handler Http.catch_plain (addMember_body req projectId body).

(** DELETE /api/projects/:id/members/:userId *)
Definition removeMember_body (projectId userId : ObjectId)
    : Http.M (option Project.t) :=
  project ← Http.gets (λ s, Mongo.findById projectId (projects s));
  match project with
  | None => Http.respond 404 "Project not found"
  | Some project =>
      Http.reject_if (bool_decide (Project.projectManager project = userId))
        400 "Cannot remove project manager. Assign a new manager first.";;
      Http.reject_if (negb (Project.isAssignedMember project userId))
        404 "User is not assigned to this project";;
      activeTasks ← Http.gets (λ s,
        Mongo.find
          (λ d, Task.project d.2 = projectId ∧ Task.assignedTo d.2 = userId ∧
                Task.status d.2 ∈ active_task_status)
          (tasks s));
      Http.reject_if (bool_decide (0 < length activeTasks))
        400 "Cannot remove user with active tasks. Reassign tasks first.";;
      let project := Project.removeMember userId project in
      Save.project false projectId project;;
      Http.gets (λ s, Mongo.findById projectId (projects s))
  end.

Definition removeMember (projectId userId : ObjectId) :=
  Http.handler Http.catch_plain (removeMember_body projectId userId).

(** DELETE /api/projects/:id *)
Definition deleteProject_body (projectId : ObjectId) : Http.M unit :=
  project ← Http.gets (λ s, Mongo.findById projectId (projects s));
  match project with
  | None => Http.respond 404 "Project not found"
  | Some _ =>
      activeTasks ← Http.gets (λ s,
        Mongo.find
          (λ d, Task.project d.2 = projectId ∧
                Task.status d.2 ∈ active_task_status)
          (tasks s));
      Http.reject_if (bool_decide (0 < length activeTasks))
        400 "Cannot delete project with active tasks";;
      Http.modify (set_projects (Mongo.findByIdAndDelete projectId))
  end.

Definition deleteProject (projectId : ObjectId) :=
  Http.handler Http.catch_plain (deleteProject_body projectId).

(** GET /api/projects.  The [query] object the handler builds, key by key;
    the documents it matches are what [Project.find(query)] returns before
    sort, skip and limit. *)
Record ListQuery := {
  q_team : option Mongo.IdCond;          (* query.team *)
  q_or : option ObjectId;                (* query.$or: member or manager *)
  q_and : list string;                   (* query.$and: one per search *)
  q_status : option Project.Status;      (* query.status *)
  q_priority : option Project.Priority   (* query.priority *)
}.

Record ListParams := {
  l_search : option string;
  l_status : option Project.Status;
  l_priority : option Project.Priority;
  l_teamId : option ObjectId
}.

Definition no_params : ListParams :=
  {| l_search := None; l_status := None; l_priority := None;
     l_teamId := None |}.

Definition with_team (c : Mongo.IdCond) (q : ListQuery) : ListQuery :=
  {| q_team := Some c; q_or := q_or q; q_and := q_and q;
     q_status := q_status q; q_priority := q_priority q |}.
Definition with_or (a : ObjectId) (q : ListQuery) : ListQuery :=
  {| q_team := q_team q; q_or := Some a; q_and := q_and q;
     q_status := q_status q; q_priority := q_priority q |}.
Definition push_and (search : string) (q : ListQuery) : ListQuery :=
  {| q_team := q_team q; q_or := q_or q; q_and := q_and q ++ [search];
     q_status := q_status q; q_priority := q_priority q |}.
Definition with_status (st : Project.Status) (q : ListQuery) : ListQuery :=
  {| q_team := q_team q; q_or := q_or q; q_and := q_and q;
     q_status := Some st; q_priority := q_priority q |}.
Definition with_priority (pr : Project.Priority) (q : ListQuery) : ListQuery :=
  {| q_team := q_team q; q_or := q_or q; q_and := q_and q;
     q_status := q_status q; q_priority := Some pr |}.

Definition empty_query : ListQuery :=
  {| q_team := None; q_or := None; q_and := []; q_status := None;
     q_priority := None |}.

Definition listProjects_query (req : Request) (params : ListParams)
    (s : Store) : ListQuery :=
  let query := empty_query in
  let query :=
    if bool_decide (actor_role req = User.admin) then query
    else if bool_decide (actor_role req = User.team_leader) then
      let userTeams :=
        Mongo.find (λ d, Team.teamLeader d.2 = actor req) (teams s) in
      let teamIds := userTeams.*1 in
      with_team (Mongo.IdIn teamIds) query
    else with_or (actor req) query in
  let query :=
    Mongo.if_set (l_search params)
      (λ search q, if JsString.truthy search then push_and search q else q)
      query in
  let query := Mongo.if_set (l_status params) with_status query in
  let query := Mongo.if_set (l_priority params) with_priority query in
  let query := Mongo.if_set (l_teamId params) (λ t, with_team (Mongo.IdEq t)) query in
  query.

Section List.
(** [{ $regex: pattern, $options: 'i' }] on a string path *)
Context (regex_search_i : string → string → bool).

Definition matches (q : ListQuery) (d : ObjectId * Project.t) : Prop :=
  Mongo.when_set (q_team q) (λ c, Mongo.id_matches c (Project.team d.2)) ∧
  Mongo.when_set (q_or q)
    (λ a, a ∈ Project.user <$> Project.assignedMembers d.2 ∨
          Project.projectManager d.2 = a) ∧
  Forall (λ search,
            regex_search_i search (Project.name d.2) ∨
            regex_search_i search (Project.description d.2) ∨
            Exists (λ tag, regex_search_i search tag) (Project.tags d.2))
    (q_and q) ∧
  Mongo.when_set (q_status q) (λ st, Project.status d.2 = st) ∧
  Mongo.when_set (q_priority q) (λ pr, Project.priority d.2 = pr).

#[global] Instance projects_matches_dec q d : Decision (matches q d).
Proof. unfold matches. apply _. Defined.

Definition listProjects (req : Request) (params : ListParams) (s : Store)
    : list (ObjectId * Project.t) :=
  Mongo.find (matches (listProjects_query req params s)) (projects s).
End List.

End ProjectsRoutes.

(** ** routes/tasks.js *)

Module TasksRoutes.

Record DependencyInput := {
  d_task : ObjectId;
  d_type : option Task.DependencyType
}.

Record CreateBody := {
  c_title : string;
  c_description : string;
  c_project : ObjectId;
  c_assignedTo : ObjectId;
  c_priority : option Task.Priority;
  c_type : option Task.Type_;
  c_estimatedHours : option Qc;
  c_startDate : Date;
  c_dueDate : Date;
  c_tags : option (list string);
  c_dependencies : option (list DependencyInput)
}.

(** The body of an update.  The Joi schema of the route is not among the
    sources: the body is taken to carry the paths of the create body other
    than [project], each optional, with [status] and [actualHours].
    [completedDate] is the key the handler adds to it. *)
Record UpdateData := {
  u_title : option string;
  u_description : option string;
  u_assignedTo : option ObjectId;
  u_status : option Task.Status;
  u_priority : option Task.Priority;
  u_type : option Task.Type_;
  u_estimatedHours : option Qc;
  u_actualHours : option Qc;
  u_startDate : option Date;
  u_dueDate : option Date;
  u_tags : option (list string);
  u_dependencies : option (list DependencyInput);
  u_completedDate : option Date
}.

Definition set_completedDate (d : Date) (u : UpdateData) : UpdateData :=
  {| u_title := u_title u; u_description := u_description u;
     u_assignedTo := u_assignedTo u; u_status := u_status u;
     u_priority := u_priority u; u_type := u_type u;
     u_estimatedHours := u_estimatedHours u;
     u_actualHours := u_actualHours u; u_startDate := u_startDate u;
     u_dueDate := u_dueDate u; u_tags := u_tags u;
     u_dependencies := u_dependencies u; u_completedDate := Some d |}.

Record ProgressBody := {
  p_status : Task.Status;
  p_comment : option string;
  p_hoursWorked : option Qc
}.

(** A dependency subdocument cast from the body, with the schema default. *)
Definition cast_dependency (d : DependencyInput) : Task.Dependency :=
  {| Task.task := d_task d;
     Task.type := default Task.depends_on (d_type d) |}.

(** [Object.assign(task, updateData)] *)
Definition assign (tk : Task.t) (u : UpdateData) : Task.t :=
  {| Task.title := default (Task.title tk) (u_title u);
     Task.description := default (Task.description tk) (u_description u);
     Task.project := Task.project tk;
     Task.assignedTo := default (Task.assignedTo tk) (u_assignedTo u);
     Task.assignedBy := Task.assignedBy tk;
     Task.status := default (Task.status tk) (u_status u);
     Task.priority := default (Task.priority tk) (u_priority u);
     Task.type_ := default (Task.type_ tk) (u_type u);
     Task.estimatedHours :=
       default (Task.estimatedHours tk) (u_estimatedHours u);
     Task.actualHours := default (Task.actualHours tk) (u_actualHours u);
     Task.startDate := default (Task.startDate tk) (u_startDate u);
     Task.dueDate := default (Task.dueDate tk) (u_dueDate u);
     Task.completedDate :=
       match u_completedDate u with
       | Some d => Some d
       | None => Task.completedDate tk
       end;
     Task.tags := default (Task.tags tk) (u_tags u);
     Task.dependencies :=
       match u_dependencies u with
       | Some ds => cast_dependency <$> ds
       | None => Task.dependencies tk
       end;
     Task.comments := Task.comments tk;
     Task.progressUpdates := Task.progressUpdates tk |}.

(** [a || b] with [b] an expression that may raise. *)
Definition orM (a : bool) (b : Http.M bool) : Http.M bool :=
  if a then mret true else b.

(** The populated [task.project]: [null] when the reference dangles. *)
Definition populated_project (projectId : ObjectId)
    : Http.M (option Project.t) :=
  Http.gets (λ s, Mongo.findById projectId (projects s)).

(** [task.project.isProjectManager(userId)] *)
Definition isProjectManager (projectId userId : ObjectId) : Http.M bool :=
  project ← populated_project projectId;
  project ← Http.deref project;
  mret (Project.isProjectManager project userId).

(** [task.project.isAssignedMember(userId)] *)
Definition isAssignedMember (projectId userId : ObjectId) : Http.M bool :=
  project ← populated_project projectId;
  project ← Http.deref project;
  mret (Project.isAssignedMember project userId).

(** [task.project.team.isTeamLeader(userId)] *)
Definition isTeamLeader (projectId userId : ObjectId) : Http.M bool :=
  project ← populated_project projectId;
  project ← Http.deref project;
  team ← Http.gets (λ s, Mongo.findById (Project.team project) (teams s));
  team ← Http.deref team;
  mret (Team.isTeamLeader team userId).

Definition terminal_status : list Task.Status :=
  [Task.completed; Task.cancelled].

(** POST /api/tasks *)
Definition createTask_body (req : Request) (body : CreateBody)
    : Http.M (option Task.t) :=
  let project := c_project body in
  let assignedTo := c_assignedTo body in
  let dependencies := c_dependencies body in
  projectDoc ← Http.gets (λ s, Mongo.findById project (projects s));
  match projectDoc with
  | None => Http.respond 404 "Project not found"
  | Some projectDoc =>
      canManage ←
        orM (bool_decide (actor_role req = User.admin))
          (orM (Project.isProjectManager projectDoc (actor req))
             (isTeamLeader project (actor req)));
      Http.reject_if (negb canManage)
        403 "Project management access required to create tasks";;
      assignedUser ← Http.gets (λ s, Mongo.findById assignedTo (users s));
      Http.reject_if
        (match assignedUser with
         | None => true
         | Some user => negb (User.isActive user)
         end)
        404 "Assigned user not found or inactive";;
      Http.reject_if
        (negb (Project.isAssignedMember projectDoc assignedTo) &&
         negb (Project.isProjectManager projectDoc assignedTo))
        400 "User must be assigned to the project to receive tasks";;
      (match dependencies with
       | Some ((_ :: _) as deps) =>
           dependencyTasks ← Http.gets (λ s,
             Mongo.find
               (λ d, d.1 ∈ d_task <$> deps ∧ Task.project d.2 = project)
               (tasks s));
           Http.reject_if
             (negb (bool_decide (length dependencyTasks = length deps)))
             400 "Some dependency tasks not found or not in the same project"
       | _ => mret tt
       end);;
      let task :=
        {| Task.title := JsString.trim (c_title body);
           Task.description := c_description body;
           Task.project := project;
           Task.assignedTo := assignedTo;
           Task.assignedBy := actor req;
           Task.status := Task.todo;
           Task.priority := default Task.medium (c_priority body);
           Task.type_ := default Task.feature (c_type body);
           Task.estimatedHours := default 0%Qc (c_estimatedHours body);
           Task.actualHours := 0%Qc;
           Task.startDate := c_startDate body;
           Task.dueDate := c_dueDate body;
           Task.completedDate := None;
           Task.tags := default [] (c_tags body);
           Task.dependencies := cast_dependency <$> default [] dependencies;
           Task.comments := [];
           Task.progressUpdates := [] |} in
      Save.task true (new_id req) task;;
      Http.gets (λ s, Mongo.findById (new_id req) (tasks s))
  end.

Definition createTask (req : Request) (body : CreateBody) :=
  Http.handler Http.catch_validation (createTask_body req body).

(** PUT /api/tasks/:id *)
Definition updateTask_body (req : Request) (taskId : ObjectId)
    (updateData : UpdateData) : Http.M (option Task.t) :=
  task ← Http.gets (λ s, Mongo.findById taskId (tasks s));
  match task with
  | None => Http.respond 404 "Task not found"
  | Some task =>
      canModify ←
        orM (Task.canModify task (actor req) (actor_role req))
          (a ← isProjectManager (Task.project task) (actor req);
           orM a (isTeamLeader (Task.project task) (actor req)));
      Http.reject_if (negb canModify) 403 "Access denied to modify this task";;
      (match u_assignedTo updateData with
       | Some assignedTo =>
           if bool_decide (assignedTo ≠ Task.assignedTo task) then
             newAssignedUser ← Http.gets (λ s,
               Mongo.findById assignedTo (users s));
             Http.reject_if
               (match newAssignedUser with
                | None => true
                | Some user => negb (User.isActive user)
                end)
               404 "New assigned user not found or inactive";;
             a ← isAssignedMember (Task.project task) assignedTo;
             b ← (if a then mret true
                  else isProjectManager (Task.project task) assignedTo);
             Http.reject_if (negb a && negb b)
               400 "New assigned user must be part of the project"
           else mret tt
       | None => mret tt
       end);;
      let updateData :=
        if bool_decide (u_status updateData = Some Task.completed) &&
           bool_decide (Task.status task ≠ Task.completed)
        then set_completedDate (now req) updateData
        else updateData in
      let task := assign task updateData in
      Save.task false taskId task;;
      Http.gets (λ s, Mongo.findById taskId (tasks s))
  end.

Definition updateTask (req : Request) (taskId : ObjectId)
    (updateData : UpdateData) :=
  Http.handler Http.catch_validation (updateTask_body req taskId updateData).

(** PUT /api/tasks/:id/progress *)
Definition updateProgress_body (req : Request) (taskId : ObjectId)
    (body : ProgressBody) : Http.M (option Task.t) :=
  task ← Http.gets (λ s, Mongo.findById taskId (tasks s));
  match task with
  | None => Http.respond 404 "Task not found"
  | Some task =>
      canUpdate ←
        orM (bool_decide (Task.assignedTo task = actor req))
          (orM (Task.canModify task (actor req) (actor_role req))
             (a ← isProjectManager (Task.project task) (actor req);
              orM a (isTeamLeader (Task.project task) (actor req))));
      Http.reject_if (negb canUpdate)
        403 "Access denied to update task progress";;
      let task :=
        Task.updateProgress (actor req) (p_status body) (p_comment body)
          (Some (default 0%Qc (p_hoursWorked body))) (now req) task in
      Save.task false taskId task;;
      Http.gets (λ s, Mongo.findById taskId (tasks s))
  end.

Definition updateProgress (req : Request) (taskId : ObjectId)
    (body : ProgressBody) :=
  Http.handler Http.catch_plain (updateProgress_body req taskId body).

(** POST /api/tasks/:id/comments *)
Definition addComment_body (req : Request) (taskId : ObjectId)
    (comment : string) : Http.M (option (list Task.Comment)) :=
  task ← Http.gets (λ s, Mongo.findById taskId (tasks s));
  match task with
  | None => Http.respond 404 "Task not found"
  | Some task =>
      canAccess ←
        orM (bool_decide (actor_role req = User.admin))
          (orM (bool_decide (Task.assignedTo task = actor req))
             (orM (bool_decide (Task.assignedBy task = actor req))
                (a ← isProjectManager (Task.project task) (actor req);
                 orM a
                   (b ← isTeamLeader (Task.project task) (actor req);
                    orM b
                      (isAssignedMember (Task.project task) (actor req))))));
      Http.reject_if (negb canAccess)
        403 "Access denied to comment on this task";;
      let task := Task.addComment (actor req) comment (now req) task in
      Save.task false taskId task;;
      Http.gets (λ s, Task.comments <$> Mongo.findById taskId (tasks s))
  end.

Definition addComment (req : Request) (taskId : ObjectId) (comment : string) :=
  Http.handler Http.catch_plain (addComment_body req taskId comment).

(** The query of [Task.find] in DELETE /api/tasks/:id:
    [{ 'dependencies.task': taskId, status: { $nin: [...] } }] *)
Definition is_dependent (taskId : ObjectId) (d : ObjectId * Task.t) : Prop :=
  taskId ∈ Task.task <$> Task.dependencies d.2 ∧
  Task.status d.2 ∉ terminal_status.

(** DELETE /api/tasks/:id *)
Definition deleteTask_body (req : Request) (taskId : ObjectId)
    : Http.M unit :=
  task ← Http.gets (λ s, Mongo.findById taskId (tasks s));
  match task with
  | None => Http.respond 404 "Task not found"
  | Some task =>
      canDelete ←
        orM (bool_decide (actor_role req = User.admin))
          (orM (bool_decide (Task.assignedBy task = actor req))
             (a ← isProjectManager (Task.project task) (actor req);
              orM a (isTeamLeader (Task.project task) (actor req))));
      Http.reject_if (negb canDelete) 403 "Access denied to delete this task";;
      dependentTasks ← Http.gets (λ s,
        Mongo.find (is_dependent taskId) (tasks s));
      Http.reject_if (bool_decide (0 < length dependentTasks))
        400 "Cannot delete task with active dependencies";;
      Http.modify (set_tasks (Mongo.findByIdAndDelete taskId))
  end.

Definition deleteTask (req : Request) (taskId : ObjectId) :=
  Http.handler Http.catch_plain (deleteTask_body req taskId).

(** GET /api/tasks.  The [query] object the handler builds, key by key; the
    documents it matches are what [Task.find(query)] returns before sort,
    skip and limit. *)
Inductive StatusCond :=
| StEq (st : Task.Status)
| StNin (sts : list Task.Status).

Definition status_matches (c : StatusCond) (x : Task.Status) : Prop :=
  match c with
  | StEq st => x = st
  | StNin sts => x ∉ sts
  end.

#[global] Instance status_matches_dec c x : Decision (status_matches c x).
Proof. destruct c; simpl; apply _. Defined.

Record ListQuery := {
  q_project : option Mongo.IdCond;     (* query.project *)
  q_assignedTo : option ObjectId;      (* query.assignedTo *)
  q_and : list string;                 (* query.$and: one per search *)
  q_status : option StatusCond;        (* query.status *)
  q_priority : option Task.Priority;   (* query.priority *)
  q_type : option Task.Type_;          (* query.type *)
  q_dueDate_lt : option Date           (* query.dueDate: { $lt } *)
}.

(** [overdue] stands for the test [overdue === 'true']. *)
Record ListParams := {
  l_search : option string;
  l_status : option Task.Status;
  l_priority : option Task.Priority;
  l_type : option Task.Type_;
  l_projectId : option ObjectId;
  l_assignedTo : option ObjectId;
  l_overdue : bool
}.

Definition no_params : ListParams :=
  {| l_search := None; l_status := None; l_priority := None; l_type := None;
     l_projectId := None; l_assignedTo := None; l_overdue := false |}.

Definition empty_query : ListQuery :=
  {| q_project := None; q_assignedTo := None; q_and := []; q_status := None;
     q_priority := None; q_type := None; q_dueDate_lt := None |}.

Definition with_project (c : Mongo.IdCond) (q : ListQuery) : ListQuery :=
  {| q_project := Some c; q_assignedTo := q_assignedTo q; q_and := q_and q;
     q_status := q_status q; q_priority := q_priority q; q_type := q_type q;
     q_dueDate_lt := q_dueDate_lt q |}.
Definition with_assignedTo (a : ObjectId) (q : ListQuery) : ListQuery :=
  {| q_project := q_project q; q_assignedTo := Some a; q_and := q_and q;
     q_status := q_status q; q_priority := q_priority q; q_type := q_type q;
     q_dueDate_lt := q_dueDate_lt q |}.
Definition push_and (search : string) (q : ListQuery) : ListQuery :=
  {| q_project := q_project q; q_assignedTo := q_assignedTo q;
     q_and := q_and q ++ [search];
     q_status := q_status q; q_priority := q_priority q; q_type := q_type q;
     q_dueDate_lt := q_dueDate_lt q |}.
Definition with_status (c : StatusCond) (q : ListQuery) : ListQuery :=
  {| q_project := q_project q; q_assignedTo := q_assignedTo q;
     q_and := q_and q; q_status := Some c; q_priority := q_priority q;
     q_type := q_type q; q_dueDate_lt := q_dueDate_lt q |}.
Definition with_priority (pr : Task.Priority) (q : ListQuery) : ListQuery :=
  {| q_project := q_project q; q_assignedTo := q_assignedTo q;
     q_and := q_and q; q_status := q_status q; q_priority := Some pr;
     q_type := q_type q; q_dueDate_lt := q_dueDate_lt q |}.
Definition with_type (ty : Task.Type_) (q : ListQuery) : ListQuery :=
  {| q_project := q_project q; q_assignedTo := q_assignedTo q;
     q_and := q_and q; q_status := q_status q; q_priority := q_priority q;
     q_type := Some ty; q_dueDate_lt := q_dueDate_lt q |}.
Definition with_dueDate_lt (d : Date) (q : ListQuery) : ListQuery :=
  {| q_project := q_project q; q_assignedTo := q_assignedTo q;
     q_and := q_and q; q_status := q_status q; q_priority := q_priority q;
     q_type := q_type q; q_dueDate_lt := Some d |}.

Definition listTasks_query (req : Request) (params : ListParams) (s : Store)
    : ListQuery :=
  let query := empty_query in
  let query :=
    if bool_decide (actor_role req = User.admin) then query
    else if bool_decide (actor_role req = User.team_leader) then
      let userProjects :=
        Mongo.find
          (λ d, Project.projectManager d.2 = actor req ∨
                actor req ∈ Project.user <$> Project.assignedMembers d.2)
          (projects s) in
      let projectIds := userProjects.*1 in
      with_project (Mongo.IdIn projectIds) query
    else with_assignedTo (actor req) query in
  let query :=
    Mongo.if_set (l_search params)
      (λ search q, if JsString.truthy search then push_and search q else q)
      query in
  let query :=
    Mongo.if_set (l_status params) (λ st, with_status (StEq st))
      query in
  let query := Mongo.if_set (l_priority params) with_priority query in
  let query := Mongo.if_set (l_type params) with_type query in
  let query :=
    Mongo.if_set (l_projectId params)
      (λ p, with_project (Mongo.IdEq p)) query in
  let query :=
    Mongo.if_set (l_assignedTo params) with_assignedTo query in
  let query :=
    if l_overdue params
    then with_status (StNin terminal_status) (with_dueDate_lt (now req) query)
    else query in
  query.

Section List.
(** [{ $regex: pattern, $options: 'i' }] on a string path *)
Context (regex_search_i : string → string → bool).

Definition matches (q : ListQuery) (d : ObjectId * Task.t) : Prop :=
  Mongo.when_set (q_project q)
    (λ c, Mongo.id_matches c (Task.project d.2)) ∧
  Mongo.when_set (q_assignedTo q) (λ a, Task.assignedTo d.2 = a) ∧
  Forall (λ search,
            regex_search_i search (Task.title d.2) ∨
            regex_search_i search (Task.description d.2) ∨
            Exists (λ tag, regex_search_i search tag) (Task.tags d.2))
    (q_and q) ∧
  Mongo.when_set (q_status q) (λ c, status_matches c (Task.status d.2)) ∧
  Mongo.when_set (q_priority q) (λ pr, Task.priority d.2 = pr) ∧
  Mongo.when_set (q_type q) (λ ty, Task.type_ d.2 = ty) ∧
  Mongo.when_set (q_dueDate_lt q) (λ now, (Task.dueDate d.2 < now)%Z).

#[global] Instance tasks_matches_dec q d : Decision (matches q d).
Proof. unfold matches. apply _. Defined.

Definition listTasks (req : Request) (params : ListParams) (s : Store)
    : list (ObjectId * Task.t) :=
  Mongo.find (matches (listTasks_query req params s)) (tasks s).
End List.

(** The computed fields a task goes out with. *)
Record Computed := {
  duration : Z;
  timeRemaining : Z;
  isOverdue : bool;
  progressPercentage : nat
}.

(** The computed fields of GET /api/tasks, written out in the handler for
    the lean documents of the list. *)
Definition statusProgress : gmap string nat :=
  list_to_map
    [("todo", 0); ("in_progress", 25); ("review", 75); ("completed", 100);
     ("cancelled", 0)].


(** The computed fields of GET /api/tasks/:id, read off the virtuals. *)
Definition computed (now : Date) (task : Task.t) : Computed :=
  {| duration := Task.duration task;
     timeRemaining := Task.timeRemaining now task;
     isOverdue := Task.isOverdue now task;
     progressPercentage := Task.progressPercentage task |}.

(** GET /api/tasks/:id.  The paths [project], [assignedTo] and [assignedBy]
    of the task are populated: each is [null] when its reference dangles,
    and the handler reads [_id] off it. *)
Definition getTask_body (req : Request) (taskId : ObjectId)
    : Http.M (Task.t * Computed) :=
  task ← Http.gets (λ s, Mongo.findById taskId (tasks s));
  match task with
  | None => Http.respond 404 "Task not found"
  | Some task =>
      project ← populated_project (Task.project task);
      project ← Http.deref project;
      canAccess ←
        orM (bool_decide (actor_role req = User.admin))
          (assignedTo ← Http.gets (λ s,
             Mongo.findById (Task.assignedTo task) (users s));
           _ ← Http.deref assignedTo;
           orM (bool_decide (Task.assignedTo task = actor req))
             (assignedBy ← Http.gets (λ s,
                Mongo.findById (Task.assignedBy task) (users s));
              _ ← Http.deref assignedBy;
              orM (bool_decide (Task.assignedBy task = actor req))
                (orM (Project.isProjectManager project (actor req))
                   (team ← Http.gets (λ s,
                      Mongo.findById (Project.team project) (teams s));
                    team ← Http.deref team;
                    orM (Team.isTeamLeader team (actor req))
                      (mret (Project.isAssignedMember project
                               (actor req)))))));
      Http.reject_if (negb canAccess) 403 "Access denied to this task";;
      mret (task, computed (now req) task)
  end.

Definition getTask (req : Request) (taskId : ObjectId) :=
  Http.handler Http.catch_plain (getTask_body req taskId).

(** GET /api/tasks/my-tasks: the documents [Task.find(query)] returns
    before sort, skip and limit. *)
Definition myTasks (req : Request) (status : option Task.Status) (s : Store)
    : list (ObjectId * Task.t) :=
  Mongo.find
    (λ d, Task.assignedTo d.2 = actor req ∧
          Mongo.when_set status (λ st, Task.status d.2 = st))
    (tasks s).

End TasksRoutes.

(** ** server.js: the routes that write to the store

    [app.use('/api/auth', authRoutes)] and the four lines after it mount the
    routers; a [Call] is one request to a route that writes, with what the
    handler reads of it. *)

Module Api.
Section Routes.
Context (regex_test_i : string → string → bool).
Context (bcrypt_hash : string → string).
Context (bcrypt_compare : string → string → bool).
Context {ProfileBody : Type}.
Context (assign_profile : User.Profile → ProfileBody → User.Profile).

Inductive Call :=
(* /api/auth *)
| Register (now : Date) (new_id : ObjectId) (body : AuthRoutes.RegisterBody)
| Login (now : Date) (body : AuthRoutes.LoginBody)
| ChangePassword (req : Request) (body : AuthRoutes.ChangePasswordBody)
(* /api/users *)
| CreateUser (req : Request) (body : AuthRoutes.RegisterBody)
| UpdateUser (req : Request) (userId : ObjectId)
    (body : UsersRoutes.UpdateBody ProfileBody)
| Promote (req : Request) (userId : ObjectId)
| Demote (req : Request) (userId : ObjectId)
| DeleteUser (req : Request) (userId : ObjectId)
(* /api/teams *)
| CreateTeam (req : Request) (body : TeamsRoutes.CreateBody)
| UpdateTeam (req : Request) (teamId : ObjectId)
    (body : TeamsRoutes.UpdateBody)
| AddTeamMember (req : Request) (teamId : ObjectId)
    (body : TeamsRoutes.AddMemberBody)
| RemoveTeamMember (req : Request) (teamId userId : ObjectId)
| DeleteTeam (req : Request) (teamId : ObjectId)
(* /api/projects *)
| CreateProject (req : Request) (body : ProjectsRoutes.CreateBody)
| UpdateProject (req : Request) (projectId : ObjectId)
    (updateData : ProjectsRoutes.UpdateData)
| AddProjectMember (req : Request) (projectId : ObjectId)
    (body : ProjectsRoutes.AddMemberBody)
| RemoveProjectMember (projectId userId : ObjectId)
| DeleteProject (projectId : ObjectId)
(* /api/tasks *)
| CreateTask (req : Request) (body : TasksRoutes.CreateBody)
| UpdateTask (req : Request) (taskId : ObjectId)
    (updateData : TasksRoutes.UpdateData)
| UpdateProgress (req : Request) (taskId : ObjectId)
    (body : TasksRoutes.ProgressBody)
| AddComment (req : Request) (taskId : ObjectId) (comment : string)
| DeleteTask (req : Request) (taskId : ObjectId).

(** What a request leaves behind: the error of the response, if it is one,
    and the store. *)
Definition outcome {A} (r : Http.Response A * Store)
    : option Http.Error * Store :=
  match r with
  | (Http.Success _, s) => (None, s)
  | (Http.Failure e, s) => (Some e, s)
  end.

Definition run (c : Call) (s : Store) : option Http.Error * Store :=
  match c with
  | Register now new_id body =>
      outcome (AuthRoutes.register bcrypt_hash now new_id body s)
  | Login now body => outcome (AuthRoutes.login bcrypt_compare now body s)
  | ChangePassword req body =>
      outcome (AuthRoutes.changePassword bcrypt_hash bcrypt_compare req body s)
  | CreateUser req body =>
      outcome (UsersRoutes.createUser bcrypt_hash req body s)
  | UpdateUser req userId body =>
      outcome (UsersRoutes.updateUser assign_profile req userId body s)
  | Promote req userId => outcome (UsersRoutes.promote req userId s)
  | Demote req userId => outcome (UsersRoutes.demote req userId s)
  | DeleteUser req userId => outcome (UsersRoutes.deleteUser req userId s)
  | CreateTeam req body =>
      outcome (TeamsRoutes.createTeam regex_test_i req body s)
  | UpdateTeam req teamId body =>
      outcome (TeamsRoutes.updateTeam regex_test_i req teamId body s)
  | AddTeamMember req teamId body =>
      outcome (TeamsRoutes.addMember req teamId body s)
  | RemoveTeamMember req teamId userId =>
      outcome (TeamsRoutes.removeMember req teamId userId s)
  | DeleteTeam req teamId => outcome (TeamsRoutes.deleteTeam req teamId s)
  | CreateProject req body =>
      outcome (ProjectsRoutes.createProject regex_test_i req body s)
  | UpdateProject req projectId updateData =>
      outcome
        (ProjectsRoutes.updateProject regex_test_i req projectId updateData s)
  | AddProjectMember req projectId body =>
      outcome (ProjectsRoutes.addMember req projectId body s)
  | RemoveProjectMember projectId userId =>
      outcome (ProjectsRoutes.removeMember projectId userId s)
  | DeleteProject projectId =>
      outcome (ProjectsRoutes.deleteProject projectId s)
  | CreateTask req body => outcome (TasksRoutes.createTask req body s)
  | UpdateTask req taskId updateData =>
      outcome (TasksRoutes.updateTask req taskId updateData s)
  | UpdateProgress req taskId body =>
      outcome (TasksRoutes.updateProgress req taskId body s)
  | AddComment req taskId comment =>
      outcome (TasksRoutes.addComment req taskId comment s)
  | DeleteTask req taskId => outcome (TasksRoutes.deleteTask req taskId s)
  end.

(** The stores the server can be in: it starts on an empty database and
    answers one request after the other.  The middleware of a route
    (authentication, role checks, validation) stands before its handler and
    refuses requests; it is taken to write nothing, so the stores the
    server reaches with it are among these. *)
Inductive reachable : Store → Prop :=
| reachable_empty : reachable empty_store
| reachable_run (c : Call) (s : Store) :
    reachable s → reachable (run c s).2.

End Routes.
End Api.


(** ** Sample documents, for the scenarios of the specification *)

Module Scenario.

Definition profile0 : User.Profile :=
  {| User.avatar := None; User.phone := None; User.department := None;
     User.position := None; User.joinDate := 0%Z |}.

Definition mk_user (name email : string) (role : User.Role) : User.t :=
  {| User.name := name; User.email := email; User.password := "$2a$12$hash";
     User.role := role; User.isActive := true; User.teams := [];
     User.profile := profile0; User.lastLogin := None;
     User.createdBy := None; User.createdAt := 0%Z; User.updatedAt := 0%Z |}.

(** Users 1 (admin), 2 and 3 (team leaders), 4 (member). *)
Definition alice : User.t := mk_user "Alice" "alice@example.com" User.admin.
Definition bob : User.t := mk_user "Bob" "bob@example.com" User.team_leader.
Definition carol : User.t :=
  mk_user "Carol" "carol@example.com" User.team_leader.
Definition dave : User.t := mk_user "Dave" "dave@example.com" User.member.

Definition some_users : gmap nat User.t :=
  <[1 := alice]> (<[2 := bob]> (<[3 := carol]> (<[4 := dave]> ∅))).

Definition mk_member (user : ObjectId) (role : Team.MemberRole)
    : Team.Member :=
  {| Team.user := user; Team.joinedAt := 0%Z; Team.role := role |}.

(** Team 10, led by Bob. *)
Definition eng : Team.t :=
  {| Team.name := "Eng"; Team.description := "";
     Team.teamLeader := 2;
     Team.members := [mk_member 2 Team.team_leader; mk_member 4 Team.member];
     Team.isActive := true;
     Team.settings := TeamsRoutes.default_settings;
     Team.createdBy := 1 |}.

Definition req_by (actor : ObjectId) (role : User.Role) : Request :=
  {| actor := actor; actor_role := role; now := 1000%Z; new_id := 100 |}.

Definition bcrypt_hash (password : string) : string := "$2a$12$hash".

Definition register_as (name email : string) (role : option User.Role)
    : AuthRoutes.RegisterBody :=
  {| AuthRoutes.r_name := name; AuthRoutes.r_email := email;
     AuthRoutes.r_password := "secret1"; AuthRoutes.r_role := role |}.

(** Alice alone, as the first registration leaves her. *)
Definition alice_only : Store :=
  {| users := {[1 := alice]}; teams := ∅; projects := ∅; tasks := ∅ |}.

(** The four users and team [eng]. *)
Definition org : Store :=
  {| users := some_users; teams := {[10 := eng]}; projects := ∅;
     tasks := ∅ |}.




(** Task 50 with five hours booked, assigned to Dave. *)
Definition five_hours : Task.t :=
  {| Task.title := "T1"; Task.description := ""; Task.project := 20;
     Task.assignedTo := 4; Task.assignedBy := 2; Task.status := Task.todo;
     Task.priority := Task.medium; Task.type_ := Task.feature;
     Task.estimatedHours := Q2Qc 8; Task.actualHours := Q2Qc 5;
     Task.startDate := 0%Z; Task.dueDate := 10%Z;
     Task.completedDate := None; Task.tags := []; Task.dependencies := [];
     Task.comments := []; Task.progressUpdates := [] |}.

Definition working : Store :=
  {| users := some_users; teams := {[10 := eng]}; projects := ∅;
     tasks := {[50 := five_hours]} |}.

Definition done_with_three_hours : TasksRoutes.ProgressBody :=
  {| TasksRoutes.p_status := Task.completed; TasksRoutes.p_comment := None;
     TasksRoutes.p_hoursWorked := Some (Q2Qc 3) |}.

(** [new RegExp(`^${pattern}$`, 'i').test(s)] for a pattern without
    metacharacters. *)
Definition regex_test_i (pattern s : string) : bool :=
  bool_decide (JsString.toLowerCase pattern = JsString.toLowerCase s).

(** Project 20 of team [eng], managed by Bob, from day 0 to day 10. *)
Definition launch : Project.t :=
  {| Project.name := "Launch"; Project.description := "";
     Project.team := 10; Project.projectManager := 2;
     Project.assignedMembers :=
       [{| Project.user := 4; Project.assignedAt := 0%Z;
           Project.role := Project.developer |}];
     Project.status := Project.planning; Project.priority := Project.medium;
     Project.startDate := 0%Z; Project.endDate := 10%Z;
     Project.actualEndDate := None;
     Project.budget := {| Project.allocated := 0%Qc; Project.spent := 0%Qc |};
     Project.tags := []; Project.createdBy := 2 |}.

Definition with_launch : Store :=
  {| users := some_users; teams := {[10 := eng]};
     projects := {[20 := launch]}; tasks := ∅ |}.

Definition no_update : ProjectsRoutes.UpdateData :=
  {| ProjectsRoutes.u_name := None; ProjectsRoutes.u_description := None;
     ProjectsRoutes.u_projectManager := None;
     ProjectsRoutes.u_status := None; ProjectsRoutes.u_priority := None;
     ProjectsRoutes.u_startDate := None; ProjectsRoutes.u_endDate := None;
     ProjectsRoutes.u_budget := None; ProjectsRoutes.u_tags := None;
     ProjectsRoutes.u_actualEndDate := None |}.

Definition end_on (d : Date) : ProjectsRoutes.UpdateData :=
  {| ProjectsRoutes.u_name := None; ProjectsRoutes.u_description := None;
     ProjectsRoutes.u_projectManager := None;
     ProjectsRoutes.u_status := None; ProjectsRoutes.u_priority := None;
     ProjectsRoutes.u_startDate := None; ProjectsRoutes.u_endDate := Some d;
     ProjectsRoutes.u_budget := None; ProjectsRoutes.u_tags := None;
     ProjectsRoutes.u_actualEndDate := None |}.

(** Team 11, led by Carol, with Bob as a member; its project 21 is managed
    by Bob. *)
Definition ops : Team.t :=
  {| Team.name := "Ops"; Team.description := "";
     Team.teamLeader := 3;
     Team.members := [mk_member 3 Team.team_leader; mk_member 2 Team.member];
     Team.isActive := true;
     Team.settings := TeamsRoutes.default_settings;
     Team.createdBy := 1 |}.

Definition migration : Project.t :=
  {| Project.name := "Migration"; Project.description := "";
     Project.team := 11; Project.projectManager := 2;
     Project.assignedMembers := [];
     Project.status := Project.active; Project.priority := Project.high;
     Project.startDate := 0%Z; Project.endDate := 30%Z;
     Project.actualEndDate := None;
     Project.budget := {| Project.allocated := 0%Qc; Project.spent := 0%Qc |};
     Project.tags := []; Project.createdBy := 3 |}.

(** Task 50 of project 20 is Dave's, task 53 of project 21 is Bob's. *)
Definition two_teams : Store :=
  {| users := some_users;
     teams := <[10 := eng]> {[11 := ops]};
     projects := <[20 := launch]> {[21 := migration]};
     tasks := <[50 := five_hours]>
                {[53 := {| Task.title := "T4"; Task.description := "";
                           Task.project := 21; Task.assignedTo := 2;
                           Task.assignedBy := 3; Task.status := Task.todo;
                           Task.priority := Task.medium;
                           Task.type_ := Task.feature;
                           Task.estimatedHours := 0%Qc;
                           Task.actualHours := 0%Qc;
                           Task.startDate := 0%Z; Task.dueDate := 10%Z;
                           Task.completedDate := None; Task.tags := [];
                           Task.dependencies := []; Task.comments := [];
                           Task.progressUpdates := [] |}]} |}.

(** A matcher for [{ $regex: pattern, $options: 'i' }]; the scenarios send
    no search. *)
Definition regex_search_i (pattern s : string) : bool :=
  bool_decide (JsString.toLowerCase pattern = JsString.toLowerCase s).

Definition tasks_assigned_to (a : ObjectId) : TasksRoutes.ListParams :=
  {| TasksRoutes.l_search := None; TasksRoutes.l_status := None;
     TasksRoutes.l_priority := None; TasksRoutes.l_type := None;
     TasksRoutes.l_projectId := None; TasksRoutes.l_assignedTo := Some a;
     TasksRoutes.l_overdue := false |}.



(** Alice signs in with the password she registered with. *)
Definition alice_login : AuthRoutes.LoginBody :=
  {| AuthRoutes.l_email := "Alice@Example.com";
     AuthRoutes.l_password := "secret1" |}.

Definition new_password : AuthRoutes.ChangePasswordBody :=
  {| AuthRoutes.cp_currentPassword := "secret1";
     AuthRoutes.cp_newPassword := "secret2" |}.


(** Team "Ops" led by Carol, with Dave as a member. *)
Definition ops_body : TeamsRoutes.CreateBody :=
  {| TeamsRoutes.c_name := "Ops"; TeamsRoutes.c_description := None;
     TeamsRoutes.c_teamLeader := 3; TeamsRoutes.c_members := Some [4];
     TeamsRoutes.c_settings := None |}.

(** A task of project 20 for Dave, from day 0 to day 10. *)
Definition task_body : TasksRoutes.CreateBody :=
  {| TasksRoutes.c_title := "T5"; TasksRoutes.c_description := "";
     TasksRoutes.c_project := 20; TasksRoutes.c_assignedTo := 4;
     TasksRoutes.c_priority := None; TasksRoutes.c_type := None;
     TasksRoutes.c_estimatedHours := None;
     TasksRoutes.c_startDate := 0%Z; TasksRoutes.c_dueDate := 10%Z;
     TasksRoutes.c_tags := None; TasksRoutes.c_dependencies := None |}.

(** [bcrypt.compare(password, hash)] for the hashes of [bcrypt_hash]. *)
Definition bcrypt_compare (password hash : string) : bool :=
  bool_decide (hash = bcrypt_hash password).

(** A profile patch with no key. *)
Definition assign_profile (p : User.Profile) (patch : unit) : User.Profile :=
  p.

End Scenario.

(** ** Conditions on the store, used to state the properties *)

(** The user leads a team whose [isActive] flag is set. *)
Definition leads_active_team (s : Store) (userId : nat) : Prop :=
  ∃ i tm, teams s !! i = Some tm ∧ Team.teamLeader tm = userId ∧
          Team.isActive tm = true.


(** The actor is the manager of the project, or the leader of its team. *)
Definition manages (s : Store) (projectId a : nat) : Prop :=
  ∃ p, projects s !! projectId = Some p ∧
       (Project.projectManager p = a ∨
        ∃ tm, teams s !! Project.team p = Some tm ∧ Team.teamLeader tm = a).






(** What the task routes keep true of a stored task: its dates are in
    order, and a completed task has its completion date. *)
Definition task_ok (tk : Task.t) : Prop :=
  (Task.startDate tk < Task.dueDate tk)%Z ∧
  (Task.status tk = Task.completed → is_Some (Task.completedDate tk)).

Definition tasks_ok (s : Store) : Prop :=
  ∀ i tk, tasks s !! i = Some tk → task_ok tk.

(** The user leads the team that owns the project. *)
Definition leads_team_of (s : Store) (a : nat) (p : Project.t) : Prop :=
  ∃ tm, teams s !! Project.team p = Some tm ∧ Team.teamLeader tm = a.

(** The user is the manager of the project or one of its assigned members. *)
Definition participates (a : nat) (p : Project.t) : Prop :=
  Project.projectManager p = a ∨
  a ∈ Project.user <$> Project.assignedMembers p.

(** The team invariant.  [leader_tagged] is the property of the
    specification: the leader has an entry tagged [team_leader], and exactly
    one entry carries that tag.  [team_inv] adds that no user has two
    entries, and says it entry by entry. *)
Definition leader_tags (ms : list Team.Member) : nat :=
  length (filter (λ m, Team.role m = Team.team_leader) ms).






(** No two stored users have the same email. *)
Definition emails_unique (s : Store) : Prop :=
  ∀ i j u v, users s !! i = Some u → users s !! j = Some v →
             User.email u = User.email v → i = j.

(** A team in the [teams] list of a user is stored and has the user among
    its members. *)
Definition links_ok (s : Store) : Prop :=
  ∀ i u t, users s !! i = Some u → t ∈ User.teams u →
           ∃ tm, teams s !! t = Some tm ∧ i ∈ Team.user <$> Team.members tm.

(** The leader of a stored team and the manager of a stored project are
    stored users. *)
Definition refs_ok (s : Store) : Prop :=
  (∀ t tm, teams s !! t = Some tm → is_Some (users s !! Team.teamLeader tm)) ∧
  (∀ p pr, projects s !! p = Some pr →
           is_Some (users s !! Project.projectManager pr)).

(** The ways a request changes the store.  Every route that writes does it
    in one of them ([run_change] below); the conditions are what its handler
    checked before writing. *)
Inductive change (s : Store) : Store → Prop :=
| change_none : change s s
| change_user_put (i : nat) (u' : User.t) :
    User.teams u' =
      match users s !! i with Some u => User.teams u | None => [] end →
    (∃ u, users s !! i = Some u ∧ User.email u' = User.email u) ∨
    (∀ j v, users s !! j = Some v → j ≠ i → User.email v ≠ User.email u') →
    change s (set_users (insert i u') s)
| change_user_delete (i : nat) :
    (∀ t tm, teams s !! t = Some tm → Team.teamLeader tm ≠ i) →
    (∀ p pr, projects s !! p = Some pr → Project.projectManager pr ≠ i) →
    change s (set_users (delete i) s)
| change_team_create (t : nat) (tm : Team.t) (ids : list nat) (now : Z) :
    teams s !! t = None →
    is_Some (users s !! Team.teamLeader tm) →
    (∀ i, i ∈ ids → i ∈ Team.user <$> Team.members tm) →
    change s
      (set_users
         (Mongo.updateMany (λ d, d.1 ∈ ids) (TeamsRoutes.addTeam now t))
         (set_teams (insert t tm) s))
| change_team_update (t : nat) (tm0 tm : Team.t) :
    teams s !! t = Some tm0 →
    (∀ i, i ∈ Team.user <$> Team.members tm0 →
          i ∈ Team.user <$> Team.members tm) →
    Team.teamLeader tm = Team.teamLeader tm0 ∨
    is_Some (users s !! Team.teamLeader tm) →
    change s (set_teams (insert t tm) s)
| change_team_add (t : nat) (tm0 tm : Team.t) (i : nat) (now : Z) :
    teams s !! t = Some tm0 →
    Team.teamLeader tm = Team.teamLeader tm0 →
    (∀ j, j ∈ Team.user <$> Team.members tm0 →
          j ∈ Team.user <$> Team.members tm) →
    i ∈ Team.user <$> Team.members tm →
    change s
      (set_users (Mongo.findByIdAndUpdate i (TeamsRoutes.addTeam now t))
         (set_teams (insert t tm) s))
| change_team_remove (t : nat) (tm0 tm : Team.t) (i : nat) (now : Z) :
    teams s !! t = Some tm0 →
    Team.teamLeader tm = Team.teamLeader tm0 →
    (∀ j, j ≠ i → j ∈ Team.user <$> Team.members tm0 →
          j ∈ Team.user <$> Team.members tm) →
    change s
      (set_users (Mongo.findByIdAndUpdate i (TeamsRoutes.pullTeam now t))
         (set_teams (insert t tm) s))
| change_team_delete (t : nat) (now : Z) :
    change s
      (set_teams (Mongo.findByIdAndDelete t)
         (set_users
            (Mongo.updateMany (λ d, t ∈ User.teams d.2)
               (TeamsRoutes.pullTeam now t))
            s))
| change_project_put (p : nat) (pr : Project.t) :
    (∃ pr0, projects s !! p = Some pr0 ∧
            Project.projectManager pr = Project.projectManager pr0) ∨
    is_Some (users s !! Project.projectManager pr) →
    change s (set_projects (insert p pr) s)
| change_project_delete (p : nat) :
    change s (set_projects (delete p) s)
| change_tasks (f : gmap nat Task.t → gmap nat Task.t) :
    change s (set_tasks f s).

(** The users of [s'] are users of [s], each with the email it had. *)
Definition users_kept (s s' : Store) : Prop :=
  ∀ a u', users s' !! a = Some u' →
          ∃ u, users s !! a = Some u ∧ User.email u' = User.email u.



(** The actor has no tie to the task but, possibly, being an assigned
    member of its project: not an admin, not the one the task is assigned
    to, not the one who assigned it, not the manager of its project, not the
    leader of the team of the project. *)
Definition bystander (req : Request) (tk : Task.t) (p : Project.t)
    (tm : Team.t) : Prop :=
  actor_role req ≠ User.admin ∧ Task.assignedTo tk ≠ actor req ∧
  Task.assignedBy tk ≠ actor req ∧ Project.projectManager p ≠ actor req ∧
  Team.teamLeader tm ≠ actor req.

(** ** The error responses of the routes *)

Definition invalid_login : Http.Error :=
  {| Http.status := 401; Http.message := "Invalid email or password" |}.

Definition deactivated : Http.Error :=
  {| Http.status := 401;
     Http.message :=
       "Account is deactivated. Please contact administrator." |}.

Definition email_in_use : Http.Error :=
  {| Http.status := 400;
     Http.message := "User with this email already exists" |}.

Definition wrong_password : Http.Error :=
  {| Http.status := 401; Http.message := "Current password is incorrect" |}.





Definition cannot_modify_admin : Http.Error :=
  {| Http.status := 400; Http.message := "Cannot modify admin role" |}.

Definition already_leader : Http.Error :=
  {| Http.status := 400; Http.message := "User is already a team leader" |}.

Definition team_not_found : Http.Error :=
  {| Http.status := 404; Http.message := "Team not found" |}.

Definition team_has_projects : Http.Error :=
  {| Http.status := 400;
     Http.message := "Cannot delete team with active projects" |}.







Definition denied (message : string) : Http.Error :=
  {| Http.status := 403; Http.message := message |}.

(** * Properties *)

(** Case analysis on every test of an unfolded handler. *)
Ltac branches :=
  repeat first
    [ progress simpl in *
    | discriminate
    | match goal with
      | H : (_, _) = (_, _) |- _ => injection H as ??; subst
      | |- context [match ?x with _ => _ end] =>
          lazymatch x with
          | context [match _ with _ => _ end] => fail
          | _ => destruct x eqn:?
          end
      | H : context [match ?x with _ => _ end] |- _ =>
          lazymatch x with
          | context [match _ with _ => _ end] => fail
          | _ => destruct x eqn:?
          end
      end ].


Ltac http_unfold :=
  cbv [mbind http_bind Http.bind Http.gets mret http_ret Http.ret
       Http.modify Http.respond Http.throw Http.handler Http.deref
       Http.reject_if Save.check_new Save.duplicate_key].

(** ** Queries *)

Section MongoFacts.
Context {A : Type}.
Implicit Types (c : gmap nat A) (q : nat * A → Prop).

Lemma elem_of_find q `{!∀ d, Decision (q d)} c d :
  d ∈ Mongo.find q c ↔ c !! d.1 = Some d.2 ∧ q d.
Proof.
  unfold Mongo.find. rewrite list_elem_of_filter, elem_of_map_to_list'. tauto.
Qed.

Lemma find_nil q `{!∀ d, Decision (q d)} c :
  Mongo.find q c = [] ↔ ∀ i x, c !! i = Some x → ¬ q (i, x).
Proof.
  split.
  - intros Hnil i x Hix Hq.
    assert (Hin : (i, x) ∈ Mongo.find q c) by (by apply elem_of_find).
    rewrite Hnil in Hin. inversion Hin.
  - intros Hno. destruct (Mongo.find q c) as [|[i x] l] eqn:E; [done|].
    assert (Hin : (i, x) ∈ Mongo.find q c) by (rewrite E; left).
    apply elem_of_find in Hin as [Hix Hq]. by destruct (Hno i x).
Qed.

Lemma find_nonempty q `{!∀ d, Decision (q d)} c :
  0 < length (Mongo.find q c) ↔ ∃ i x, c !! i = Some x ∧ q (i, x).
Proof.
  split.
  - destruct (Mongo.find q c) as [|[i x] l] eqn:E; simpl; [lia|].
    intros _. exists i, x.
    assert (Hin : (i, x) ∈ Mongo.find q c) by (rewrite E; left).
    by apply elem_of_find in Hin.
  - intros (i & x & Hix & Hq).
    assert (Hin : (i, x) ∈ Mongo.find q c) by (by apply elem_of_find).
    destruct (Mongo.find q c); [inversion Hin | simpl; lia].
Qed.

Lemma findOne_None q `{!∀ d, Decision (q d)} c :
  Mongo.findOne q c = None ↔ ∀ i x, c !! i = Some x → ¬ q (i, x).
Proof.
  unfold Mongo.findOne. rewrite <- (find_nil q c).
  destruct (Mongo.find q c); simpl; naive_solver.
Qed.

Lemma NoDup_find_ids q `{!∀ d, Decision (q d)} c :
  NoDup (Mongo.find q c).*1.
Proof.
  unfold Mongo.find.
  eapply sublist_NoDup; [apply (NoDup_fst_map_to_list c)|].
  apply fmap_sublist, sublist_filter.
Qed.
End MongoFacts.

Section FindFacts.
Context {A : Type} (f : A → bool).

Lemma find_None_iff (l : list A) :
  List.find f l = None ↔ ∀ x, x ∈ l → f x = false.
Proof.
  induction l as [|a l IH]; simpl.
  - split; [intros _ x Hx; inversion Hx | done].
  - destruct (f a) eqn:Ha.
    + split; [done|].
      intros H. specialize (H a (list_elem_of_here _ _)). congruence.
    + rewrite IH. split.
      * intros H x Hx. apply elem_of_cons in Hx as [-> | Hx]; auto.
      * intros H x Hx. apply H. by right.
Qed.
End FindFacts.

Lemma team_find_None (userId : nat) (ms : list Team.Member) :
  List.find (λ m, bool_decide (Team.user m = userId)) ms = None ↔
  userId ∉ Team.user <$> ms.
Proof.
  rewrite find_None_iff, list_elem_of_fmap. split.
  - intros H (m & -> & Hm). specialize (H m Hm). by case_bool_decide.
  - intros H m Hm. case_bool_decide; [|done]. destruct H. eauto.
Qed.

Lemma project_find_None (userId : nat) (ms : list Project.Member) :
  List.find (λ m, bool_decide (Project.user m = userId)) ms = None ↔
  userId ∉ Project.user <$> ms.
Proof.
  rewrite find_None_iff, list_elem_of_fmap. split.
  - intros H (m & -> & Hm). specialize (H m Hm). by case_bool_decide.
  - intros H m Hm. case_bool_decide; [|done]. destruct H. eauto.
Qed.

Lemma team_isMember_iff (tm : Team.t) (userId : nat) :
  Team.isMember tm userId = true ↔ userId ∈ Team.user <$> Team.members tm.
Proof.
  unfold Team.isMember. rewrite existsb_exists, list_elem_of_fmap.
  setoid_rewrite <- list_elem_of_In. split.
  - intros (m & Hm & Hu). case_bool_decide; naive_solver.
  - intros (m & -> & Hm). exists m. by rewrite bool_decide_eq_true_2.
Qed.

Lemma project_isAssignedMember_iff (p : Project.t) (userId : nat) :
  Project.isAssignedMember p userId = true ↔
  userId ∈ Project.user <$> Project.assignedMembers p.
Proof.
  unfold Project.isAssignedMember. rewrite existsb_exists, list_elem_of_fmap.
  setoid_rewrite <- list_elem_of_In. split.
  - intros (m & Hm & Hu). case_bool_decide; naive_solver.
  - intros (m & -> & Hm). exists m. by rewrite bool_decide_eq_true_2.
Qed.

(** ** User documents at the public interface *)

(** C10.  The object [toJSON] returns for a user has no [password] key,
    while the one [toObject] returns has it; and two user documents that
    differ only in their password hash have the same [toJSON] output. *)
Theorem toJSON_hides_password (id : nat) (u : User.t) (h1 h2 : string) :
  Js.has_key "password" (User.toObject id u) = true ∧
  Js.has_key "password" (User.toJSON id u) = false ∧
  User.toJSON id (User.set_password h1 u) =
    User.toJSON id (User.set_password h2 u).
Proof.
  destruct u as [n e p r a ts pf [ll|] [cb|] ca ua]; vm_compute; done.
Qed.

(** ** Membership *)



(** ** Role changes *)

(** C5.  Demoting a team leader who leads an active team is refused (status
    400, the store is left as it was, so the role is unchanged); demoting a
    team leader who leads no active team stores the user with role [member];
    demoting an admin is refused. *)
Theorem demote_guard (req : Request) (userId : nat) (s : Store) (u : User.t) :
  users s !! userId = Some u →
  (User.role u = User.team_leader → leads_active_team s userId →
     UsersRoutes.demote req userId s =
       (Http.Failure
          {| Http.status := 400;
             Http.message :=
               "Cannot demote user who is leading active teams" |},
        s)) ∧
  (User.role u = User.team_leader → ¬ leads_active_team s userId →
     let u' := User.set_updatedAt (now req) (User.set_role User.member u) in
     UsersRoutes.demote req userId s =
       (Http.Success (Some (User.toJSON userId u')),
        set_users (insert userId u') s) ∧
     User.role u' = User.member) ∧
  (User.role u = User.admin →
     UsersRoutes.demote req userId s =
       (Http.Failure
          {| Http.status := 400; Http.message := "Cannot modify admin role" |},
        s)).
Proof.
  intros Hu.
  unfold UsersRoutes.demote, UsersRoutes.demote_body, UsersRoutes.selected,
    Save.user.
  http_unfold. unfold Mongo.findById. rewrite Hu.
  split; [|split].
  - intros Hr Hlead. rewrite Hr. simpl.
    rewrite bool_decide_eq_true_2; [done|].
    apply find_nonempty. destruct Hlead as (i & tm & ? & ? & ?).
    by exists i, tm.
  - intros Hr Hnl. rewrite Hr. simpl.
    rewrite bool_decide_eq_false_2.
    + simpl. by rewrite lookup_insert_eq.
    + rewrite find_nonempty. intros (i & tm & ? & ? & ?).
      apply Hnl. by exists i, tm.
  - intros Hr. by rewrite Hr.
Qed.

Lemma demote_guard_witness :
  UsersRoutes.demote (Scenario.req_by 1 User.admin) 2 Scenario.org =
    (Http.Failure
       {| Http.status := 400;
          Http.message := "Cannot demote user who is leading active teams" |},
     Scenario.org) ∧
  (∃ s', UsersRoutes.demote (Scenario.req_by 1 User.admin) 3 Scenario.org =
           (Http.Success
              (Some (User.toJSON 3
                 (User.set_updatedAt 1000%Z
                    (User.set_role User.member Scenario.carol)))), s')) ∧
  UsersRoutes.demote (Scenario.req_by 1 User.admin) 1 Scenario.org =
    (Http.Failure
       {| Http.status := 400; Http.message := "Cannot modify admin role" |},
     Scenario.org).
Proof.
  split; [|split].
  - apply (demote_guard _ 2 Scenario.org Scenario.bob);
      [reflexivity | reflexivity |].
    exists 10, Scenario.eng. done.
  - eexists.
    apply (demote_guard (Scenario.req_by 1 User.admin) 3 Scenario.org
             Scenario.carol); [reflexivity | reflexivity |].
    intros (i & tm & Hi & Hl & _). simpl in Hi.
    apply lookup_singleton_Some in Hi as [_ <-]. discriminate.
  - apply (demote_guard _ 1 Scenario.org Scenario.alice); reflexivity.
Defined.

(** ** Registration *)



(** ** Deleting a task *)






(** ** Recording progress *)




(** ** Projects: the date range *)





(** The response to the refused update above is the one of the handler's
    [catch]: the hook raises a plain [Error], not a [ValidationError]. *)
Lemma updateProject_range_response :
  ProjectsRoutes.updateProject Scenario.regex_test_i
    (Scenario.req_by 2 User.team_leader) 20 (Scenario.end_on 0%Z)
    Scenario.with_launch =
  (Http.Failure Http.internal_error, Scenario.with_launch).
Proof. vm_compute. reflexivity. Qed.

(** ** Tasks: dates, completion date, progress *)

Lemma tasks_ok_insert (id : nat) (tk : Task.t) (s : Store) :
  tasks_ok s → task_ok tk → tasks_ok (set_tasks (insert id tk) s).
Proof.
  intros Hs Htk i tk' Hi. simpl in Hi.
  apply lookup_insert_Some in Hi as [[_ <-]|[_ Hi]]; [done|].
  by apply (Hs i).
Qed.

Lemma tasks_ok_delete (id : nat) (s : Store) :
  tasks_ok s → tasks_ok (set_tasks (delete id) s).
Proof.
  intros Hs i tk' Hi. simpl in Hi.
  apply lookup_delete_Some in Hi as [_ Hi]. by apply (Hs i).
Qed.

Lemma progressPercentage_table (tk : Task.t) :
  Task.progressPercentage tk =
    match Task.status tk with
    | Task.todo => 0
    | Task.in_progress => 25
    | Task.review => 75
    | Task.completed => 100
    | Task.cancelled => 0
    end.
Proof. unfold Task.progressPercentage. by destruct (Task.status tk). Qed.

Ltac task_leaf :=
  first
    [ assumption
    | apply tasks_ok_delete; assumption
    | apply tasks_ok_insert; [assumption|];
      split; simpl;
      [ match goal with
        | H : bool_decide _ = false |- (_ < _)%Z =>
            apply bool_decide_eq_false in H; simpl in H; lia
        end
      | ] ].

Lemma createTask_tasks_ok (req : Request) (body : TasksRoutes.CreateBody)
    (s : Store) :
  tasks_ok s → tasks_ok (TasksRoutes.createTask req body s).2.
Proof.
  intros Hs.
  unfold TasksRoutes.createTask, TasksRoutes.createTask_body,
    TasksRoutes.orM, TasksRoutes.isTeamLeader, TasksRoutes.populated_project,
    Save.task, Task.pre_save.
  http_unfold. unfold Mongo.findById.
  branches; task_leaf; done.
Qed.

Lemma updateProgress_tasks_ok (req : Request) (taskId : nat)
    (body : TasksRoutes.ProgressBody) (s : Store) :
  tasks_ok s → tasks_ok (TasksRoutes.updateProgress req taskId body s).2.
Proof.
  intros Hs.
  unfold TasksRoutes.updateProgress, TasksRoutes.updateProgress_body,
    TasksRoutes.orM, TasksRoutes.isTeamLeader, TasksRoutes.isProjectManager,
    TasksRoutes.populated_project, Save.task, Task.pre_save.
  http_unfold. unfold Mongo.findById.
  branches; task_leaf; intros Hc; rewrite bool_decide_eq_true_2 by done; by eexists.
Qed.

Lemma addComment_tasks_ok (req : Request) (taskId : nat) (comment : string)
    (s : Store) :
  tasks_ok s → tasks_ok (TasksRoutes.addComment req taskId comment s).2.
Proof.
  intros Hs.
  unfold TasksRoutes.addComment, TasksRoutes.addComment_body,
    TasksRoutes.orM, TasksRoutes.isTeamLeader, TasksRoutes.isProjectManager,
    TasksRoutes.isAssignedMember,
    TasksRoutes.populated_project, Save.task, Task.pre_save.
  http_unfold. unfold Mongo.findById.
  destruct (tasks s !! taskId) as [tk|] eqn:Htk; [|done].
  destruct (Hs _ _ Htk) as [_ Hc].
  branches; task_leaf; done.
Qed.

Lemma deleteTask_tasks_ok (req : Request) (taskId : nat) (s : Store) :
  tasks_ok s → tasks_ok (TasksRoutes.deleteTask req taskId s).2.
Proof.
  intros Hs.
  unfold TasksRoutes.deleteTask, TasksRoutes.deleteTask_body,
    TasksRoutes.orM, TasksRoutes.isTeamLeader, TasksRoutes.isProjectManager,
    TasksRoutes.populated_project.
  http_unfold. unfold Mongo.findById.
  branches; task_leaf.
Qed.

Lemma assign_completed (now : Z) (tk : Task.t) (u : TasksRoutes.UpdateData) :
  (Task.status tk = Task.completed → is_Some (Task.completedDate tk)) →
  let u1 :=
    if bool_decide (TasksRoutes.u_status u = Some Task.completed) &&
       bool_decide (Task.status tk ≠ Task.completed)
    then TasksRoutes.set_completedDate now u else u in
  Task.status (TasksRoutes.assign tk u1) = Task.completed →
  is_Some (Task.completedDate (TasksRoutes.assign tk u1)).
Proof.
  intros Hc u1. unfold u1.
  destruct (decide (TasksRoutes.u_status u = Some Task.completed)) as [Hu|Hu];
    destruct (decide (Task.status tk = Task.completed)) as [Ht|Ht].
  - rewrite bool_decide_eq_true_2, bool_decide_eq_false_2 by auto. simpl.
    intros _. destruct (TasksRoutes.u_completedDate u); [by eexists | auto].
  - rewrite !bool_decide_eq_true_2 by auto. simpl. intros _. by eexists.
  - rewrite bool_decide_eq_false_2 by auto. simpl.
    intros _. destruct (TasksRoutes.u_completedDate u); [by eexists | auto].
  - rewrite bool_decide_eq_false_2 by auto. simpl.
    destruct (TasksRoutes.u_status u) as [st|]; simpl; [congruence|done].
Qed.

Lemma updateTask_tasks_ok (req : Request) (taskId : nat)
    (updateData : TasksRoutes.UpdateData) (s : Store) :
  tasks_ok s → tasks_ok (TasksRoutes.updateTask req taskId updateData s).2.
Proof.
  intros Hs.
  unfold TasksRoutes.updateTask, TasksRoutes.updateTask_body,
    TasksRoutes.orM, TasksRoutes.isTeamLeader, TasksRoutes.isProjectManager,
    TasksRoutes.isAssignedMember,
    TasksRoutes.populated_project, Save.task, Task.pre_save.
  http_unfold. unfold Mongo.findById.
  destruct (tasks s !! taskId) as [tk|] eqn:Htk; [|done].
  destruct (Hs _ _ Htk) as [_ Hc].
  pose proof (assign_completed (now req) tk updateData Hc) as Hu.
  cbv zeta in Hu.
  set (u1 := if _ && _ then _ else updateData) in *.
  clearbody u1.
  branches; task_leaf;
    repeat match goal with
           | H : TasksRoutes.u_completedDate _ = _ |- _ => rewrite H
           end;
    exact Hu.
Qed.

(** C7.  A successful [save] of a task stores it with
    [startDate < dueDate]; [progressPercentage] is 0, 25, 75, 100, 0 for
    todo, in_progress, review, completed, cancelled; and every task route
    (create, update, progress, comment, delete) keeps, for every stored task,
    the dates in order and a completion date on every completed task,
    starting from the empty store. *)
Theorem task_invariants :
  (∀ isNew id tk s s',
     Save.task isNew id tk s = (Http.Value tt, s') →
     (Task.startDate tk < Task.dueDate tk)%Z ∧ tasks s' !! id = Some tk) ∧
  (∀ tk,
     Task.progressPercentage tk =
       match Task.status tk with
       | Task.todo => 0
       | Task.in_progress => 25
       | Task.review => 75
       | Task.completed => 100
       | Task.cancelled => 0
       end) ∧
  tasks_ok empty_store ∧
  (∀ req s,
     tasks_ok s →
     (∀ body, tasks_ok (TasksRoutes.createTask req body s).2) ∧
     (∀ taskId updateData,
        tasks_ok (TasksRoutes.updateTask req taskId updateData s).2) ∧
     (∀ taskId body,
        tasks_ok (TasksRoutes.updateProgress req taskId body s).2) ∧
     (∀ taskId comment,
        tasks_ok (TasksRoutes.addComment req taskId comment s).2) ∧
     (∀ taskId, tasks_ok (TasksRoutes.deleteTask req taskId s).2)).
Proof.
  split; [|split; [|split]].
  - intros isNew id tk s s'. unfold Save.task, Task.pre_save.
    http_unfold.
    case_bool_decide; [discriminate|].
    destruct isNew; simpl; [destruct (tasks s !! id); [discriminate|]|];
      intros [= <-]; simpl; rewrite lookup_insert_eq; split; done || lia.
  - apply progressPercentage_table.
  - intros i tk Hi. simpl in Hi. by rewrite lookup_empty in Hi.
  - intros req s Hs. split; [|split; [|split; [|split]]]; intros.
    + by apply createTask_tasks_ok.
    + by apply updateTask_tasks_ok.
    + by apply updateProgress_tasks_ok.
    + by apply addComment_tasks_ok.
    + by apply deleteTask_tasks_ok.
Qed.

Lemma task_invariants_witness :
  tasks_ok
    (TasksRoutes.updateProgress (Scenario.req_by 4 User.member) 50
       Scenario.done_with_three_hours Scenario.working).2 ∧
  (∃ tk, tasks
           (TasksRoutes.updateProgress (Scenario.req_by 4 User.member) 50
              Scenario.done_with_three_hours Scenario.working).2 !! 50 =
           Some tk ∧
         Task.status tk = Task.completed ∧
         Task.completedDate tk = Some 1000%Z ∧
         Task.progressPercentage tk = 100).
Proof.
  split.
  - destruct task_invariants as (_ & _ & _ & H).
    apply (H (Scenario.req_by 4 User.member) Scenario.working).
    intros i tk Hi. simpl in Hi.
    apply lookup_singleton_Some in Hi as [_ <-].
    split; [reflexivity | discriminate].
  - eexists. split; [vm_compute; reflexivity|].
    split; [reflexivity|]. split; reflexivity.
Defined.

(** ** List endpoints: who sees what *)

Lemma elem_of_find_ids {A} (q : nat * A → Prop) `{!∀ d, Decision (q d)}
    (c : gmap nat A) (i : nat) :
  i ∈ (Mongo.find q c).*1 ↔ ∃ x, c !! i = Some x ∧ q (i, x).
Proof.
  rewrite list_elem_of_fmap. split.
  - intros ([j x] & -> & Hin). apply elem_of_find in Hin. eauto.
  - intros (x & Hx & Hq). exists (i, x). split; [done|].
    by apply elem_of_find.
Qed.

Lemma Forall_nil_True {A} (P : A → Prop) : Forall P [] ↔ True.
Proof. split; [done | constructor]. Qed.

Section Visibility.
Context (regex : string → string → bool) (req : Request) (s : Store).

Lemma listProjects_admin (d : nat * Project.t) :
  actor_role req = User.admin →
  d ∈ ProjectsRoutes.listProjects regex req ProjectsRoutes.no_params s ↔
  projects s !! d.1 = Some d.2.
Proof.
  intros Hr. unfold ProjectsRoutes.listProjects.
  rewrite elem_of_find.
  unfold ProjectsRoutes.listProjects_query, ProjectsRoutes.matches.
  rewrite Hr. simpl. rewrite Forall_nil_True. tauto.
Qed.

Lemma listProjects_team_leader (d : nat * Project.t) :
  actor_role req = User.team_leader →
  d ∈ ProjectsRoutes.listProjects regex req ProjectsRoutes.no_params s ↔
  projects s !! d.1 = Some d.2 ∧ leads_team_of s (actor req) d.2.
Proof.
  intros Hr. unfold ProjectsRoutes.listProjects.
  rewrite elem_of_find.
  unfold ProjectsRoutes.listProjects_query, ProjectsRoutes.matches.
  rewrite Hr. simpl. rewrite Forall_nil_True, elem_of_find_ids.
  unfold leads_team_of. simpl. tauto.
Qed.

Lemma listProjects_member (d : nat * Project.t) :
  actor_role req = User.member →
  d ∈ ProjectsRoutes.listProjects regex req ProjectsRoutes.no_params s ↔
  projects s !! d.1 = Some d.2 ∧ participates (actor req) d.2.
Proof.
  intros Hr. unfold ProjectsRoutes.listProjects.
  rewrite elem_of_find.
  unfold ProjectsRoutes.listProjects_query, ProjectsRoutes.matches.
  rewrite Hr. simpl. rewrite Forall_nil_True. unfold participates. tauto.
Qed.

Lemma listTasks_admin (d : nat * Task.t) :
  actor_role req = User.admin →
  d ∈ TasksRoutes.listTasks regex req TasksRoutes.no_params s ↔
  tasks s !! d.1 = Some d.2.
Proof.
  intros Hr. unfold TasksRoutes.listTasks.
  rewrite elem_of_find.
  unfold TasksRoutes.listTasks_query, TasksRoutes.matches.
  rewrite Hr. simpl. rewrite Forall_nil_True. tauto.
Qed.

Lemma listTasks_team_leader (d : nat * Task.t) :
  actor_role req = User.team_leader →
  d ∈ TasksRoutes.listTasks regex req TasksRoutes.no_params s ↔
  tasks s !! d.1 = Some d.2 ∧
  ∃ p, projects s !! Task.project d.2 = Some p ∧ participates (actor req) p.
Proof.
  intros Hr. unfold TasksRoutes.listTasks.
  rewrite elem_of_find.
  unfold TasksRoutes.listTasks_query, TasksRoutes.matches.
  rewrite Hr. simpl. rewrite Forall_nil_True, elem_of_find_ids.
  unfold participates. simpl. tauto.
Qed.

Lemma listTasks_member (d : nat * Task.t) :
  actor_role req = User.member →
  d ∈ TasksRoutes.listTasks regex req TasksRoutes.no_params s ↔
  tasks s !! d.1 = Some d.2 ∧ Task.assignedTo d.2 = actor req.
Proof.
  intros Hr. unfold TasksRoutes.listTasks.
  rewrite elem_of_find.
  unfold TasksRoutes.listTasks_query, TasksRoutes.matches.
  rewrite Hr. simpl. rewrite Forall_nil_True. tauto.
Qed.

Lemma listTeams_visible (d : nat * Team.t) :
  d ∈ TeamsRoutes.listTeams regex req None None s ↔
  teams s !! d.1 = Some d.2 ∧
  (actor_role req ≠ User.admin →
   actor req ∈ Team.user <$> Team.members d.2).
Proof.
  unfold TeamsRoutes.listTeams.
  rewrite elem_of_find.
  unfold TeamsRoutes.listTeams_query, TeamsRoutes.matches.
  simpl.
  match goal with
  | |- context [Forall ?P []] => rewrite (Forall_nil_True P)
  end.
  case_bool_decide; simpl; tauto.
Qed.

Lemma listProjects_narrows (params : ProjectsRoutes.ListParams)
    (d : nat * Project.t) :
  ProjectsRoutes.l_teamId params = None →
  d ∈ ProjectsRoutes.listProjects regex req params s →
  d ∈ ProjectsRoutes.listProjects regex req ProjectsRoutes.no_params s.
Proof.
  intros Ht. unfold ProjectsRoutes.listProjects.
  rewrite !elem_of_find.
  unfold ProjectsRoutes.listProjects_query, ProjectsRoutes.matches.
  rewrite Ht.
  intros [Hd H]. split; [done|]. revert H.
  destruct (ProjectsRoutes.l_search params) as [se|],
    (ProjectsRoutes.l_status params), (ProjectsRoutes.l_priority params);
    simpl; try destruct (JsString.truthy se);
    repeat case_bool_decide; simpl;
    rewrite ?Forall_nil_True; tauto.
Qed.

Lemma listTasks_narrows (params : TasksRoutes.ListParams)
    (d : nat * Task.t) :
  TasksRoutes.l_projectId params = None →
  TasksRoutes.l_assignedTo params = None →
  d ∈ TasksRoutes.listTasks regex req params s →
  d ∈ TasksRoutes.listTasks regex req TasksRoutes.no_params s.
Proof.
  intros Hp Ha. unfold TasksRoutes.listTasks.
  rewrite !elem_of_find.
  unfold TasksRoutes.listTasks_query, TasksRoutes.matches.
  rewrite Hp, Ha.
  intros [Hd H]. split; [done|]. revert H.
  destruct (TasksRoutes.l_search params) as [se|],
    (TasksRoutes.l_status params), (TasksRoutes.l_priority params),
    (TasksRoutes.l_type params), (TasksRoutes.l_overdue params);
    simpl; try destruct (JsString.truthy se);
    repeat case_bool_decide; simpl;
    rewrite ?Forall_nil_True; tauto.
Qed.
End Visibility.

(** C8, as the handlers have it.  On a request without query parameters:
    an admin sees every project, task and team; a team leader sees exactly
    the projects of the teams they lead and exactly the tasks of the projects
    they manage or are assigned to; a member sees exactly the projects they
    manage or are assigned to and exactly the tasks assigned to them; whoever
    is not an admin sees exactly the teams they are a member of.  The
    parameters [search], [status], [priority], [type], [overdue] only remove
    documents from these lists. *)
Theorem list_visibility (regex : string → string → bool) (req : Request)
    (s : Store) :
  (actor_role req = User.admin →
     (∀ d, d ∈ ProjectsRoutes.listProjects regex req
                 ProjectsRoutes.no_params s ↔
           projects s !! d.1 = Some d.2) ∧
     (∀ d, d ∈ TasksRoutes.listTasks regex req TasksRoutes.no_params s ↔
           tasks s !! d.1 = Some d.2) ∧
     (∀ d, d ∈ TeamsRoutes.listTeams regex req None None s ↔
           teams s !! d.1 = Some d.2)) ∧
  (actor_role req = User.team_leader →
     (∀ d, d ∈ ProjectsRoutes.listProjects regex req
                 ProjectsRoutes.no_params s ↔
           projects s !! d.1 = Some d.2 ∧ leads_team_of s (actor req) d.2) ∧
     (∀ d, d ∈ TasksRoutes.listTasks regex req TasksRoutes.no_params s ↔
           tasks s !! d.1 = Some d.2 ∧
           ∃ p, projects s !! Task.project d.2 = Some p ∧
                participates (actor req) p)) ∧
  (actor_role req = User.member →
     (∀ d, d ∈ ProjectsRoutes.listProjects regex req
                 ProjectsRoutes.no_params s ↔
           projects s !! d.1 = Some d.2 ∧ participates (actor req) d.2) ∧
     (∀ d, d ∈ TasksRoutes.listTasks regex req TasksRoutes.no_params s ↔
           tasks s !! d.1 = Some d.2 ∧ Task.assignedTo d.2 = actor req)) ∧
  (actor_role req ≠ User.admin →
     ∀ d, d ∈ TeamsRoutes.listTeams regex req None None s ↔
          teams s !! d.1 = Some d.2 ∧
          actor req ∈ Team.user <$> Team.members d.2) ∧
  (∀ params d,
     ProjectsRoutes.l_teamId params = None →
     d ∈ ProjectsRoutes.listProjects regex req params s →
     d ∈ ProjectsRoutes.listProjects regex req ProjectsRoutes.no_params s) ∧
  (∀ params d,
     TasksRoutes.l_projectId params = None →
     TasksRoutes.l_assignedTo params = None →
     d ∈ TasksRoutes.listTasks regex req params s →
     d ∈ TasksRoutes.listTasks regex req TasksRoutes.no_params s).
Proof.
  split; [|split; [|split; [|split; [|split]]]].
  - intros Hr. split; [|split]; intros d.
    + by apply listProjects_admin.
    + by apply listTasks_admin.
    + rewrite listTeams_visible. rewrite Hr. tauto.
  - intros Hr. split; intros d.
    + by apply listProjects_team_leader.
    + by apply listTasks_team_leader.
  - intros Hr. split; intros d.
    + by apply listProjects_member.
    + by apply listTasks_member.
  - intros Hr d. rewrite listTeams_visible. tauto.
  - intros params d. apply listProjects_narrows.
  - intros params d. apply listTasks_narrows.
Qed.

Lemma list_visibility_witness :
  (20, Scenario.launch) ∈
    ProjectsRoutes.listProjects Scenario.regex_search_i
      (Scenario.req_by 2 User.team_leader) ProjectsRoutes.no_params
      Scenario.two_teams ∧
  (50, Scenario.five_hours) ∈
    TasksRoutes.listTasks Scenario.regex_search_i
      (Scenario.req_by 4 User.member) TasksRoutes.no_params
      Scenario.two_teams ∧
  (11, Scenario.ops) ∈
    TeamsRoutes.listTeams Scenario.regex_search_i
      (Scenario.req_by 2 User.team_leader) None None Scenario.two_teams.
Proof.
  split; [|split].
  - destruct (list_visibility Scenario.regex_search_i
                (Scenario.req_by 2 User.team_leader) Scenario.two_teams)
      as (_ & H & _).
    destruct H as [H _]; [reflexivity|]. apply H.
    split; [reflexivity|]. exists Scenario.eng. split; reflexivity.
  - destruct (list_visibility Scenario.regex_search_i
                (Scenario.req_by 4 User.member) Scenario.two_teams)
      as (_ & _ & H & _).
    destruct H as [_ H]; [reflexivity|]. apply H.
    split; reflexivity.
  - destruct (list_visibility Scenario.regex_search_i
                (Scenario.req_by 2 User.team_leader) Scenario.two_teams)
      as (_ & _ & _ & H & _).
    apply H; [discriminate|].
    split; [reflexivity|]. simpl.
    apply list_elem_of_further, list_elem_of_here.
Defined.

(** C8, as the specification words it, fails for a team leader on a project
    they manage in a team led by someone else: Bob manages project 21 of
    Carol's team and does not find it in his list of projects. *)
Lemma team_leader_visibility_counterexample :
  ¬ (∀ (regex : string → string → bool) (req : Request) (s : Store)
       (d : nat * Project.t),
       actor_role req = User.team_leader →
       projects s !! d.1 = Some d.2 →
       leads_team_of s (actor req) d.2 ∨ participates (actor req) d.2 →
       d ∈ ProjectsRoutes.listProjects regex req ProjectsRoutes.no_params s).
Proof.
  intros H.
  specialize (H Scenario.regex_search_i (Scenario.req_by 2 User.team_leader)
                Scenario.two_teams (21, Scenario.migration)).
  apply listProjects_team_leader in H; [|reflexivity..|].
  - destruct H as (_ & tm & Htm & Hl). simpl in Htm.
    rewrite lookup_insert_ne in Htm by done.
    apply lookup_singleton_Some in Htm as [_ <-]. discriminate.
  - right. by left.
Qed.

(** A key set from a request parameter replaces the key the role set: a
    member who sends [assignedTo] finds the tasks of that user. *)
Lemma listTasks_assignedTo_parameter :
  ∃ tk, tasks Scenario.two_teams !! 53 = Some tk ∧
        Task.assignedTo tk = 2 ∧
        (53, tk) ∈
          TasksRoutes.listTasks Scenario.regex_search_i
            (Scenario.req_by 4 User.member) (Scenario.tasks_assigned_to 2)
            Scenario.two_teams.
Proof.
  assert (H : tasks Scenario.two_teams !! 53 =
              Some (default Scenario.five_hours
                      (tasks Scenario.two_teams !! 53))) by reflexivity.
  eexists. split; [exact H|]. split; [reflexivity|].
  apply elem_of_find. split; [exact H|].
  unfold TasksRoutes.matches. simpl. repeat split. constructor.
Qed.

(** ** Teams: the leader and the [team_leader] tag *)










Lemma pre_save_leader_present (now : Z) (tm : Team.t) :
  Team.teamLeader (Team.pre_save now tm) ∈
    Team.user <$> Team.members (Team.pre_save now tm).
Proof.
  unfold Team.pre_save. destruct (List.find _ _) eqn:E.
  - destruct (decide (Team.teamLeader tm ∈ Team.user <$> Team.members tm))
      as [?|Hn]; [done|].
    apply team_find_None in Hn. congruence.
  - simpl. rewrite fmap_app. apply elem_of_app. right. left.
Qed.


Lemma find_in_length {A} (P : nat * A → Prop) `{!∀ d, Decision (P d)}
    (c : gmap nat A) (ids : list nat) :
  length (Mongo.find (λ d, d.1 ∈ ids ∧ P d) c) = length ids → NoDup ids.
Proof.
  intros Hlen.
  set (found := (Mongo.find (λ d, d.1 ∈ ids ∧ P d) c).*1).
  assert (Hnd : NoDup found) by apply NoDup_find_ids.
  assert (Hsub : ∀ x, x ∈ found → x ∈ ids).
  { intros x (d & Hd & Hq)%elem_of_find_ids. by destruct Hq. }
  assert (Hperm : found ≡ₚ ids).
  { apply submseteq_length_Permutation.
    - by apply NoDup_submseteq.
    - unfold found. rewrite length_fmap. lia. }
  by rewrite <- Hperm.
Qed.
















(** The case the theorem leaves out: [POST /api/teams/:id/members] with
    role [team_leader] for a user who is not the leader stores a second
    entry with the tag. *)
Lemma addMember_second_leader_tag :
  ∃ tm s',
    TeamsRoutes.addMember (Scenario.req_by 1 User.admin) 10
      {| TeamsRoutes.a_userId := 3;
         TeamsRoutes.a_role := Some Team.team_leader |}
      Scenario.org = (Http.Success (Some tm), s') ∧
    teams s' !! 10 = Some tm ∧
    Team.teamLeader tm = 2 ∧
    leader_tags (Team.members tm) = 2.
Proof.
  eexists. eexists. split; [vm_compute; reflexivity|].
  split; [reflexivity|]. split; reflexivity.
Qed.

(** * Further properties *)

(** ** Members, days and pages *)

Lemma filter_all {A} (P : A → Prop) `{!∀ x, Decision (P x)} (l : list A) :
  (∀ x, x ∈ l → P x) → filter P l = l.
Proof.
  induction l as [|a l IH]; intros Hall; [done|].
  rewrite filter_cons_True by (apply Hall; left).
  f_equal. apply IH. intros x Hx. apply Hall. by right.
Qed.

Lemma team_removeMember_absent (userId : nat) (tm : Team.t) :
  userId ∉ Team.user <$> Team.members tm → Team.removeMember userId tm = tm.
Proof.
  intros Hnot. destruct tm as [n d l ms a st cb].
  unfold Team.removeMember, Team.set_members.
  simpl in *. f_equal. apply filter_all.
  intros m Hm Heq. apply Hnot, list_elem_of_fmap. eauto.
Qed.

Lemma project_removeMember_absent (userId : nat) (p : Project.t) :
  userId ∉ Project.user <$> Project.assignedMembers p →
  Project.removeMember userId p = p.
Proof.
  intros Hnot. destruct p.
  unfold Project.removeMember, Project.set_assignedMembers.
  simpl in *. f_equal. apply filter_all.
  intros m Hm Heq. apply Hnot, list_elem_of_fmap. eauto.
Qed.






Lemma ceil_div_spec (a b : Z) :
  (0 < b)%Z → ((Js.ceil_div a b - 1) * b < a ≤ Js.ceil_div a b * b)%Z.
Proof.
  intros Hb. unfold Js.ceil_div.
  pose proof (Z.div_mod (- a) b) as E.
  pose proof (Z.mod_pos_bound (- a) b Hb) as B. nia.
Qed.





Lemma concat_chunks {A} (l : nat) (xs : list A) (k : nat) :
  concat ((λ i, take l (drop (i * l) xs)) <$> seq 0 k) = take (k * l) xs.
Proof.
  induction k as [|k IH]; [done|].
  rewrite seq_S, fmap_app, concat_app, IH. simpl. rewrite app_nil_r.
  replace (l + k * l) with (k * l + l) by lia.
  by rewrite take_take_drop.
Qed.

Lemma slice_eq {A} (page limit : nat) (sorted : list A) :
  0 < page → 0 < limit →
  Page.slice page limit sorted =
    Some (take limit (drop ((page - 1) * limit) sorted)).
Proof.
  intros Hp Hl. unfold Page.slice.
  rewrite bool_decide_eq_false_2 by nia.
  rewrite bool_decide_eq_false_2 by lia.
  do 3 f_equal. nia.
Qed.

Lemma ceil_div_nat (total limit : nat) :
  0 < limit →
  let n := Z.to_nat (Js.ceil_div (Z.of_nat total) (Z.of_nat limit)) in
  (n - 1) * limit < total + (if decide (total = 0) then 1 else 0) ∧
  total ≤ n * limit.
Proof.
  intros Hl n.
  pose proof (ceil_div_spec (Z.of_nat total) (Z.of_nat limit)) as H.
  destruct H as [H1 H2]; [lia|].
  assert (0 ≤ Js.ceil_div (Z.of_nat total) (Z.of_nat limit))%Z by nia.
  subst n. case_decide; split; nia.
Qed.

Lemma total_pages_spec (total limit : nat) :
  0 < limit →
  ∃ n, Z.to_nat (Js.ceil_div (Z.of_nat total) (Z.of_nat limit)) = n ∧
       total ≤ n * limit ∧ ∀ page, page < n ↔ page * limit < total.
Proof.
  intros Hl.
  pose proof (ceil_div_spec (Z.of_nat total) (Z.of_nat limit)) as H.
  destruct H as [H1 H2]; [lia|].
  assert (0 ≤ Js.ceil_div (Z.of_nat total) (Z.of_nat limit))%Z by nia.
  eexists. split; [reflexivity|]. split; [nia|].
  intros page. split; intros; nia.
Qed.

(** X3.  Pagination of the list endpoints, for a page and a limit of at
    least [1] and a sort that permutes the documents: the page is the slice
    of at most [limit] documents that starts at [(page - 1) * limit];
    [totalPages] is a number [n] such that the page is non-empty exactly for
    [page ≤ n]; [hasNext] holds exactly below page [n] and [hasPrev] exactly
    above page [1]; and the pages [1] to [n], one after the other, are the
    sorted documents. *)
Theorem pages_partition {A} (sort : list A → list A) (page limit : nat)
    (found : list A) :
  0 < page → 0 < limit → sort found ≡ₚ found →
  ∃ docs n,
    let pg := Page.pagination page limit (length found) in
    Page.respond sort page limit found = Some (docs, pg) ∧
    Page.totalPages pg = Some n ∧
    docs = take limit (drop ((page - 1) * limit) (sort found)) ∧
    length docs ≤ limit ∧
    (docs ≠ [] ↔ page ≤ n) ∧
    (Page.hasNext pg = true ↔ page < n) ∧
    (Page.hasPrev pg = true ↔ 1 < page) ∧
    concat ((λ p, default [] (Page.slice p limit (sort found))) <$> seq 1 n)
      = sort found.
Proof.
  intros Hp Hl Hperm. apply Permutation_length in Hperm.
  destruct (total_pages_spec (length found) limit Hl) as (n & Hn & Hle & Hlt).
  exists (take limit (drop ((page - 1) * limit) (sort found))), n.
  unfold Page.respond, Page.pagination. simpl.
  rewrite slice_eq by done. simpl.
  rewrite (bool_decide_eq_false_2 (limit = 0)) by lia. rewrite Hn.
  split; [done|]. split; [done|]. split; [done|].
  split; [rewrite length_take; lia|].
  split; [|split; [|split]].
  - rewrite <- length_zero_iff_nil, length_take, length_drop, Hperm.
    specialize (Hlt (page - 1)). split; intros; [|] ; lia.
  - rewrite bool_decide_eq_true. symmetry. apply Hlt.
  - apply bool_decide_eq_true.
  - rewrite <- (fmap_S_seq 0), <- list_fmap_compose.
    rewrite (list_fmap_ext _ (λ i, take limit (drop (i * limit) (sort found)))).
    + rewrite concat_chunks. apply take_ge. lia.
    + intros i x _. simpl. rewrite slice_eq by lia. simpl.
      do 2 f_equal. lia.
Qed.

Lemma pages_partition_witness :
  ∃ docs, Page.respond (λ l, l) 2 2 [10; 11; 12; 13; 14] =
            Some (docs, Page.pagination 2 2 5) ∧
          docs = [12; 13] ∧
          Page.totalPages (Page.pagination 2 2 5) = Some 3 ∧
          Page.hasNext (Page.pagination 2 2 5) = true.
Proof.
  destruct (pages_partition (λ l : list nat, l) 2 2 [10; 11; 12; 13; 14])
    as (docs & n & Hr & Hn & Hd & _ & _ & Hnext & _); [lia | lia | done |].
  exists docs. simpl in *. split; [exact Hr|]. split; [exact Hd|].
  split; [reflexivity|reflexivity].
Defined.

(** ** How a request changes the store *)

Ltac handler_unfold :=
  unfold
    AuthRoutes.register, AuthRoutes.register_body,
    AuthRoutes.login, AuthRoutes.login_body,
    AuthRoutes.changePassword, AuthRoutes.changePassword_body,
    UsersRoutes.createUser, UsersRoutes.createUser_body,
    UsersRoutes.updateUser, UsersRoutes.updateUser_body,
    UsersRoutes.promote, UsersRoutes.promote_body,
    UsersRoutes.demote, UsersRoutes.demote_body,
    UsersRoutes.deleteUser, UsersRoutes.deleteUser_body,
    UsersRoutes.getUser, UsersRoutes.getUser_body, UsersRoutes.selected,
    TeamsRoutes.createTeam, TeamsRoutes.createTeam_body,
    TeamsRoutes.updateTeam, TeamsRoutes.updateTeam_body,
    TeamsRoutes.addMember, TeamsRoutes.addMember_body,
    TeamsRoutes.removeMember, TeamsRoutes.removeMember_body,
    TeamsRoutes.deleteTeam, TeamsRoutes.deleteTeam_body,
    ProjectsRoutes.createProject, ProjectsRoutes.createProject_body,
    ProjectsRoutes.updateProject, ProjectsRoutes.updateProject_body,
    ProjectsRoutes.addMember, ProjectsRoutes.addMember_body,
    ProjectsRoutes.removeMember, ProjectsRoutes.removeMember_body,
    ProjectsRoutes.deleteProject, ProjectsRoutes.deleteProject_body,
    TasksRoutes.createTask, TasksRoutes.createTask_body,
    TasksRoutes.updateTask, TasksRoutes.updateTask_body,
    TasksRoutes.updateProgress, TasksRoutes.updateProgress_body,
    TasksRoutes.addComment, TasksRoutes.addComment_body,
    TasksRoutes.deleteTask, TasksRoutes.deleteTask_body,
    TasksRoutes.getTask, TasksRoutes.getTask_body,
    TasksRoutes.isProjectManager, TasksRoutes.isAssignedMember,
    TasksRoutes.isTeamLeader, TasksRoutes.populated_project,
    TasksRoutes.orM,
    Save.user_if_modified, Save.user, Save.team, Save.project, Save.task;
  http_unfold; unfold Mongo.findById.

Lemma not_found {A} (q : nat * A → Prop) `{!∀ d, Decision (q d)}
    (c : gmap nat A) :
  bool_decide (is_Some (Mongo.findOne q c)) = false →
  ∀ i x, c !! i = Some x → ¬ q (i, x).
Proof.
  intros Hf. apply bool_decide_eq_false in Hf.
  apply (proj1 (findOne_None q c)). destruct (Mongo.findOne q c); [|done].
  destruct Hf. eauto.
Qed.

Lemma set_users_insert_insert (i : nat) (u v : User.t) (s : Store) :
  set_users (insert i u) (set_users (insert i v) s) = set_users (insert i u) s.
Proof. destruct s. unfold set_users. simpl. f_equal. apply insert_insert_eq. Qed.

Lemma set_users_insert_id (i : nat) (u : User.t) (s : Store) :
  users s !! i = Some u → set_users (insert i u) s = s.
Proof.
  intros Hu. destruct s. unfold set_users. simpl in *. f_equal.
  by apply insert_id.
Qed.

Lemma findOne_Some {A} (q : nat * A → Prop) `{!∀ d, Decision (q d)}
    (c : gmap nat A) (i : nat) (x : A) :
  Mongo.findOne q c = Some (i, x) → c !! i = Some x ∧ q (i, x).
Proof.
  unfold Mongo.findOne. intros Hh.
  assert (Hin : (i, x) ∈ Mongo.find q c).
  { destruct (Mongo.find q c); [discriminate|]. injection Hh as ->. left. }
  by apply elem_of_find in Hin.
Qed.

Section UsersChange.
Context (hash : string → string) (compare : string → string → bool).
Context {ProfileBody : Type}.
Context (assign_profile : User.Profile → ProfileBody → User.Profile).

Lemma assign_teams (u : User.t) (d : UsersRoutes.UpdateBody ProfileBody) :
  User.teams (UsersRoutes.assign assign_profile u d) = User.teams u.
Proof.
  unfold UsersRoutes.assign, Mongo.if_set.
  by destruct (UsersRoutes.u_name d), (UsersRoutes.u_email d),
    (UsersRoutes.u_role d), (UsersRoutes.u_isActive d),
    (UsersRoutes.u_profile d).
Qed.

Lemma assign_email (u : User.t) (d : UsersRoutes.UpdateBody ProfileBody) :
  User.email (UsersRoutes.assign assign_profile u d) =
  default (User.email u) (UsersRoutes.u_email d).
Proof.
  unfold UsersRoutes.assign, Mongo.if_set.
  by destruct (UsersRoutes.u_name d), (UsersRoutes.u_email d),
    (UsersRoutes.u_role d), (UsersRoutes.u_isActive d),
    (UsersRoutes.u_profile d).
Qed.

Ltac stored_user :=
  match goal with
  | H : Mongo.findOne _ _ = Some (_, _) |- _ =>
      apply findOne_Some in H as [H _]; simpl in H; exact H
  | H : users _ !! _ = Some _ |- _ => exact H
  end.

Ltac email_fresh :=
  intros j v Hv Hne;
  match goal with
  | Hb : bool_decide (is_Some _) = false |- _ =>
      pose proof (not_found _ _ Hb j v Hv) as Hq; simpl in Hq;
      first [ exact Hq | intros Heq; apply Hq; split; [|exact Hne]; exact Heq ]
  end.

Ltac user_put :=
  first
    [ apply change_none
    | rewrite ?set_users_insert_insert;
      apply change_user_put;
      [ simpl;
        match goal with
        | H : users _ !! _ = _ |- _ => rewrite H
        | H : Mongo.findOne _ _ = Some (_, _) |- _ =>
            let H' := fresh in
            pose proof (findOne_Some _ _ _ _ H) as [H' _]; simpl in H';
            rewrite H'
        end; simpl; rewrite ?assign_teams; reflexivity
      | first
          [ left; eexists; split; [stored_user|]; simpl; reflexivity
          | right; simpl; email_fresh ] ] ].

Lemma auth_change (s : Store) :
  (∀ now id body, change s (AuthRoutes.register hash now id body s).2) ∧
  (∀ now body, change s (AuthRoutes.login compare now body s).2) ∧
  (∀ req body, change s (AuthRoutes.changePassword hash compare req body s).2).
Proof.
  repeat split; intros; handler_unfold;
    (branches; user_put).
Qed.

Lemma users_change (s : Store) :
  (∀ req body, change s (UsersRoutes.createUser hash req body s).2) ∧
  (∀ req id, change s (UsersRoutes.promote req id s).2) ∧
  (∀ req id, change s (UsersRoutes.demote req id s).2).
Proof.
  repeat split; intros; handler_unfold;
    (branches; user_put).
Qed.

Lemma updateUser_change (s : Store) req id body :
  change s (UsersRoutes.updateUser assign_profile req id body s).2.
Proof.
  handler_unfold.
  branches; try user_put;
    (apply change_user_put;
     [ simpl;
       match goal with H : users _ !! _ = _ |- _ => rewrite H end;
       simpl; by rewrite assign_teams
     | simpl; rewrite assign_email ]).
  - right. simpl. email_fresh.
  - exfalso.
    match goal with
    | Hb : bool_decide (User.email _ = "") = false,
      He : UsersRoutes.u_email _ = Some ?e,
      Ht : JsString.truthy ?e = false |- _ =>
        apply bool_decide_eq_false in Hb; apply Hb;
        rewrite assign_email, He; simpl;
        unfold JsString.truthy in Ht;
        by apply bool_decide_eq_false, dec_stable in Ht
    end.
  - left. eexists. split; [eassumption|].
    match goal with
    | He : UsersRoutes.u_email _ = None |- _ => by rewrite He
    end.
Qed.

End UsersChange.

Lemma none_found {A} (q : nat * A → Prop) `{!∀ d, Decision (q d)}
    (c : gmap nat A) :
  bool_decide (0 < length (Mongo.find q c)) = false →
  ∀ i x, c !! i = Some x → ¬ q (i, x).
Proof.
  intros Hf. apply bool_decide_eq_false in Hf.
  apply (proj1 (find_nil q c)).
  destruct (Mongo.find q c); [done|]. simpl in Hf. lia.
Qed.

Lemma deleteUser_change (s : Store) req id :
  change s (UsersRoutes.deleteUser req id s).2.
Proof.
  handler_unfold.
  branches; try apply change_none.
  apply change_user_delete.
  - intros t' tm Ht.
    match goal with
    | Hb : bool_decide (0 < length (Mongo.find _ (teams s))) = false |- _ =>
        apply (none_found _ _ Hb t' tm Ht)
    end.
  - intros p pr Hp.
    match goal with
    | Hb : bool_decide (0 < length (Mongo.find _ (projects s))) = false
      |- _ => apply (none_found _ _ Hb p pr Hp)
    end.
Qed.

Lemma lookup_updateMany {A} (q : nat * A → Prop) `{!∀ d, Decision (q d)}
    (f : A → A) (c : gmap nat A) (i : nat) :
  Mongo.updateMany q f c !! i =
    (λ d, if decide (q (i, d)) then f d else d) <$> c !! i.
Proof.
  unfold Mongo.updateMany. rewrite map_lookup_imap.
  by destruct (c !! i).
Qed.

Lemma set_role_of_first_users (userId : nat) (r : Team.MemberRole)
    (ms : list Team.Member) :
  Team.user <$> TeamsRoutes.set_role_of_first userId r ms = Team.user <$> ms.
Proof.
  induction ms as [|m ms IH]; [done|].
  cbn [TeamsRoutes.set_role_of_first].
  case_bool_decide; rewrite !fmap_cons; [done|]. by rewrite IH.
Qed.

Lemma pre_save_users (now : Z) (tm : Team.t) (i : nat) :
  i ∈ Team.user <$> Team.members tm →
  i ∈ Team.user <$> Team.members (Team.pre_save now tm).
Proof.
  unfold Team.pre_save. destruct (List.find _ _); [done|]. simpl.
  intros Hi. rewrite fmap_app. apply elem_of_app. by left.
Qed.

Lemma pre_save_teamLeader (now : Z) (tm : Team.t) :
  Team.teamLeader (Team.pre_save now tm) = Team.teamLeader tm.
Proof. unfold Team.pre_save. by destruct (List.find _ _). Qed.

Lemma team_addMember_teamLeader u r now tm :
  Team.teamLeader (Team.addMember u r now tm) = Team.teamLeader tm.
Proof. unfold Team.addMember. by destruct (List.find _ _). Qed.

Lemma team_addMember_users u r now tm i :
  i ∈ Team.user <$> Team.members tm →
  i ∈ Team.user <$> Team.members (Team.addMember u r now tm).
Proof.
  unfold Team.addMember. destruct (List.find _ _); [done|]. simpl.
  intros Hi. rewrite fmap_app. apply elem_of_app. by left.
Qed.

Lemma team_addMember_in u r now tm :
  u ∈ Team.user <$> Team.members (Team.addMember u r now tm).
Proof.
  unfold Team.addMember. destruct (List.find _ _) eqn:E.
  - apply dec_stable. intros Hnot. apply team_find_None in Hnot. congruence.
  - simpl. rewrite fmap_app. apply elem_of_app. right. simpl. left.
Qed.

Lemma team_removeMember_users u tm j :
  j ≠ u → j ∈ Team.user <$> Team.members tm →
  j ∈ Team.user <$> Team.members (Team.removeMember u tm).
Proof.
  intros Hne. unfold Team.removeMember. simpl.
  rewrite !list_elem_of_fmap. intros (m & -> & Hm).
  exists m. split; [done|]. apply list_elem_of_filter. done.
Qed.

Lemma teams_change (s : Store) :
  (∀ req id b, change s (TeamsRoutes.addMember req id b s).2) ∧
  (∀ req id u, change s (TeamsRoutes.removeMember req id u s).2) ∧
  (∀ req id, change s (TeamsRoutes.deleteTeam req id s).2).
Proof.
  split; [|split]; intros; handler_unfold; branches;
    try apply change_none.
  - eapply change_team_add; [eassumption| | |].
    + by rewrite pre_save_teamLeader, team_addMember_teamLeader.
    + intros j Hj. by apply pre_save_users, team_addMember_users.
    + apply pre_save_users, team_addMember_in.
  - eapply change_team_remove; [eassumption| |].
    + by rewrite pre_save_teamLeader.
    + intros j Hne Hj. by apply pre_save_users, team_removeMember_users.
  - apply change_team_delete.
Qed.

Lemma pre_save_leader_in (now : Z) (tm : Team.t) :
  Team.teamLeader tm ∈ Team.user <$> Team.members (Team.pre_save now tm).
Proof.
  rewrite <- (pre_save_teamLeader now tm) at 1.
  apply pre_save_leader_present.
Qed.

Lemma cast_users {B} (f : nat → B) (g : B → nat) (ids : list nat) :
  (∀ i, g (f i) = i) → g <$> (f <$> ids) = ids.
Proof.
  intros Hgf. rewrite <- list_fmap_compose.
  rewrite <- (list_fmap_id ids) at 2. apply list_fmap_ext.
  intros i x _. apply Hgf.
Qed.

Lemma createTeam_change (regex : string → string → bool) (s : Store) req body :
  change s (TeamsRoutes.createTeam regex req body s).2.
Proof.
  unfold TeamsRoutes.createTeam, TeamsRoutes.createTeam_body, Save.team.
  http_unfold. unfold Mongo.findById.
  destruct (bool_decide (is_Some _)); [apply change_none|].
  destruct (users s !! _) as [leader|] eqn:Hl; [|apply change_none].
  destruct (negb _); [apply change_none|].
  destruct (TeamsRoutes.c_members body) as [ms|] eqn:Hm.
  2: { simpl. apply change_none. }
  assert (Hgo :
    change s
      (match teams s !! new_id req with
       | Some _ => s
       | None =>
           set_users
             (Mongo.updateMany
                (λ d, d.1 ∈ TeamsRoutes.c_teamLeader body :: ms)
                (TeamsRoutes.addTeam (now req) (new_id req)))
             (set_teams
                (insert (new_id req)
                   (Team.pre_save (now req)
                      {| Team.name := JsString.trim (TeamsRoutes.c_name body);
                         Team.description :=
                           default "" (TeamsRoutes.c_description body);
                         Team.teamLeader := TeamsRoutes.c_teamLeader body;
                         Team.members :=
                           (λ memberId,
                              {| Team.user := memberId;
                                 Team.joinedAt := now req;
                                 Team.role :=
                                   if bool_decide
                                        (memberId =
                                         TeamsRoutes.c_teamLeader body)
                                   then Team.team_leader else Team.member |})
                             <$> ms;
                         Team.isActive := true;
                         Team.settings :=
                           match TeamsRoutes.c_settings body with
                           | Some st =>
                               TeamsRoutes.merge_settings
                                 TeamsRoutes.default_settings st
                           | None => TeamsRoutes.default_settings
                           end;
                         Team.createdBy := actor req |}))
                s)
       end)).
  { destruct (teams s !! new_id req) eqn:Hn; [apply change_none|].
    apply change_team_create; [done| |].
    - rewrite pre_save_teamLeader. simpl. eauto.
    - intros i Hi. apply elem_of_cons in Hi as [->|Hi].
      + match goal with
        | |- _ ∈ Team.user <$> Team.members (Team.pre_save ?n ?X) =>
            exact (pre_save_leader_in n X)
        end.
      + apply pre_save_users. simpl. by rewrite cast_users. }
  destruct ms as [|n l0].
  - destruct (teams s !! new_id req); [apply change_none|]. exact Hgo.
  - destruct (negb _); [apply change_none|].
    destruct (teams s !! new_id req); [apply change_none|]. exact Hgo.
Qed.

Lemma updateTeam_change (regex : string → string → bool) (s : Store) req id
    body :
  change s (TeamsRoutes.updateTeam regex req id body s).2.
Proof.
  handler_unfold. branches; try apply change_none.
  all: eapply change_team_update; [eassumption | |].
  all: first
    [ intros i Hi; apply pre_save_users; simpl;
      rewrite ?fmap_app, ?set_role_of_first_users;
      first [exact Hi | apply elem_of_app; by left]
    | rewrite pre_save_teamLeader; simpl;
      first [left; reflexivity | right; eauto] ].
Qed.

Lemma project_addMember_manager u r now p :
  Project.projectManager (Project.addMember u r now p) =
  Project.projectManager p.
Proof. unfold Project.addMember. by destruct (List.find _ _). Qed.

Ltac manager_known :=
  first
    [ left; eexists; split; [eassumption|];
      first
        [ reflexivity
        | apply project_addMember_manager
        | simpl;
          repeat match goal with
                 | H : ProjectsRoutes.u_projectManager _ = _ |- _ =>
                     rewrite H
                 end;
          simpl;
          first
            [ reflexivity
            | match goal with
              | H : bool_decide (_ ≠ _) = false |- _ =>
                  apply bool_decide_eq_false, dec_stable in H; by rewrite H
              end ] ]
    | right; simpl;
      repeat match goal with
             | H : ProjectsRoutes.u_projectManager _ = _ |- _ => rewrite H
             end;
      simpl;
      match goal with
      | H : bool_decide (?x = None) = false |- _ =>
          apply bool_decide_eq_false in H;
          match goal with
          | E : _ = x |- _ => rewrite E
          | _ => idtac
          end;
          by destruct x
      end ].

Lemma projects_change (regex : string → string → bool) (s : Store) :
  (∀ req body, change s (ProjectsRoutes.createProject regex req body s).2) ∧
  (∀ req id u, change s (ProjectsRoutes.updateProject regex req id u s).2) ∧
  (∀ req id b, change s (ProjectsRoutes.addMember req id b s).2) ∧
  (∀ id u, change s (ProjectsRoutes.removeMember id u s).2) ∧
  (∀ id, change s (ProjectsRoutes.deleteProject id s).2).
Proof.
  repeat split; intros; handler_unfold;
    (branches;
      first [ apply change_none
            | apply change_project_delete
            | apply change_project_put; manager_known ]).
Qed.

Lemma tasks_change (s : Store) :
  (∀ req body, change s (TasksRoutes.createTask req body s).2) ∧
  (∀ req id u, change s (TasksRoutes.updateTask req id u s).2) ∧
  (∀ req id b, change s (TasksRoutes.updateProgress req id b s).2) ∧
  (∀ req id c, change s (TasksRoutes.addComment req id c s).2) ∧
  (∀ req id, change s (TasksRoutes.deleteTask req id s).2).
Proof.
  repeat split; intros; handler_unfold;
    branches; first [apply change_none | apply change_tasks].
Qed.

(** ** What every request keeps *)

Lemma elem_of_addToSet (t x : nat) (l : list nat) :
  x ∈ Mongo.addToSet t l ↔ x = t ∨ x ∈ l.
Proof.
  unfold Mongo.addToSet. case_bool_decide as Ht.
  - split; [intros; by right|]. by intros [->|?].
  - rewrite elem_of_app, elem_of_cons, elem_of_nil. tauto.
Qed.

Lemma elem_of_pull (t x : nat) (l : list nat) :
  x ∈ Mongo.pull t l ↔ x ≠ t ∧ x ∈ l.
Proof. unfold Mongo.pull. by rewrite list_elem_of_filter. Qed.

Lemma lookup_findByIdAndUpdate {A} (f : A → A) (c : gmap nat A) (i j : nat) :
  Mongo.findByIdAndUpdate i f c !! j =
    if decide (i = j) then f <$> c !! j else c !! j.
Proof.
  unfold Mongo.findByIdAndUpdate. case_decide as Hij.
  - subst. apply lookup_alter_eq.
  - by apply lookup_alter_ne.
Qed.

Lemma users_kept_unique (s s' : Store) :
  users_kept s s' → emails_unique s → emails_unique s'.
Proof.
  intros Hk Hu a b ua ub Ha Hb He.
  destruct (Hk a ua Ha) as (ua0 & Ha0 & Ea).
  destruct (Hk b ub Hb) as (ub0 & Hb0 & Eb).
  apply (Hu a b ua0 ub0 Ha0 Hb0). congruence.
Qed.

Lemma users_kept_updateMany (q : nat * User.t → Prop)
    `{!∀ d, Decision (q d)} (f : User.t → User.t) (s s' : Store) :
  (∀ u, User.email (f u) = User.email u) →
  users s' = Mongo.updateMany q f (users s) → users_kept s s'.
Proof.
  intros Hf Hs a u' Ha. rewrite Hs, lookup_updateMany in Ha.
  destruct (users s !! a) as [u|]; [|discriminate].
  injection Ha as <-. exists u. split; [done|]. by case_decide.
Qed.

Lemma users_kept_findByIdAndUpdate (i : nat) (f : User.t → User.t)
    (s s' : Store) :
  (∀ u, User.email (f u) = User.email u) →
  users s' = Mongo.findByIdAndUpdate i f (users s) → users_kept s s'.
Proof.
  intros Hf Hs a u' Ha. rewrite Hs, lookup_findByIdAndUpdate in Ha.
  case_decide; [|eauto].
  destruct (users s !! a) as [u|]; [|discriminate].
  injection Ha as <-. eauto.
Qed.

Lemma change_emails_unique (s s' : Store) :
  change s s' → emails_unique s → emails_unique s'.
Proof.
  intros Hc Hu. destruct Hc as
    [ | i u' Ht He | i _ _ | t tm ids now _ _ _ | t tm0 tm _ _ _
    | t tm0 tm i now _ _ _ _ | t tm0 tm i now _ _ _ | t now | p pr _ | p | f ];
    try exact Hu.
  - intros a b ua ub. simpl. intros Ha Hb E.
    destruct (decide (a = b)) as [|Hab]; [done|exfalso].
    rewrite lookup_insert in Ha, Hb.
    destruct (decide (i = a)) as [Hia|Hia], (decide (i = b)) as [Hib|Hib].
    + congruence.
    + subst a. injection Ha as <-. destruct He as [(u & Hi & Eu)|He].
      * apply Hib, (Hu i b u ub Hi Hb). congruence.
      * apply (He b ub Hb); [done|congruence].
    + subst b. injection Hb as <-. destruct He as [(u & Hi & Eu)|He].
      * apply Hia, (Hu i a u ua Hi Ha). congruence.
      * apply (He a ua Ha); [done|congruence].
    + apply Hab, (Hu a b ua ub Ha Hb E).
  - intros a b ua ub. simpl. unfold Mongo.findByIdAndDelete.
    intros Ha%lookup_delete_Some Hb%lookup_delete_Some.
    apply Hu; tauto.
  - eapply users_kept_unique; [|exact Hu].
    eapply users_kept_updateMany; [|reflexivity]. done.
  - eapply users_kept_unique; [|exact Hu].
    eapply users_kept_findByIdAndUpdate; [|reflexivity]. done.
  - eapply users_kept_unique; [|exact Hu].
    eapply users_kept_findByIdAndUpdate; [|reflexivity]. done.
  - eapply users_kept_unique; [|exact Hu].
    eapply users_kept_updateMany; [|reflexivity]. done.
Qed.

Lemma change_links_ok (s s' : Store) :
  change s s' → links_ok s → links_ok s'.
Proof.
  intros Hc Hl. destruct Hc as
    [ | i u' Ht He | i _ _ | t tm ids now Hnew _ Hids | t tm0 tm Ht0 Hsup _
    | t tm0 tm i now Ht0 _ Hsup Hi | t tm0 tm i now Ht0 _ Hsup | t now
    | p pr _ | p | f ];
    try exact Hl.
  - (* a user document is put *)
    intros a ua x. simpl. rewrite lookup_insert.
    destruct (decide (i = a)) as [->|Hia]; [|apply Hl].
    intros [= <-] Hx. rewrite Ht in Hx.
    destruct (users s !! a) as [u|] eqn:Hu; [|inversion Hx].
    by apply (Hl a u x).
  - (* a user document is deleted *)
    intros a ua x. simpl. unfold Mongo.findByIdAndDelete.
    intros [_ Ha]%lookup_delete_Some. by apply Hl.
  - (* a team is created *)
    intros a ua' x. simpl. rewrite lookup_updateMany.
    destruct (users s !! a) as [ua|] eqn:Ha; [|discriminate].
    simpl. intros [= <-] Hx.
    assert (Hold : x ∈ User.teams ua →
                   ∃ tm1, <[t:=tm]> (teams s) !! x = Some tm1 ∧
                          a ∈ Team.user <$> Team.members tm1).
    { intros Hx'. destruct (Hl a ua x Ha Hx') as (tm1 & Htm1 & Hin).
      exists tm1. split; [|done]. rewrite lookup_insert_ne; [done|].
      intros <-. congruence. }
    case_decide as Hq; [|by apply Hold]. simpl in Hx, Hq.
    apply elem_of_addToSet in Hx as [->|Hx]; [|by apply Hold].
    exists tm. rewrite lookup_insert_eq. split; [done|]. by apply Hids.
  - (* a team is updated *)
    intros a ua x Ha Hx. simpl in *.
    destruct (Hl a ua x Ha Hx) as (tm1 & Htm1 & Hin).
    destruct (decide (t = x)) as [->|Hne].
    + exists tm. rewrite lookup_insert_eq. split; [done|].
      apply Hsup. congruence.
    + exists tm1. by rewrite lookup_insert_ne.
  - (* a member is added *)
    intros a ua' x. simpl. rewrite lookup_findByIdAndUpdate.
    assert (Hold : ∀ ua, users s !! a = Some ua → x ∈ User.teams ua →
                   ∃ tm1, <[t:=tm]> (teams s) !! x = Some tm1 ∧
                          a ∈ Team.user <$> Team.members tm1).
    { intros ua Ha Hx. destruct (Hl a ua x Ha Hx) as (tm1 & Htm1 & Hin).
      destruct (decide (t = x)) as [->|Hne].
      - exists tm. rewrite lookup_insert_eq. split; [done|].
        apply Hsup. congruence.
      - exists tm1. by rewrite lookup_insert_ne. }
    case_decide as Hia; [|apply Hold]. subst a.
    destruct (users s !! i) as [ua|] eqn:Ha; [|discriminate].
    simpl. intros [= <-] Hx. simpl in Hx.
    apply elem_of_addToSet in Hx as [->|Hx]; [|by apply (Hold ua)].
    exists tm. by rewrite lookup_insert_eq.
  - (* a member is removed *)
    intros a ua' x. simpl. rewrite lookup_findByIdAndUpdate.
    case_decide as Hia.
    + subst a. destruct (users s !! i) as [ua|] eqn:Ha; [|discriminate].
      simpl. intros [= <-] Hx. simpl in Hx.
      apply elem_of_pull in Hx as [Hne Hx].
      destruct (Hl i ua x Ha Hx) as (tm1 & Htm1 & Hin).
      exists tm1. by rewrite lookup_insert_ne.
    + intros Ha Hx. destruct (Hl a ua' x Ha Hx) as (tm1 & Htm1 & Hin).
      destruct (decide (t = x)) as [->|Hne].
      * exists tm. rewrite lookup_insert_eq. split; [done|].
        apply Hsup; [done|]. congruence.
      * exists tm1. by rewrite lookup_insert_ne.
  - (* a team is deleted *)
    intros a ua' x. simpl. rewrite lookup_updateMany.
    destruct (users s !! a) as [ua|] eqn:Ha; [|discriminate].
    simpl. intros [= <-] Hx. unfold Mongo.findByIdAndDelete.
    assert (Hx' : x ≠ t ∧ x ∈ User.teams ua).
    { case_decide as Hq; simpl in *.
      - by apply elem_of_pull in Hx.
      - split; [|done]. by intros ->. }
    destruct Hx' as [Hne Hx'].
    destruct (Hl a ua x Ha Hx') as (tm1 & Htm1 & Hin).
    exists tm1. by rewrite lookup_delete_ne.
Qed.

Lemma change_refs_ok (s s' : Store) :
  change s s' → refs_ok s → refs_ok s'.
Proof.
  intros Hc [Ht Hp]. destruct Hc as
    [ | i u' _ _ | i Hlead Hman | t tm ids now _ Hl _ | t tm0 tm Ht0 _ Hl
    | t tm0 tm i now Ht0 Hl _ _ | t tm0 tm i now Ht0 Hl _ | t now
    | p pr Hm | p | f ];
    try (by split).
  - split; simpl.
    + intros t tm Htm. rewrite lookup_insert. case_decide; [done|eauto].
    + intros p pr Hpr. rewrite lookup_insert. case_decide; [done|eauto].
  - split; simpl; unfold Mongo.findByIdAndDelete.
    + intros t tm Htm. rewrite lookup_delete_ne; [eauto|].
      intros ->. by apply (Hlead t tm).
    + intros p pr Hpr. rewrite lookup_delete_ne; [eauto|].
      intros ->. by apply (Hman p pr).
  - split; simpl.
    + intros x tmx. rewrite lookup_insert, lookup_updateMany.
      case_decide.
      * intros [= <-]. by apply fmap_is_Some.
      * intros Hx. apply fmap_is_Some. eauto.
    + intros p pr Hpr. rewrite lookup_updateMany. apply fmap_is_Some. eauto.
  - split; simpl; [|done].
    intros x tmx. rewrite lookup_insert. case_decide; [|eauto].
    intros [= <-]. destruct Hl as [->|Hl]; eauto.
  - split; simpl.
    + intros x tmx. rewrite lookup_insert, lookup_findByIdAndUpdate.
      assert (Hk : ∀ k, is_Some (users s !! k) →
                   is_Some (if decide (i = k)
                            then TeamsRoutes.addTeam now t <$> users s !! k
                            else users s !! k)).
      { intros k Hk. case_decide; [by apply fmap_is_Some|done]. }
      case_decide.
      * intros [= <-]. rewrite Hl. apply Hk. eauto.
      * intros Hx. apply Hk. eauto.
    + intros p pr Hpr. rewrite lookup_findByIdAndUpdate.
      case_decide; [apply fmap_is_Some|]; eauto.
  - split; simpl.
    + intros x tmx. rewrite lookup_insert, lookup_findByIdAndUpdate.
      assert (Hk : ∀ k, is_Some (users s !! k) →
                   is_Some (if decide (i = k)
                            then TeamsRoutes.pullTeam now t <$> users s !! k
                            else users s !! k)).
      { intros k Hk. case_decide; [by apply fmap_is_Some|done]. }
      case_decide.
      * intros [= <-]. rewrite Hl. apply Hk. eauto.
      * intros Hx. apply Hk. eauto.
    + intros p pr Hpr. rewrite lookup_findByIdAndUpdate.
      case_decide; [apply fmap_is_Some|]; eauto.
  - split; simpl; unfold Mongo.findByIdAndDelete.
    + intros x tmx [_ Hx]%lookup_delete_Some.
      rewrite lookup_updateMany. apply fmap_is_Some. eauto.
    + intros p pr Hpr. rewrite lookup_updateMany. apply fmap_is_Some. eauto.
  - split; simpl; [done|].
    intros x prx. rewrite lookup_insert. case_decide; [|eauto].
    intros [= <-]. destruct Hm as [(pr0 & Hpr0 & ->)|Hm]; eauto.
  - split; simpl; [done|].
    intros x prx [_ Hx]%lookup_delete_Some. eauto.
Qed.

Lemma outcome_snd {A} (r : Http.Response A * Store) :
  (Api.outcome r).2 = r.2.
Proof. by destruct r as [[?|?] ?]. Qed.

Lemma empty_store_ok :
  emails_unique empty_store ∧ links_ok empty_store ∧ refs_ok empty_store.
Proof.
  split; [|split; [|split]].
  - intros i j u v Hi. simpl in Hi. by rewrite lookup_empty in Hi.
  - intros i u t Hi. simpl in Hi. by rewrite lookup_empty in Hi.
  - intros t tm Ht. simpl in Ht. by rewrite lookup_empty in Ht.
  - intros p pr Hp. simpl in Hp. by rewrite lookup_empty in Hp.
Qed.

Section Requests.
Context (regex_test_i : string → string → bool).
Context (bcrypt_hash : string → string).
Context (bcrypt_compare : string → string → bool).
Context {ProfileBody : Type}.
Context (assign_profile : User.Profile → ProfileBody → User.Profile).

Local Abbreviation run :=
  (Api.run regex_test_i bcrypt_hash bcrypt_compare assign_profile).
Local Abbreviation reachable :=
  (Api.reachable regex_test_i bcrypt_hash bcrypt_compare assign_profile).

Lemma run_change (c : Api.Call) (s : Store) : change s (run c s).2.
Proof.
  destruct (auth_change bcrypt_hash bcrypt_compare s) as (? & ? & ?).
  destruct (users_change bcrypt_hash s) as (? & ? & ?).
  destruct (teams_change s) as (? & ? & ?).
  destruct (projects_change regex_test_i s) as (? & ? & ? & ? & ?).
  destruct (tasks_change s) as (? & ? & ? & ? & ?).
  destruct c; simpl; rewrite outcome_snd;
    first [ done
          | apply updateUser_change
          | apply deleteUser_change
          | apply createTeam_change
          | apply updateTeam_change ].
Qed.

Lemma reachable_ind_inv (P : Store → Prop) :
  P empty_store → (∀ s s', change s s' → P s → P s') →
  ∀ s, reachable s → P s.
Proof.
  intros H0 Hstep s Hr. induction Hr as [|c s Hr IH]; [done|].
  eapply Hstep; [apply run_change|exact IH].
Qed.

(** X4.  A request answered with an error writes nothing: for each of the
    routes that write and every store, when the response is an error the
    store after the request is the store before it. *)
Theorem failure_leaves_store (c : Api.Call) (s : Store) (e : Http.Error)
    (s' : Store) :
  run c s = (Some e, s') → s' = s.
Proof.
  destruct c; unfold Api.run, Api.outcome; handler_unfold;
    intros H; branches; congruence.
Qed.

(** X5.  Each router writes to its own collections: the auth and user
    routes leave teams, projects and tasks as they are; PUT /api/teams/:id
    leaves users, projects and tasks, the other team routes projects and
    tasks; the project routes leave users, teams and tasks; the task routes
    leave users, teams and projects. *)
Theorem routers_write_their_collections (c : Api.Call) (s : Store) :
  let s' := (run c s).2 in
  match c with
  | Api.Register _ _ _ | Api.Login _ _ | Api.ChangePassword _ _
  | Api.CreateUser _ _ | Api.UpdateUser _ _ _ | Api.Promote _ _
  | Api.Demote _ _ | Api.DeleteUser _ _ =>
      teams s' = teams s ∧ projects s' = projects s ∧ tasks s' = tasks s
  | Api.UpdateTeam _ _ _ =>
      users s' = users s ∧ projects s' = projects s ∧ tasks s' = tasks s
  | Api.CreateTeam _ _ | Api.AddTeamMember _ _ _
  | Api.RemoveTeamMember _ _ _ | Api.DeleteTeam _ _ =>
      projects s' = projects s ∧ tasks s' = tasks s
  | Api.CreateProject _ _ | Api.UpdateProject _ _ _
  | Api.AddProjectMember _ _ _ | Api.RemoveProjectMember _ _
  | Api.DeleteProject _ =>
      users s' = users s ∧ teams s' = teams s ∧ tasks s' = tasks s
  | Api.CreateTask _ _ | Api.UpdateTask _ _ _ | Api.UpdateProgress _ _ _
  | Api.AddComment _ _ _ | Api.DeleteTask _ _ =>
      users s' = users s ∧ teams s' = teams s ∧ projects s' = projects s
  end.
Proof.
  destruct c; unfold Api.run, Api.outcome; handler_unfold;
    branches; done.
Qed.

(** X6.  No request makes two users share an email: when no two stored
    users have the same email before a request, none have after it; so this
    holds of every store reachable from the empty database. *)
Theorem emails_stay_unique :
  (∀ c s, emails_unique s → emails_unique (run c s).2) ∧
  (∀ s, reachable s → emails_unique s).
Proof.
  split.
  - intros c s. apply change_emails_unique, run_change.
  - apply reachable_ind_inv; [apply empty_store_ok|].
    apply change_emails_unique.
Qed.

(** X7.  The [teams] list of a user names teams the user is in: when every
    team in the [teams] list of every stored user is a stored team with the
    user among its members, this is still so after any request; so it holds
    of every store reachable from the empty database. *)
Theorem team_lists_name_teams_of_the_user :
  (∀ c s, links_ok s → links_ok (run c s).2) ∧
  (∀ s, reachable s → links_ok s).
Proof.
  split.
  - intros c s. apply change_links_ok, run_change.
  - apply reachable_ind_inv; [apply empty_store_ok|].
    apply change_links_ok.
Qed.

(** X8.  The leader of a stored team and the manager of a stored project
    are stored users: no request breaks this (DELETE /api/users/:id refuses
    such a user), so it holds of every store reachable from the empty
    database. *)
Theorem leaders_and_managers_are_stored :
  (∀ c s, refs_ok s → refs_ok (run c s).2) ∧
  (∀ s, reachable s → refs_ok s).
Proof.
  split.
  - intros c s. apply change_refs_ok, run_change.
  - apply reachable_ind_inv; [apply empty_store_ok|].
    apply change_refs_ok.
Qed.
End Requests.

Lemma failure_leaves_store_witness :
  (Api.run Scenario.regex_test_i Scenario.bcrypt_hash Scenario.bcrypt_compare
     Scenario.assign_profile
     (Api.Demote (Scenario.req_by 1 User.admin) 2) Scenario.org).2 =
  Scenario.org.
Proof.
  apply (failure_leaves_store Scenario.regex_test_i Scenario.bcrypt_hash
           Scenario.bcrypt_compare Scenario.assign_profile
           (Api.Demote (Scenario.req_by 1 User.admin) 2) Scenario.org
           {| Http.status := 400;
              Http.message :=
                "Cannot demote user who is leading active teams" |}).
  vm_compute. reflexivity.
Defined.

Lemma emails_stay_unique_witness :
  emails_unique
    (Api.run Scenario.regex_test_i Scenario.bcrypt_hash
       Scenario.bcrypt_compare Scenario.assign_profile
       (Api.Register 1000 1
          (Scenario.register_as "Alice" "alice@example.com" None))
       empty_store).2.
Proof.
  apply (proj2 (emails_stay_unique Scenario.regex_test_i
                  Scenario.bcrypt_hash Scenario.bcrypt_compare
                  Scenario.assign_profile)).
  apply Api.reachable_run, Api.reachable_empty.
Defined.

Lemma team_lists_name_teams_of_the_user_witness :
  links_ok
    (Api.run Scenario.regex_test_i Scenario.bcrypt_hash
       Scenario.bcrypt_compare Scenario.assign_profile
       (Api.CreateTeam (Scenario.req_by 1 User.admin) Scenario.ops_body)
       Scenario.org).2.
Proof.
  apply (proj1 (team_lists_name_teams_of_the_user Scenario.regex_test_i
                  Scenario.bcrypt_hash Scenario.bcrypt_compare
                  Scenario.assign_profile)).
  intros i u t Hi Ht. exfalso. revert Ht.
  assert (Hu : User.teams u = []).
  { simpl in Hi. unfold Scenario.some_users in Hi.
    repeat (apply lookup_insert_Some in Hi as [[_ <-]|[_ Hi]]; [done|]).
    by rewrite lookup_empty in Hi. }
  rewrite Hu. apply not_elem_of_nil.
Defined.

Lemma leaders_and_managers_are_stored_witness :
  refs_ok
    (Api.run Scenario.regex_test_i Scenario.bcrypt_hash
       Scenario.bcrypt_compare Scenario.assign_profile
       (Api.Register 2000 2
          (Scenario.register_as "Bob" "bob@example.com" None))
       (Api.run Scenario.regex_test_i Scenario.bcrypt_hash
          Scenario.bcrypt_compare Scenario.assign_profile
          (Api.Register 1000 1
             (Scenario.register_as "Alice" "alice@example.com" None))
          empty_store).2).2.
Proof.
  apply (proj2 (leaders_and_managers_are_stored Scenario.regex_test_i
                  Scenario.bcrypt_hash Scenario.bcrypt_compare
                  Scenario.assign_profile)).
  apply Api.reachable_run, Api.reachable_run, Api.reachable_empty.
Defined.

(** ** Sessions *)

Lemma findOne_unique {A} (q : nat * A → Prop) `{!∀ d, Decision (q d)}
    (c : gmap nat A) (i : nat) (x : A) :
  c !! i = Some x → q (i, x) →
  (∀ j y, c !! j = Some y → q (j, y) → j = i) →
  Mongo.findOne q c = Some (i, x).
Proof.
  intros Hi Hq Huniq.
  destruct (Mongo.findOne q c) as [[j y]|] eqn:E.
  - apply findOne_Some in E as [Hj Hqj]. simpl in Hj.
    assert (j = i) as -> by eauto. congruence.
  - exfalso. by apply (proj1 (findOne_None q c) E i x).
Qed.

Lemma login_found (compare : string → string → bool) (now : Z)
    (body : AuthRoutes.LoginBody) (s : Store) (i : nat) (u : User.t) :
  Mongo.findOne
    (λ d, User.email d.2 = JsString.toLowerCase (AuthRoutes.l_email body))
    (users s) = Some (i, u) →
  AuthRoutes.login compare now body s =
    if negb (User.isActive u) then (Http.Failure deactivated, s)
    else if negb (compare (AuthRoutes.l_password body) (User.password u))
    then (Http.Failure invalid_login, s)
    else if decide (User.set_lastLogin now u = u)
    then (Http.Success (User.fullProfile i (User.set_lastLogin now u)), s)
    else
      (Http.Success
         (User.fullProfile i
            (User.set_updatedAt now (User.set_lastLogin now u))),
       set_users
         (insert i (User.set_updatedAt now (User.set_lastLogin now u))) s).
Proof.
  intros Hf. handler_unfold. rewrite Hf.
  destruct (negb (User.isActive u)); [done|].
  destruct (negb (compare _ _)); [done|].
  by destruct (decide _).
Qed.

(** X9.  POST /api/auth/login on a store where emails are unique.  With no
    user under the lower-cased email the answer is 401 "Invalid email or
    password"; with a deactivated one it is 401 "Account is deactivated",
    whatever the password; with an active one and a password
    [bcrypt.compare] rejects it is the 401 of an unknown email; otherwise it
    is the [fullProfile] of the user with [lastLogin] at the time of the
    call, as the store then holds them.  A refused login writes nothing. *)
Theorem login_outcomes (compare : string → string → bool) (now : Z)
    (body : AuthRoutes.LoginBody) (s : Store) :
  emails_unique s →
  ((∀ i u, users s !! i = Some u →
           User.email u ≠ JsString.toLowerCase (AuthRoutes.l_email body)) →
   AuthRoutes.login compare now body s = (Http.Failure invalid_login, s)) ∧
  (∀ i u,
     users s !! i = Some u →
     User.email u = JsString.toLowerCase (AuthRoutes.l_email body) →
     (User.isActive u = false →
      AuthRoutes.login compare now body s = (Http.Failure deactivated, s)) ∧
     (User.isActive u = true →
      compare (AuthRoutes.l_password body) (User.password u) = false →
      AuthRoutes.login compare now body s =
        (Http.Failure invalid_login, s)) ∧
     (User.isActive u = true →
      compare (AuthRoutes.l_password body) (User.password u) = true →
      ∃ u',
        AuthRoutes.login compare now body s =
          (Http.Success (User.fullProfile i u'),
           set_users (insert i u') s) ∧
        (u' = User.set_lastLogin now u ∨
         u' = User.set_updatedAt now (User.set_lastLogin now u)))).
Proof.
  intros Huniq. split.
  - intros Hnone. handler_unfold.
    destruct (Mongo.findOne _ _) as [[i u]|] eqn:E; [|done].
    apply findOne_Some in E as [Hi Hq]. by destruct (Hnone i u).
  - intros i u Hi He.
    assert (Hf : Mongo.findOne
      (λ d, User.email d.2 = JsString.toLowerCase (AuthRoutes.l_email body))
      (users s) = Some (i, u)).
    { apply findOne_unique; [done|done|].
      intros j v Hj Hq. simpl in Hq. apply (Huniq j i v u Hj Hi).
      congruence. }
    rewrite (login_found compare now body s i u Hf).
    split; [|split].
    + by intros ->.
    + by intros -> ->.
    + intros -> ->. simpl. destruct (decide _) as [E|E].
      * exists (User.set_lastLogin now u). split; [|by left].
        rewrite set_users_insert_id; [done|]. by rewrite E.
      * eexists. split; [reflexivity|]. by right.
Qed.

Lemma alice_only_unique : emails_unique Scenario.alice_only.
Proof.
  intros i j u v Hi Hj _. simpl in Hi, Hj.
  apply lookup_singleton_Some in Hi as [<- _].
  by apply lookup_singleton_Some in Hj as [<- _].
Qed.

Lemma login_outcomes_witness :
  ∃ u',
    AuthRoutes.login Scenario.bcrypt_compare 2000 Scenario.alice_login
      Scenario.alice_only =
      (Http.Success (User.fullProfile 1 u'),
       set_users (insert 1 u') Scenario.alice_only) ∧
    (u' = User.set_lastLogin 2000 Scenario.alice ∨
     u' = User.set_updatedAt 2000 (User.set_lastLogin 2000 Scenario.alice)).
Proof.
  destruct (login_outcomes Scenario.bcrypt_compare 2000 Scenario.alice_login
              Scenario.alice_only alice_only_unique) as [_ H].
  destruct (H 1 Scenario.alice) as (_ & _ & Hok); [reflexivity..|].
  apply Hok; reflexivity.
Defined.

Lemma found {A} (q : nat * A → Prop) `{!∀ d, Decision (q d)}
    (c : gmap nat A) (i : nat) (x : A) :
  c !! i = Some x → q (i, x) →
  bool_decide (is_Some (Mongo.findOne q c)) = true.
Proof.
  intros Hi Hq. apply bool_decide_eq_true.
  destruct (Mongo.findOne q c) eqn:E; [done|].
  exfalso. by apply (proj1 (findOne_None q c) E i x).
Qed.

Lemma register_effect (hash : string → string) (now : Z) (id : nat)
    (body : AuthRoutes.RegisterBody) (s : Store) :
  match AuthRoutes.register hash now id body s with
  | (Http.Success r, s') =>
      ∃ u, s' = set_users (insert id u) s ∧ users s !! id = None ∧
           r = User.fullProfile id u ∧
           (∀ j v, users s !! j = Some v →
                   User.email v ≠
                     JsString.toLowerCase (AuthRoutes.r_email body)) ∧
           User.email u = JsString.toLowerCase (AuthRoutes.r_email body) ∧
           User.password u = hash (AuthRoutes.r_password body) ∧
           User.isActive u = true ∧ User.teams u = []
  | (Http.Failure e, s') => s' = s
  end.
Proof.
  handler_unfold. branches; try done;
    eexists; rewrite set_users_insert_insert;
    (split; [reflexivity|]); (split; [done|]); (split; [reflexivity|]);
    (split; [|done]);
    intros j v Hv;
    match goal with
    | Hb : bool_decide (is_Some _) = false |- _ =>
        by apply (not_found _ _ Hb j v)
    end.
Qed.

(** X10.  After a successful registration, [bcrypt.compare] accepting a
    password against its own hash: a login with the registered email and
    password succeeds and returns the profile of the new user, and a
    registration under an email that is the same up to case is refused with
    400 "User with this email already exists". *)
Theorem register_then_login (hash : string → string)
    (compare : string → string → bool) (now : Z) (id : nat)
    (body : AuthRoutes.RegisterBody) (s : Store) (r : Js.Value)
    (s1 : Store) :
  (∀ p, compare p (hash p) = true) →
  AuthRoutes.register hash now id body s = (Http.Success r, s1) →
  (∀ now', ∃ u',
     AuthRoutes.login compare now'
       {| AuthRoutes.l_email := AuthRoutes.r_email body;
          AuthRoutes.l_password := AuthRoutes.r_password body |} s1 =
       (Http.Success (User.fullProfile id u'),
        set_users (insert id u') s1)) ∧
  (∀ now' id' body',
     JsString.toLowerCase (AuthRoutes.r_email body') =
       JsString.toLowerCase (AuthRoutes.r_email body) →
     AuthRoutes.register hash now' id' body' s1 =
       (Http.Failure email_in_use, s1)).
Proof.
  intros Hlaw Hreg.
  pose proof (register_effect hash now id body s) as R. rewrite Hreg in R.
  destruct R as (u & -> & Hnew & _ & Hfresh & He & Hp & Ha & _).
  assert (Hu : users (set_users (insert id u) s) !! id = Some u).
  { simpl. apply lookup_insert_eq. }
  split.
  - intros now'.
    assert (Hf : Mongo.findOne
      (λ d, User.email d.2 = JsString.toLowerCase (AuthRoutes.r_email body))
      (users (set_users (insert id u) s)) = Some (id, u)).
    { apply findOne_unique; [done|done|].
      intros j v Hj Hq. simpl in Hj, Hq.
      destruct (decide (j = id)) as [|Hne]; [done|].
      rewrite lookup_insert_ne in Hj by done. by destruct (Hfresh j v). }
    rewrite (login_found compare now'
               {| AuthRoutes.l_email := AuthRoutes.r_email body;
                  AuthRoutes.l_password := AuthRoutes.r_password body |}
               (set_users (insert id u) s) id u Hf).
    simpl.
    rewrite Ha, Hp, Hlaw. simpl.
    destruct (decide _) as [E|E]; [|eauto].
    exists (User.set_lastLogin now' u).
    rewrite E. by rewrite set_users_insert_insert.
  - intros now' id' body' Hsame. handler_unfold.
    rewrite (found _ _ id u); [done|apply lookup_insert_eq|].
    simpl. congruence.
Qed.

Lemma register_then_login_witness :
  ∃ u',
    AuthRoutes.login Scenario.bcrypt_compare 2000
      {| AuthRoutes.l_email := "alice@example.com";
         AuthRoutes.l_password := "secret1" |}
      (AuthRoutes.register Scenario.bcrypt_hash 1000 1
         (Scenario.register_as "Alice" "alice@example.com" None)
         empty_store).2 =
      (Http.Success (User.fullProfile 1 u'),
       set_users (insert 1 u')
         (AuthRoutes.register Scenario.bcrypt_hash 1000 1
            (Scenario.register_as "Alice" "alice@example.com" None)
            empty_store).2).
Proof.
  refine (proj1 (register_then_login Scenario.bcrypt_hash
                   Scenario.bcrypt_compare 1000 1
                   (Scenario.register_as "Alice" "alice@example.com" None)
                   empty_store _ _ _ _) 2000%Z).
  - intros p. reflexivity.
  - vm_compute. reflexivity.
Defined.

(** X11.  PUT /api/auth/change-password for a stored actor.  When
    [bcrypt.compare] rejects the current password the answer is 401
    "Current password is incorrect" and nothing is written.  When it accepts
    it, the stored password becomes the hash of the new password, the other
    paths of the user are kept ([updatedAt] apart), and, [bcrypt.compare]
    accepting a password against its own hash, the new password is the one
    accepted from then on. *)
Theorem changePassword_effect (hash : string → string)
    (compare : string → string → bool) (req : Request)
    (body : AuthRoutes.ChangePasswordBody) (s : Store) (u : User.t) :
  users s !! actor req = Some u →
  (compare (AuthRoutes.cp_currentPassword body) (User.password u) = false →
   AuthRoutes.changePassword hash compare req body s =
     (Http.Failure wrong_password, s)) ∧
  (compare (AuthRoutes.cp_currentPassword body) (User.password u) = true →
   ∃ u',
     AuthRoutes.changePassword hash compare req body s =
       (Http.Success tt, set_users (insert (actor req) u') s) ∧
     User.password u' = hash (AuthRoutes.cp_newPassword body) ∧
     (u' = User.set_password (hash (AuthRoutes.cp_newPassword body)) u ∨
      u' = User.set_updatedAt (now req)
             (User.set_password (hash (AuthRoutes.cp_newPassword body)) u)) ∧
     ((∀ p, compare p (hash p) = true) →
      compare (AuthRoutes.cp_newPassword body) (User.password u') = true)).
Proof.
  intros Hu. handler_unfold. rewrite Hu. split; intros ->; [done|]. simpl.
  destruct (decide _) as [E|E].
  - exists (User.set_password (hash (AuthRoutes.cp_newPassword body)) u).
    rewrite set_users_insert_id by (by rewrite E).
    split; [done|]. split; [done|]. split; [by left|]. intros Hlaw. apply Hlaw.
  - eexists. split; [reflexivity|]. split; [done|]. split; [by right|].
    intros Hlaw. apply Hlaw.
Qed.

Lemma changePassword_effect_witness :
  ∃ u',
    AuthRoutes.changePassword Scenario.bcrypt_hash Scenario.bcrypt_compare
      (Scenario.req_by 1 User.admin) Scenario.new_password
      Scenario.alice_only =
      (Http.Success tt, set_users (insert 1 u') Scenario.alice_only) ∧
    User.password u' = Scenario.bcrypt_hash "secret2".
Proof.
  destruct (changePassword_effect Scenario.bcrypt_hash Scenario.bcrypt_compare
              (Scenario.req_by 1 User.admin) Scenario.new_password
              Scenario.alice_only Scenario.alice eq_refl) as [_ H].
  destruct (H eq_refl) as (u' & Hrun & Hp & _).
  exists u'. split; [exact Hrun | exact Hp].
Defined.

(** ** Accounts *)

Section Accounts.
Context {ProfileBody : Type}.
Context (assign_profile : User.Profile → ProfileBody → User.Profile).


End Accounts.


Lemma some_found {A} (q : nat * A → Prop) `{!∀ d, Decision (q d)}
    (c : gmap nat A) (i : nat) (x : A) :
  c !! i = Some x → q (i, x) →
  bool_decide (0 < length (Mongo.find q c)) = true.
Proof.
  intros Hi Hq. apply bool_decide_eq_true, find_nonempty. eauto.
Qed.



(** ** Roles *)

(** X14.  PUT /api/users/:id/promote on a stored user: an admin is refused
    with 400 "Cannot modify admin role", a team leader with 400 "User is
    already a team leader"; a member becomes a team leader, and demoting
    them again while they lead no active team gives back the user as they
    were, with [updatedAt] at the time of the demotion. *)
Theorem promote_then_demote (req req' : Request) (userId : nat) (s : Store)
    (u : User.t) :
  users s !! userId = Some u →
  (User.role u = User.admin →
   UsersRoutes.promote req userId s =
     (Http.Failure cannot_modify_admin, s)) ∧
  (User.role u = User.team_leader →
   UsersRoutes.promote req userId s = (Http.Failure already_leader, s)) ∧
  (User.role u = User.member →
   ∃ r1 s1,
     UsersRoutes.promote req userId s = (Http.Success r1, s1) ∧
     User.role <$> users s1 !! userId = Some User.team_leader ∧
     (¬ leads_active_team s userId →
      ∃ r2 s2,
        UsersRoutes.demote req' userId s1 = (Http.Success r2, s2) ∧
        s2 = set_users (insert userId (User.set_updatedAt (now req') u)) s)).
Proof.
  intros Hu. split; [|split].
  - intros Hr. handler_unfold. rewrite Hu.
    by rewrite bool_decide_eq_true_2.
  - intros Hr. handler_unfold. rewrite Hu, Hr. done.
  - intros Hr. handler_unfold. rewrite Hu, Hr. simpl.
    eexists _, _. split; [reflexivity|]. simpl.
    rewrite lookup_insert_eq. split; [done|]. intros Hno. simpl.
    rewrite bool_decide_eq_false_2.
    2: { rewrite find_nonempty. intros (t & tm & Ht & Hl & Ha).
         apply Hno. exists t, tm. done. }
    simpl. eexists _, _. split; [reflexivity|].
    rewrite set_users_insert_insert. do 2 f_equal.
    destruct u; simpl in *; subst; reflexivity.
Qed.

Lemma promote_then_demote_witness :
  ∃ r1 s1 r2 s2,
    UsersRoutes.promote (Scenario.req_by 1 User.admin) 4 Scenario.org =
      (Http.Success r1, s1) ∧
    User.role <$> users s1 !! 4 = Some User.team_leader ∧
    UsersRoutes.demote (Scenario.req_by 1 User.admin) 4 s1 =
      (Http.Success r2, s2) ∧
    User.role <$> users s2 !! 4 = Some User.member.
Proof.
  destruct (promote_then_demote (Scenario.req_by 1 User.admin)
              (Scenario.req_by 1 User.admin) 4 Scenario.org Scenario.dave
              eq_refl) as (_ & _ & H).
  destruct (H eq_refl) as (r1 & s1 & Hp & Hr & Hd).
  destruct Hd as (r2 & s2 & Hd & Hs2).
  { intros (t & tm & Ht & Hl & _). simpl in Ht.
    apply lookup_singleton_Some in Ht as [_ <-]. discriminate. }
  exists r1, s1, r2, s2. split; [exact Hp|]. split; [exact Hr|].
  split; [exact Hd|]. rewrite Hs2. reflexivity.
Defined.

(** ** Teams *)

Lemma project_status_cases (st : Project.Status) :
  st ∈ [Project.planning; Project.active; Project.on_hold] ∨
  st ∈ [Project.completed; Project.cancelled].
Proof.
  destruct st; [left|left|left|right|right];
    repeat first [apply list_elem_of_here | apply list_elem_of_further].
Qed.

Lemma project_status_open_closed (st : Project.Status) :
  st ∈ [Project.planning; Project.active; Project.on_hold] →
  st ∈ [Project.completed; Project.cancelled] → False.
Proof.
  rewrite !elem_of_cons, !elem_of_nil.
  destruct st; intuition discriminate.
Qed.

(** X15.  DELETE /api/teams/:id.  An id that is not stored gives 404; a
    team with a project in status planning, active or on hold is refused
    with 400 "Cannot delete team with active projects" and nothing is
    written; when every project of the team is completed or cancelled the
    team is removed, no user comes or goes, no user keeps the team in their
    [teams] list, and projects and tasks stay as they are. *)
Theorem deleteTeam_guard (req : Request) (teamId : nat) (s : Store) :
  (teams s !! teamId = None →
   TeamsRoutes.deleteTeam req teamId s = (Http.Failure team_not_found, s)) ∧
  (is_Some (teams s !! teamId) →
   ((∃ p pr, projects s !! p = Some pr ∧ Project.team pr = teamId ∧
             Project.status pr ∈
               [Project.planning; Project.active; Project.on_hold]) →
    TeamsRoutes.deleteTeam req teamId s =
      (Http.Failure team_has_projects, s)) ∧
   ((∀ p pr, projects s !! p = Some pr → Project.team pr = teamId →
             Project.status pr ∈ [Project.completed; Project.cancelled]) →
    ∃ s',
      TeamsRoutes.deleteTeam req teamId s = (Http.Success tt, s') ∧
      teams s' = delete teamId (teams s) ∧
      projects s' = projects s ∧ tasks s' = tasks s ∧
      (∀ i, is_Some (users s' !! i) ↔ is_Some (users s !! i)) ∧
      (∀ i u', users s' !! i = Some u' → teamId ∉ User.teams u'))).
Proof.
  split.
  - intros Hn. handler_unfold. by rewrite Hn.
  - intros [tm Htm]. handler_unfold. rewrite Htm. split.
    + intros (p & pr & Hp & Ht & Hst).
      by rewrite (some_found _ (projects s) p pr Hp).
    + intros Hdone. rewrite bool_decide_eq_false_2.
      2: { rewrite find_nonempty. intros (p & pr & Hp & Ht & Hst).
           eapply project_status_open_closed; eauto. }
      simpl. eexists. split; [reflexivity|]. simpl.
      split; [done|]. split; [done|]. split; [done|]. split.
      * intros i. rewrite lookup_updateMany. apply fmap_is_Some.
      * intros i u'. rewrite lookup_updateMany.
        destruct (users s !! i) as [u|]; [|discriminate]. simpl.
        intros [= <-]. case_decide as Hq; simpl in *; [|done].
        rewrite elem_of_pull. tauto.
Qed.

Lemma deleteTeam_guard_witness :
  TeamsRoutes.deleteTeam (Scenario.req_by 1 User.admin) 10
    Scenario.with_launch =
    (Http.Failure team_has_projects, Scenario.with_launch).
Proof.
  destruct (deleteTeam_guard (Scenario.req_by 1 User.admin) 10
              Scenario.with_launch) as [_ H].
  destruct H as [H _]; [by eexists|].
  apply H. exists 20, Scenario.launch.
  split; [reflexivity|]. split; [reflexivity|]. apply list_elem_of_here.
Defined.

Lemma set_teams_insert_insert (i : nat) (a b : Team.t) (s : Store) :
  set_teams (insert i a) (set_teams (insert i b) s) = set_teams (insert i a) s.
Proof. destruct s. unfold set_teams. simpl. f_equal. apply insert_insert_eq. Qed.





Lemma find_in_all {A} (P : nat * A → Prop) `{!∀ d, Decision (P d)}
    (c : gmap nat A) (ids : list nat) :
  length (Mongo.find (λ d, d.1 ∈ ids ∧ P d) c) = length ids →
  ∀ i, i ∈ ids → ∃ x, c !! i = Some x ∧ P (i, x).
Proof.
  intros Hlen.
  set (found := (Mongo.find (λ d, d.1 ∈ ids ∧ P d) c).*1).
  assert (Hnd : NoDup found) by apply NoDup_find_ids.
  assert (Hsub : ∀ x, x ∈ found → x ∈ ids).
  { intros x (d & Hd & Hq)%elem_of_find_ids. by destruct Hq. }
  assert (Hperm : found ≡ₚ ids).
  { apply submseteq_length_Permutation.
    - by apply NoDup_submseteq.
    - unfold found. rewrite length_fmap. lia. }
  intros i Hi. rewrite <- Hperm in Hi.
  apply elem_of_find_ids in Hi as (x & Hx & _ & Hp). eauto.
Qed.

Lemma pre_save_fields (now : Z) (tm : Team.t) :
  Team.name (Team.pre_save now tm) = Team.name tm ∧
  Team.isActive (Team.pre_save now tm) = Team.isActive tm ∧
  Team.createdBy (Team.pre_save now tm) = Team.createdBy tm.
Proof. unfold Team.pre_save. by destruct (List.find _ _). Qed.

(** X17.  What a successful POST /api/teams has checked and stored.  The
    body carried [members]; no stored team had the name, as the
    case-insensitive pattern compares; the leader is a stored user with role
    admin or team leader; the member ids are distinct and each is a stored,
    active user; the id of the team was fresh.  The stored team is the one
    returned: it has the leader and the trimmed name of the body, is active,
    was created by the actor, and the leader and every listed member are
    among its members and have the team in their [teams] list. *)
Theorem createTeam_checks (regex : string → string → bool) (req : Request)
    (body : TeamsRoutes.CreateBody) (s : Store) (r : option Team.t)
    (s' : Store) :
  TeamsRoutes.createTeam regex req body s = (Http.Success r, s') →
  ∃ leader members tm,
    TeamsRoutes.c_members body = Some members ∧
    (∀ t tm0, teams s !! t = Some tm0 →
              ¬ regex (TeamsRoutes.c_name body) (Team.name tm0)) ∧
    users s !! TeamsRoutes.c_teamLeader body = Some leader ∧
    User.role leader ∈ [User.admin; User.team_leader] ∧
    NoDup members ∧
    (∀ i, i ∈ members →
          ∃ u, users s !! i = Some u ∧ User.isActive u = true) ∧
    teams s !! new_id req = None ∧
    r = Some tm ∧ teams s' !! new_id req = Some tm ∧
    Team.teamLeader tm = TeamsRoutes.c_teamLeader body ∧
    Team.name tm = JsString.trim (TeamsRoutes.c_name body) ∧
    Team.isActive tm = true ∧ Team.createdBy tm = actor req ∧
    (∀ i, i ∈ TeamsRoutes.c_teamLeader body :: members →
          i ∈ Team.user <$> Team.members tm ∧
          ∃ u', users s' !! i = Some u' ∧ new_id req ∈ User.teams u').
Proof.
  unfold TeamsRoutes.createTeam, TeamsRoutes.createTeam_body, Save.team.
  http_unfold. unfold Mongo.findById.
  destruct (bool_decide (is_Some _)) eqn:Hname; [discriminate|].
  destruct (users s !! _) as [leader|] eqn:Hl; [|discriminate].
  destruct (negb _) eqn:Hrole; [discriminate|].
  destruct (TeamsRoutes.c_members body) as [ms|] eqn:Hm.
  2: { simpl. discriminate. }
  assert (Hms :
    (match ms with
     | [] => True
     | _ :: _ =>
         negb (bool_decide
                 (length
                    (Mongo.find
                       (λ d : nat * User.t,
                          d.1 ∈ ms ∧ User.isActive d.2 = true) (users s)) =
                  length ms)) = false
     end) →
    NoDup ms ∧
    ∀ i, i ∈ ms → ∃ u, users s !! i = Some u ∧ User.isActive u = true).
  { destruct ms as [|n l0].
    - intros _. split; [apply NoDup_nil_2|]. intros i Hi. inversion Hi.
    - intros Hlen%negb_false_iff%bool_decide_eq_true. split.
      + eapply (find_in_length (λ d : nat * User.t, User.isActive d.2 = true)).
        exact Hlen.
      + eapply (find_in_all (λ d : nat * User.t, User.isActive d.2 = true)).
        exact Hlen. }
  assert (Hfin : ∀ (tm : Team.t) (ms : list nat),
    TeamsRoutes.c_members body = Some ms →
    NoDup ms →
    (∀ i, i ∈ ms → ∃ u, users s !! i = Some u ∧ User.isActive u = true) →
    teams s !! new_id req = None →
    Team.teamLeader tm = TeamsRoutes.c_teamLeader body →
    Team.name tm = JsString.trim (TeamsRoutes.c_name body) →
    Team.isActive tm = true → Team.createdBy tm = actor req →
    (∀ i, i ∈ TeamsRoutes.c_teamLeader body :: ms →
          i ∈ Team.user <$> Team.members tm) →
    ∃ leader' members tm',
      Some ms = Some members ∧
      (∀ t tm0, teams s !! t = Some tm0 →
                ¬ regex (TeamsRoutes.c_name body) (Team.name tm0)) ∧
      Some leader = Some leader' ∧
      User.role leader' ∈ [User.admin; User.team_leader] ∧
      NoDup members ∧
      (∀ i, i ∈ members →
            ∃ u, users s !! i = Some u ∧ User.isActive u = true) ∧
      teams s !! new_id req = None ∧
      Some tm = Some tm' ∧ Some tm = Some tm' ∧
      Team.teamLeader tm' = TeamsRoutes.c_teamLeader body ∧
      Team.name tm' = JsString.trim (TeamsRoutes.c_name body) ∧
      Team.isActive tm' = true ∧ Team.createdBy tm' = actor req ∧
      (∀ i, i ∈ TeamsRoutes.c_teamLeader body :: members →
            i ∈ Team.user <$> Team.members tm' ∧
            ∃ u', Mongo.updateMany
                    (λ d : nat * User.t,
                       d.1 ∈ TeamsRoutes.c_teamLeader body :: ms)
                    (TeamsRoutes.addTeam (now req) (new_id req))
                    (users s) !! i = Some u' ∧
                  new_id req ∈ User.teams u')).
  { intros tm ms0 _ Hnd Hact Hnew ? ? ? ? Hin.
    exists leader, ms0, tm.
    split; [done|]. split.
    { intros t tm0 Ht. apply (not_found _ _ Hname t tm0 Ht). }
    split; [done|]. split.
    { apply negb_false_iff, bool_decide_eq_true in Hrole. exact Hrole. }
    do 9 (split; [done|]).
    intros i Hi. split; [by apply Hin|].
    rewrite lookup_updateMany.
    assert (Hex : ∃ u, users s !! i = Some u).
    { apply elem_of_cons in Hi as [->|Hi']; [eauto|].
      destruct (Hact i Hi') as (u & Hu & _). eauto. }
    destruct Hex as [u Hu]. rewrite Hu. simpl.
    rewrite decide_True by done.
    eexists. split; [reflexivity|]. simpl.
    apply elem_of_addToSet. by left. }
  assert (Hmem : ∀ tm0 : Team.t,
    Team.teamLeader tm0 = TeamsRoutes.c_teamLeader body →
    Team.user <$> Team.members tm0 = ms →
    ∀ i, i ∈ TeamsRoutes.c_teamLeader body :: ms →
         i ∈ Team.user <$> Team.members (Team.pre_save (now req) tm0)).
  { intros tm0 Hld Hus i [->|Hi]%elem_of_cons.
    - rewrite <- Hld. apply pre_save_leader_in.
    - apply pre_save_users. by rewrite Hus. }
  destruct ms as [|n l0].
  - destruct (teams s !! new_id req) eqn:Hnew; [discriminate|].
    simpl. rewrite lookup_insert_eq. intros [= <- <-].
    unfold set_users, set_teams. cbn [teams users]. rewrite lookup_insert_eq.
    destruct (Hms I) as [Hnd Hact].
    apply Hfin; try done; try apply pre_save_teamLeader;
      try apply pre_save_fields; try (apply Hmem; done).
  - destruct (negb (bool_decide (length _ = length _))) eqn:Hlen;
      [discriminate|].
    destruct (teams s !! new_id req) eqn:Hnew; [discriminate|].
    simpl. rewrite lookup_insert_eq. intros [= <- <-].
    unfold set_users, set_teams. cbn [teams users]. rewrite lookup_insert_eq.
    destruct (Hms eq_refl) as [Hnd Hact].
    apply Hfin; try done; try apply pre_save_teamLeader;
      try apply pre_save_fields.
    apply Hmem; [done|]. simpl. f_equal. by apply cast_users.
Qed.

Lemma createTeam_checks_witness :
  ∃ tm,
    teams
      (TeamsRoutes.createTeam Scenario.regex_test_i
         (Scenario.req_by 1 User.admin) Scenario.ops_body Scenario.org).2
      !! 100 = Some tm ∧
    Team.teamLeader tm = 3 ∧ Team.createdBy tm = 1 ∧
    (∀ i, i ∈ [3; 4] → i ∈ Team.user <$> Team.members tm).
Proof.
  refine
    (match createTeam_checks Scenario.regex_test_i
             (Scenario.req_by 1 User.admin) Scenario.ops_body Scenario.org
             _ _ _ with
     | ex_intro _ leader (ex_intro _ ms (ex_intro _ tm H)) => _
     end).
  - vm_compute. reflexivity.
  - destruct H as (Hm & _ & _ & _ & _ & _ & _ & _ & Ht & Hl & _ & _ & Hc & Hin).
    injection Hm as <-.
    exists tm. split; [exact Ht|]. split; [exact Hl|]. split; [exact Hc|].
    intros i Hi. by apply Hin.
Defined.

(** ** Projects *)

Lemma existsb_isMember_false (tm : Team.t) (ids : list nat) :
  existsb (λ memberId, negb (Team.isMember tm memberId)) ids = false →
  ∀ i, i ∈ ids → i ∈ Team.user <$> Team.members tm.
Proof.
  intros Hex i Hi. apply team_isMember_iff.
  destruct (Team.isMember tm i) eqn:E; [done|].
  assert (Ht : existsb (λ memberId, negb (Team.isMember tm memberId)) ids
               = true).
  { apply existsb_exists. exists i. split.
    - by apply list_elem_of_In.
    - by rewrite E. }
  congruence.
Qed.

Lemma cast_member_users (now : Z) (ms : list ProjectsRoutes.MemberInput) :
  Project.user <$> (ProjectsRoutes.cast_member now <$> ms) =
  ProjectsRoutes.m_user <$> ms.
Proof. rewrite <- list_fmap_compose. by apply list_fmap_ext. Qed.

(** X18.  The staff of a project comes from its team.  After a successful
    POST /api/projects the team of the body is stored, the actor is an admin
    or its leader, the manager is a stored user and a member of the team,
    every assigned member is a member of the team, and no stored project of
    the team had the name.  After a successful POST
    /api/projects/:id/members the user is stored, active, a member of the
    team of the project, was not assigned before, and is the one entry added
    to [assignedMembers], with the role of the body or [developer]. *)
Theorem project_staff_from_team (regex : string → string → bool)
    (req : Request) (s : Store) :
  (∀ body r s',
     ProjectsRoutes.createProject regex req body s = (Http.Success r, s') →
     ∃ tm p,
       teams s !! ProjectsRoutes.c_team body = Some tm ∧
       (actor_role req = User.admin ∨ Team.teamLeader tm = actor req) ∧
       is_Some (users s !! ProjectsRoutes.c_projectManager body) ∧
       r = Some p ∧ projects s' !! new_id req = Some p ∧
       Project.team p = ProjectsRoutes.c_team body ∧
       Project.projectManager p = ProjectsRoutes.c_projectManager body ∧
       Project.projectManager p ∈ Team.user <$> Team.members tm ∧
       (∀ i, i ∈ Project.user <$> Project.assignedMembers p →
             i ∈ Team.user <$> Team.members tm) ∧
       (∀ j pr, projects s !! j = Some pr →
                Project.team pr = ProjectsRoutes.c_team body →
                ¬ regex (ProjectsRoutes.c_name body) (Project.name pr))) ∧
  (∀ projectId body r s',
     ProjectsRoutes.addMember req projectId body s = (Http.Success r, s') →
     ∃ p tm u p',
       projects s !! projectId = Some p ∧
       teams s !! Project.team p = Some tm ∧
       users s !! ProjectsRoutes.a_userId body = Some u ∧
       User.isActive u = true ∧
       ProjectsRoutes.a_userId body ∈ Team.user <$> Team.members tm ∧
       (ProjectsRoutes.a_userId body ∉
          Project.user <$> Project.assignedMembers p) ∧
       r = Some p' ∧ projects s' !! projectId = Some p' ∧
       Project.assignedMembers p' =
         Project.assignedMembers p ++
           [{| Project.user := ProjectsRoutes.a_userId body;
               Project.assignedAt := now req;
               Project.role :=
                 default Project.developer (ProjectsRoutes.a_role body) |}]).
Proof.
  split.
  - intros body r s'.
    unfold ProjectsRoutes.createProject, ProjectsRoutes.createProject_body,
      Save.project.
    http_unfold. unfold Mongo.findById.
    destruct (bool_decide (is_Some _)) eqn:Hname; [discriminate|].
    destruct (teams s !! _) as [tm|] eqn:Htm; [|discriminate].
    destruct (_ && _) eqn:Hlead; [discriminate|].
    destruct (users s !! _) as [mg|] eqn:Hmg; [|discriminate].
    simpl.
    destruct (negb (Team.isMember tm _)) eqn:Hmem; [discriminate|].
    apply negb_false_iff, team_isMember_iff in Hmem.
    assert (Hall : (match ProjectsRoutes.c_assignedMembers body with
                    | Some ((_ :: _) as ms) =>
                        existsb
                          (λ memberId, negb (Team.isMember tm memberId))
                          (ProjectsRoutes.m_user <$> ms) = false
                    | _ => True
                    end) →
                   ∀ i, i ∈ ProjectsRoutes.m_user <$>
                              default [] (ProjectsRoutes.c_assignedMembers body) →
                        i ∈ Team.user <$> Team.members tm).
    { destruct (ProjectsRoutes.c_assignedMembers body) as [[|m ms]|]; simpl.
      - intros _ i Hi. inversion Hi.
      - intros Hex. by apply existsb_isMember_false.
      - intros _ i Hi. inversion Hi. }
    assert (Hfin : ∀ p : Project.t,
      Project.team p = ProjectsRoutes.c_team body →
      Project.projectManager p = ProjectsRoutes.c_projectManager body →
      Project.user <$> Project.assignedMembers p =
        ProjectsRoutes.m_user <$>
          default [] (ProjectsRoutes.c_assignedMembers body) →
      (∀ i, i ∈ ProjectsRoutes.m_user <$>
                  default [] (ProjectsRoutes.c_assignedMembers body) →
            i ∈ Team.user <$> Team.members tm) →
      ∃ tm' p',
        Some tm = Some tm' ∧
        (actor_role req = User.admin ∨ Team.teamLeader tm' = actor req) ∧
        is_Some (Some mg) ∧
        Some p = Some p' ∧ Some p = Some p' ∧
        Project.team p' = ProjectsRoutes.c_team body ∧
        Project.projectManager p' = ProjectsRoutes.c_projectManager body ∧
        Project.projectManager p' ∈ Team.user <$> Team.members tm' ∧
        (∀ i, i ∈ Project.user <$> Project.assignedMembers p' →
              i ∈ Team.user <$> Team.members tm') ∧
        (∀ j pr, projects s !! j = Some pr →
                 Project.team pr = ProjectsRoutes.c_team body →
                 ¬ regex (ProjectsRoutes.c_name body) (Project.name pr))).
    { intros p Ht Hm Hus Hin. exists tm, p.
      split; [done|]. split.
      { apply andb_false_iff in Hlead as [Hl|Hl].
        - left. apply bool_decide_eq_false in Hl.
          destruct (decide (actor_role req = User.admin)); [done|].
          by destruct Hl.
        - right. apply negb_false_iff in Hl.
          by apply bool_decide_eq_true in Hl. }
      split; [eauto|]. do 4 (split; [done|]).
      split; [by rewrite Hm|]. split; [by rewrite Hus|].
      intros j pr Hj Hteam Hre.
      apply (not_found _ _ Hname j pr Hj). by split. }
    destruct (ProjectsRoutes.c_assignedMembers body) as [[|m ms]|] eqn:Hms.
    + destruct (Project.pre_save _); [discriminate|].
      destruct (projects s !! new_id req) eqn:Hnew; [discriminate|].
      simpl. rewrite lookup_insert_eq. intros [= <- <-]. simpl.
      rewrite lookup_insert_eq. apply Hfin; try done. by apply Hall.
    + destruct (existsb _ _) eqn:Hex; [discriminate|].
      destruct (Project.pre_save _); [discriminate|].
      destruct (projects s !! new_id req) eqn:Hnew; [discriminate|].
      simpl. rewrite lookup_insert_eq. intros [= <- <-]. simpl.
      rewrite lookup_insert_eq. apply Hfin; try done.
      * simpl. f_equal. apply cast_member_users.
      * by apply Hall.
    + destruct (Project.pre_save _); [discriminate|].
      destruct (projects s !! new_id req) eqn:Hnew; [discriminate|].
      simpl. rewrite lookup_insert_eq. intros [= <- <-]. simpl.
      rewrite lookup_insert_eq. apply Hfin; try done. by apply Hall.
  - intros projectId body r s'.
    unfold ProjectsRoutes.addMember, ProjectsRoutes.addMember_body,
      Save.project.
    http_unfold. unfold Mongo.findById.
    destruct (projects s !! projectId) as [p|] eqn:Hp; [|discriminate].
    destruct (users s !! _) as [u|] eqn:Hu; [|discriminate].
    destruct (negb (User.isActive u)) eqn:Ha; [discriminate|].
    apply negb_false_iff in Ha.
    destruct (teams s !! _) as [tm|] eqn:Htm; [|discriminate].
    simpl.
    destruct (negb (Team.isMember tm _)) eqn:Hmem; [discriminate|].
    apply negb_false_iff, team_isMember_iff in Hmem.
    destruct (Project.isAssignedMember p _) eqn:Hin; [discriminate|].
    assert (Hno : ProjectsRoutes.a_userId body ∉
                    Project.user <$> Project.assignedMembers p).
    { intros Hi%project_isAssignedMember_iff. congruence. }
    assert (Hadd :
      Project.addMember (ProjectsRoutes.a_userId body)
        (Some (default Project.developer (ProjectsRoutes.a_role body)))
        (now req) p =
      Project.set_assignedMembers
        (Project.assignedMembers p ++
           [{| Project.user := ProjectsRoutes.a_userId body;
               Project.assignedAt := now req;
               Project.role :=
                 default Project.developer (ProjectsRoutes.a_role body) |}])
        p).
    { unfold Project.addMember.
      by rewrite (proj2 (project_find_None _ _) Hno). }
    rewrite Hadd.
    destruct (Project.pre_save _); [discriminate|].
    simpl. rewrite lookup_insert_eq. intros [= <- <-]. simpl.
    rewrite lookup_insert_eq.
    eexists p, tm, u, _. repeat split; try done.
Qed.

Lemma project_staff_from_team_witness :
  ∃ p',
    projects
      (ProjectsRoutes.addMember (Scenario.req_by 1 User.admin) 20
         {| ProjectsRoutes.a_userId := 2; ProjectsRoutes.a_role := None |}
         Scenario.with_launch).2 !! 20 = Some p' ∧
    Project.user <$> Project.assignedMembers p' = [4; 2].
Proof.
  refine
    (match proj2 (project_staff_from_team Scenario.regex_test_i
                    (Scenario.req_by 1 User.admin) Scenario.with_launch)
             20
             {| ProjectsRoutes.a_userId := 2; ProjectsRoutes.a_role := None |}
             _ _ _ with
     | ex_intro _ p (ex_intro _ tm (ex_intro _ u (ex_intro _ p' H))) => _
     end).
  - vm_compute. reflexivity.
  - destruct H as (Hp & _ & _ & _ & _ & _ & _ & Hs & Hms).
    injection Hp as <-.
    exists p'. split; [exact Hs|]. rewrite Hms. reflexivity.
Defined.





(** ** Tasks *)

(** X20.  What a successful POST /api/tasks has checked and stored.  The
    project is stored; the actor is an admin, its manager or the leader of
    its team; the assignee is a stored, active user who manages the project
    or is assigned to it; every dependency is a stored task of the same
    project; the due date is after the start date; the id of the task was
    fresh.  The new task is the one change to the store: it belongs to the
    project, is assigned to the assignee by the actor, has status [todo] and
    no comment or progress entry. *)
Theorem createTask_checks (req : Request) (body : TasksRoutes.CreateBody)
    (s : Store) (r : option Task.t) (s' : Store) :
  TasksRoutes.createTask req body s = (Http.Success r, s') →
  ∃ p u tk,
    projects s !! TasksRoutes.c_project body = Some p ∧
    (actor_role req = User.admin ∨
     manages s (TasksRoutes.c_project body) (actor req)) ∧
    users s !! TasksRoutes.c_assignedTo body = Some u ∧
    User.isActive u = true ∧
    participates (TasksRoutes.c_assignedTo body) p ∧
    (∀ d, d ∈ default [] (TasksRoutes.c_dependencies body) →
          ∃ dep, tasks s !! TasksRoutes.d_task d = Some dep ∧
                 Task.project dep = TasksRoutes.c_project body) ∧
    (TasksRoutes.c_startDate body < TasksRoutes.c_dueDate body)%Z ∧
    tasks s !! new_id req = None ∧
    r = Some tk ∧ s' = set_tasks (insert (new_id req) tk) s ∧
    Task.project tk = TasksRoutes.c_project body ∧
    Task.assignedTo tk = TasksRoutes.c_assignedTo body ∧
    Task.assignedBy tk = actor req ∧
    Task.status tk = Task.todo ∧
    Task.comments tk = [] ∧ Task.progressUpdates tk = [].
Proof.
  handler_unfold. unfold Task.pre_save.
  intros H. branches. all: simplify_eq.
  all: eexists _, _, _.
  all: split; [reflexivity|].
  all: split;
    [ match goal with
      | Ha : bool_decide (actor_role _ = User.admin) = true |- _ =>
          left; exact (proj1 (bool_decide_eq_true _) Ha)
      | Hm : Project.isProjectManager ?p _ = true |- _ =>
          right; exists p; split; [assumption|]; left;
          exact (proj1 (bool_decide_eq_true _) Hm)
      | Hl : negb (Team.isTeamLeader ?tm _) = false, Hp : projects _ !! _ = Some ?p
        |- _ =>
          right; exists p; split; [assumption|]; right; exists tm;
          split; [assumption|];
          apply negb_false_iff in Hl;
          exact (proj1 (bool_decide_eq_true _) Hl)
      end |].
  all: split; [reflexivity|].
  all: split;
    [ match goal with
      | Ha : negb (User.isActive _) = false |- _ =>
          by apply negb_false_iff in Ha
      end |].
  all: split;
    [ match goal with
      | Hin : negb (Project.isAssignedMember ?p ?a) &&
              negb (Project.isProjectManager ?p ?a) = false |- _ =>
          apply andb_false_iff in Hin as [Hin|Hin];
          apply negb_false_iff in Hin;
          [ right; by apply project_isAssignedMember_iff
          | left; exact (proj1 (bool_decide_eq_true _) Hin) ]
      end |].
  all: split;
    [ first
        [ match goal with
          | Hlen : negb (bool_decide (length _ = S (length ?l0))) = false,
            Hd : TasksRoutes.c_dependencies _ = Some (?d :: ?l0) |- _ =>
              apply negb_false_iff, bool_decide_eq_true in Hlen;
              intros d' Hd';
              assert (Hin : TasksRoutes.d_task d' ∈
                              TasksRoutes.d_task <$> d :: l0)
                by (apply list_elem_of_fmap; eauto);
              assert (Hlen' :
                length
                  (Mongo.find
                     (λ x : nat * Task.t,
                        x.1 ∈ TasksRoutes.d_task <$> d :: l0 ∧
                        Task.project x.2 = TasksRoutes.c_project body)
                     (tasks s)) =
                length (TasksRoutes.d_task <$> d :: l0))
                by (rewrite length_fmap; exact Hlen);
              destruct
                (find_in_all
                   (λ x : nat * Task.t,
                      Task.project x.2 = TasksRoutes.c_project body)
                   (tasks s) (TasksRoutes.d_task <$> d :: l0) Hlen'
                   (TasksRoutes.d_task d') Hin)
                as (dep & Hdep & Hpr);
              exists dep; split; [exact Hdep | exact Hpr]
          end
        | intros d' Hd'; inversion Hd' ] |].
  all: split;
    [ match goal with
      | Hdt : bool_decide (_ ≤ _)%Z = false |- _ =>
          apply bool_decide_eq_false in Hdt; lia
      end |].
  all: split; [done|].
  all: rewrite lookup_insert_eq.
  all: split; [reflexivity|].
  all: split; [reflexivity|].
  all: done.
Qed.

Lemma createTask_checks_witness :
  ∃ tk,
    tasks
      (TasksRoutes.createTask (Scenario.req_by 2 User.team_leader)
         Scenario.task_body Scenario.with_launch).2 !! 100 = Some tk ∧
    Task.status tk = Task.todo ∧ Task.assignedBy tk = 2 ∧
    Task.assignedTo tk = 4.
Proof.
  refine
    (match createTask_checks (Scenario.req_by 2 User.team_leader)
             Scenario.task_body Scenario.with_launch _ _ _ with
     | ex_intro _ p (ex_intro _ u (ex_intro _ tk H)) => _
     end).
  - vm_compute. reflexivity.
  - destruct H as (_ & _ & _ & _ & _ & _ & _ & _ & _ & Hs & _ & Hto & Hby &
                   Hst & _).
    exists tk. split.
    + assert (E : (TasksRoutes.createTask (Scenario.req_by 2 User.team_leader)
                     Scenario.task_body Scenario.with_launch).2 =
                  set_tasks (insert 100 tk) Scenario.with_launch)
        by exact Hs.
      rewrite E. simpl. apply lookup_insert_eq.
    + split; [exact Hst|]. split; [exact Hby | exact Hto].
Defined.

(** X21.  What a bystander may do with a stored task whose project and
    team are stored.  An actor who is not an admin, not the assignee, not
    the one who assigned the task, not the manager of the project and not
    the leader of its team gets 403 from PUT /api/tasks/:id, PUT
    /api/tasks/:id/progress and DELETE /api/tasks/:id, and nothing is
    written.  When they are not an assigned member of the project either,
    POST /api/tasks/:id/comments and GET /api/tasks/:id answer 403 as well;
    when they are, the comment is appended to the task (the dates of the
    task being in order), with the actor as its author and the time of the
    call, and GET returns the task with its computed fields.  For GET the
    assignee and the one who assigned the task are stored users. *)
Theorem bystander_access (req : Request) (taskId : nat) (s : Store)
    (tk : Task.t) (p : Project.t) (tm : Team.t) :
  tasks s !! taskId = Some tk →
  projects s !! Task.project tk = Some p →
  teams s !! Project.team p = Some tm →
  bystander req tk p tm →
  (∀ u, TasksRoutes.updateTask req taskId u s =
          (Http.Failure (denied "Access denied to modify this task"), s)) ∧
  (∀ b, TasksRoutes.updateProgress req taskId b s =
          (Http.Failure (denied "Access denied to update task progress"),
           s)) ∧
  TasksRoutes.deleteTask req taskId s =
    (Http.Failure (denied "Access denied to delete this task"), s) ∧
  (actor req ∉ Project.user <$> Project.assignedMembers p →
   (∀ c, TasksRoutes.addComment req taskId c s =
           (Http.Failure (denied "Access denied to comment on this task"),
            s)) ∧
   (is_Some (users s !! Task.assignedTo tk) →
    is_Some (users s !! Task.assignedBy tk) →
    TasksRoutes.getTask req taskId s =
      (Http.Failure (denied "Access denied to this task"), s))) ∧
  (actor req ∈ Project.user <$> Project.assignedMembers p →
   (∀ c, (Task.startDate tk < Task.dueDate tk)%Z →
         TasksRoutes.addComment req taskId c s =
           (Http.Success
              (Some (Task.comments tk ++
                       [{| Task.c_user := actor req; Task.c_comment := c;
                           Task.c_createdAt := now req |}])),
            set_tasks
              (insert taskId (Task.addComment (actor req) c (now req) tk))
              s)) ∧
   (is_Some (users s !! Task.assignedTo tk) →
    is_Some (users s !! Task.assignedBy tk) →
    TasksRoutes.getTask req taskId s =
      (Http.Success (tk, TasksRoutes.computed (now req) tk), s))).
Proof.
  intros Htk Hp Htm (Hr & Hto & Hby & Hpm & Hl).
  assert (Hcm : Task.canModify tk (actor req) (actor_role req) = false).
  { unfold Task.canModify. by rewrite !bool_decide_eq_false_2. }
  split; [|split; [|split; [|split]]].
  - intros u. handler_unfold. rewrite Htk. simpl. rewrite Hcm, Hp. simpl.
    unfold Project.isProjectManager, Team.isTeamLeader.
    rewrite (bool_decide_eq_false_2 _ Hpm), Hp. simpl. rewrite Htm. simpl.
    by rewrite (bool_decide_eq_false_2 _ Hl).
  - intros b. handler_unfold. rewrite Htk. simpl.
    rewrite (bool_decide_eq_false_2 _ Hto), Hcm, Hp. simpl.
    unfold Project.isProjectManager, Team.isTeamLeader.
    rewrite (bool_decide_eq_false_2 _ Hpm), Hp. simpl. rewrite Htm. simpl.
    by rewrite (bool_decide_eq_false_2 _ Hl).
  - handler_unfold. rewrite Htk. simpl.
    rewrite (bool_decide_eq_false_2 _ Hr), (bool_decide_eq_false_2 _ Hby), Hp.
    simpl. unfold Project.isProjectManager, Team.isTeamLeader.
    rewrite (bool_decide_eq_false_2 _ Hpm), Hp. simpl. rewrite Htm. simpl.
    by rewrite (bool_decide_eq_false_2 _ Hl).
  - intros Hno.
    assert (Hin : Project.isAssignedMember p (actor req) = false).
    { destruct (Project.isAssignedMember p (actor req)) eqn:E; [|done].
      by apply project_isAssignedMember_iff in E. }
    split.
    + intros c. handler_unfold. rewrite Htk. simpl.
      rewrite (bool_decide_eq_false_2 _ Hr), (bool_decide_eq_false_2 _ Hto),
        (bool_decide_eq_false_2 _ Hby), Hp.
      simpl. unfold Project.isProjectManager, Team.isTeamLeader.
      rewrite (bool_decide_eq_false_2 _ Hpm), Hp. simpl. rewrite Htm. simpl.
      rewrite (bool_decide_eq_false_2 _ Hl), Hp. simpl. by rewrite Hin.
    + intros [u1 Hu1] [u2 Hu2]. handler_unfold. rewrite Htk. simpl.
      rewrite Hp. simpl.
      rewrite (bool_decide_eq_false_2 _ Hr), Hu1. simpl.
      rewrite (bool_decide_eq_false_2 _ Hto), Hu2. simpl.
      rewrite (bool_decide_eq_false_2 _ Hby).
      unfold Project.isProjectManager, Team.isTeamLeader.
      rewrite (bool_decide_eq_false_2 _ Hpm), Htm. simpl.
      by rewrite (bool_decide_eq_false_2 _ Hl), Hin.
  - intros Hin%project_isAssignedMember_iff. split.
    + intros c Hd. handler_unfold. rewrite Htk. simpl.
      rewrite (bool_decide_eq_false_2 _ Hr), (bool_decide_eq_false_2 _ Hto),
        (bool_decide_eq_false_2 _ Hby), Hp.
      simpl. unfold Project.isProjectManager, Team.isTeamLeader.
      rewrite (bool_decide_eq_false_2 _ Hpm), Hp. simpl. rewrite Htm. simpl.
      rewrite (bool_decide_eq_false_2 _ Hl), Hp. simpl. rewrite Hin. simpl.
      unfold Task.pre_save. simpl.
      rewrite bool_decide_eq_false_2 by lia. simpl.
      by rewrite lookup_insert_eq.
    + intros [u1 Hu1] [u2 Hu2]. handler_unfold. rewrite Htk. simpl.
      rewrite Hp. simpl.
      rewrite (bool_decide_eq_false_2 _ Hr), Hu1. simpl.
      rewrite (bool_decide_eq_false_2 _ Hto), Hu2. simpl.
      rewrite (bool_decide_eq_false_2 _ Hby).
      unfold Project.isProjectManager, Team.isTeamLeader.
      rewrite (bool_decide_eq_false_2 _ Hpm), Htm. simpl.
      by rewrite (bool_decide_eq_false_2 _ Hl), Hin.
Qed.

Lemma bystander_access_witness :
  TasksRoutes.deleteTask (Scenario.req_by 3 User.team_leader) 50
    Scenario.two_teams =
    (Http.Failure (denied "Access denied to delete this task"),
     Scenario.two_teams) ∧
  TasksRoutes.getTask (Scenario.req_by 3 User.team_leader) 50
    Scenario.two_teams =
    (Http.Failure (denied "Access denied to this task"), Scenario.two_teams).
Proof.
  destruct (bystander_access (Scenario.req_by 3 User.team_leader) 50
              Scenario.two_teams Scenario.five_hours Scenario.launch
              Scenario.eng eq_refl eq_refl eq_refl)
    as (_ & _ & Hd & Hout & _).
  - repeat split; simpl; first [discriminate | lia].
  - split; [exact Hd|]. destruct Hout as [_ Hg].
    + intros Hin%project_isAssignedMember_iff. discriminate Hin.
    + apply Hg; by eexists.
Defined.

Lemma find_ext {A} (P Q : nat * A → Prop) `{!∀ d, Decision (P d)}
    `{!∀ d, Decision (Q d)} (c : gmap nat A) :
  (∀ d, P d ↔ Q d) → Mongo.find P c = Mongo.find Q c.
Proof. intros Hpq. unfold Mongo.find. by apply list_filter_iff. Qed.

(** X22.  For an actor with role [member], GET /api/tasks/my-tasks matches
    the tasks GET /api/tasks matches with the same [status] and no other
    parameter. *)
Theorem myTasks_of_a_member (regex : string → string → bool) (req : Request)
    (status : option Task.Status) (s : Store) :
  actor_role req = User.member →
  TasksRoutes.myTasks req status s =
    TasksRoutes.listTasks regex req
      {| TasksRoutes.l_search := None; TasksRoutes.l_status := status;
         TasksRoutes.l_priority := None; TasksRoutes.l_type := None;
         TasksRoutes.l_projectId := None; TasksRoutes.l_assignedTo := None;
         TasksRoutes.l_overdue := false |} s.
Proof.
  intros Hr. unfold TasksRoutes.myTasks, TasksRoutes.listTasks.
  apply find_ext. intros d.
  unfold TasksRoutes.listTasks_query, TasksRoutes.matches. rewrite Hr.
  destruct status as [st|]; simpl; rewrite Forall_nil_True; tauto.
Qed.

Lemma myTasks_of_a_member_witness :
  TasksRoutes.myTasks (Scenario.req_by 4 User.member) None
    Scenario.two_teams =
  TasksRoutes.listTasks Scenario.regex_search_i
    (Scenario.req_by 4 User.member) TasksRoutes.no_params Scenario.two_teams.
Proof.
  apply (myTasks_of_a_member Scenario.regex_search_i
           (Scenario.req_by 4 User.member) None Scenario.two_teams).
  reflexivity.
Defined.
